(** * startmcp: the MCP gateway core, embedded from the Python sources

    The development follows the source tree: [mcp/exceptions.py],
    [mcp/protocol.py], [mcp/provider.py], [mcp/aggregator.py],
    [mcp/router.py], [mcp/conflict_resolver.py], [mcp/client.py],
    [mcp/transport/stdio.py], [mcp/transport/sse.py],
    [mcp/server/stdio_server.py] and [mcp/gateway.py].

    Python values are modelled as follows.
    - [str] is [string]; the string methods used by the sources ([in],
      [startswith], [split], [lower]) are the functions of [PyStr].
    - a [dict] is an insertion-ordered association list with unique keys
      ([pydict]); assigning to an existing key keeps its position.
    - a [set] of names is a [gset string].
    - a raised exception is the [Raise] branch of [result]; an exception
      value is its class together with the single argument it was built
      from.
    - awaiting a provider or a transport is a call whose outcome is given
      with the callee; the calls made are recorded in a trace.  Where a
      coroutine is suspended, how the await ends and what the other tasks
      do meanwhile are arguments of the function.
    - what the sources leave to pydantic, [uuid] and float formatting is a
      [Variable] of the section that uses it.

    The embedding comes first, then the scenarios of the unit tests and of
    the spec, then the lemmas, component by component. *)

From stdpp Require Import base option list gmap sets strings pretty sorting.
From Stdlib Require Import Ascii ZArith QArith.QArith_base Lia.

Close Scope Q_scope.

Set Warnings "-clear-no-such-hyp".

(* ================================================================= *)
(** ** Python strings *)

Module PyStr.

(** [s.startswith(pre)] *)
Fixpoint startswith (s pre : string) : bool :=
  match pre with
  | EmptyString => true
  | String a pre' =>
      match s with
      | EmptyString => false
      | String b s' => if Ascii.eqb a b then startswith s' pre' else false
      end
  end.

(** [sub in s] *)
Fixpoint contains (sub s : string) : bool :=
  startswith s sub ||
  match s with
  | EmptyString => false
  | String _ s' => contains sub s'
  end.

(** [s[n:]] *)
Fixpoint drop (n : nat) (s : string) : string :=
  match n, s with
  | O, _ => s
  | S _, EmptyString => EmptyString
  | S n', String _ s' => drop n' s'
  end.

(** [s[:n]] *)
Fixpoint take (n : nat) (s : string) : string :=
  match n, s with
  | O, _ => EmptyString
  | S _, EmptyString => EmptyString
  | S n', String a s' => String a (take n' s')
  end.

(** The first occurrence of a non-empty separator: the text before it
    and the text after it. *)
Fixpoint partition (sep s : string) : option (string * string) :=
  if startswith s sep then Some (EmptyString, drop (String.length sep) s)
  else
    match s with
    | EmptyString => None
    | String a s' =>
        match partition sep s' with
        | Some (l, r) => Some (String a l, r)
        | None => None
        end
    end.

(** [s.split(sep, 1)] for a non-empty [sep]. *)
Definition split1 (sep s : string) : list string :=
  match partition sep s with
  | Some (l, r) => [l; r]
  | None => [s]
  end.

(** [s.split(c)] for a one-character separator [c]. *)
Fixpoint split (c : ascii) (s : string) : list string :=
  match s with
  | EmptyString => [EmptyString]
  | String a s' =>
      if Ascii.eqb a c then EmptyString :: split c s'
      else
        match split c s' with
        | w :: ws => String a w :: ws
        | [] => [String a EmptyString]
        end
  end.

Definition lower_ascii (a : ascii) : ascii :=
  let n := nat_of_ascii a in
  if (65 <=? n)%nat && (n <=? 90)%nat then ascii_of_nat (n + 32) else a.

(** [s.lower()] on ASCII text. *)
Fixpoint lower (s : string) : string :=
  match s with
  | EmptyString => EmptyString
  | String a s' => String (lower_ascii a) (lower s')
  end.

(** [sep.join(l)] *)
Fixpoint join (sep : string) (l : list string) : string :=
  match l with
  | [] => EmptyString
  | [x] => x
  | x :: l' => x +:+ sep +:+ join sep l'
  end.

(** [repr(s)] on ASCII text: quotes chosen as CPython does, the quote and
    the backslash escaped, control characters written [\t], [\n], [\r]
    or [\xNN]. *)
Definition hex_digit (n : nat) : ascii :=
  match n with
  | 0 => "0" | 1 => "1" | 2 => "2" | 3 => "3" | 4 => "4" | 5 => "5"
  | 6 => "6" | 7 => "7" | 8 => "8" | 9 => "9" | 10 => "a" | 11 => "b"
  | 12 => "c" | 13 => "d" | 14 => "e" | _ => "f"
  end%char.

Definition squote : ascii := "'"%char.
Definition dquote : ascii := ascii_of_nat 34.
Definition backslash : ascii := ascii_of_nat 92.

Definition repr_char (quote a : ascii) : string :=
  let n := nat_of_ascii a in
  if Ascii.eqb a quote || Ascii.eqb a backslash then String backslash (String a "")
  else if (n =? 9)%nat then String backslash "t"
  else if (n =? 10)%nat then String backslash "n"
  else if (n =? 13)%nat then String backslash "r"
  else if (n <? 32)%nat || (n =? 127)%nat then
    String backslash (String "x" (String (hex_digit (n / 16))
                                    (String (hex_digit (n mod 16)) "")))
  else String a "".

Fixpoint repr_body (quote : ascii) (s : string) : string :=
  match s with
  | EmptyString => EmptyString
  | String a s' => repr_char quote a +:+ repr_body quote s'
  end.

Definition repr (s : string) : string :=
  let quote :=
    if contains (String squote "") s && negb (contains (String dquote "") s)
    then dquote else squote in
  String quote (repr_body quote s +:+ String quote "").

(** [str(l)] for a list of strings *)
Definition repr_list (l : list string) : string :=
  "[" +:+ join ", " (repr <$> l) +:+ "]".

(** No occurrence of [sep] in [l +:+ sep +:+ r] starts inside [l]: the
    occurrence after [l] is the first one. *)
Fixpoint starts_no_earlier (sep l r : string) : bool :=
  match l with
  | "" => true
  | String a l' =>
      negb (startswith (l +:+ sep +:+ r) sep) && starts_no_earlier sep l' r
  end.

(** [s.strip()] on ASCII text: the white space of [str] is the
    characters 9 to 13 and 28 to 32. *)
Definition is_space (a : ascii) : bool :=
  let n := nat_of_ascii a in
  ((9 <=? n)%nat && (n <=? 13)%nat) || ((28 <=? n)%nat && (n <=? 32)%nat).

Fixpoint lstrip (s : string) : string :=
  match s with
  | EmptyString => EmptyString
  | String a s' => if is_space a then lstrip s' else s
  end.

Fixpoint rstrip (s : string) : string :=
  match s with
  | EmptyString => EmptyString
  | String a s' =>
      match rstrip s' with
      | EmptyString => if is_space a then EmptyString else String a EmptyString
      | r => String a r
      end
  end.

Definition strip (s : string) : string := rstrip (lstrip s).

(** [s.upper()] on ASCII text. *)
Definition upper_ascii (a : ascii) : ascii :=
  let n := nat_of_ascii a in
  if (97 <=? n)%nat && (n <=? 122)%nat then ascii_of_nat (n - 32) else a.

Fixpoint upper (s : string) : string :=
  match s with
  | EmptyString => EmptyString
  | String a s' => String (upper_ascii a) (upper s')
  end.

End PyStr.

(* ================================================================= *)
(** ** Exceptions ([mcp/exceptions.py] and the builtins the code raises) *)

(** The classes deriving from [Exception]: what [except Exception]
    catches.  Task cancellation is not an [exn].  [ConnectionError] is the
    subclass of [TransportError] of [mcp/exceptions.py], [HTTPError] is
    httpx's, [ValidationError] is pydantic's and a subclass of
    [ValueError]; [NotImplementedError] is a subclass of [RuntimeError];
    [OtherException] stands for any other class that derives from
    [Exception] directly. *)

Inductive exn_class : Type :=
  | ValueError
  | KeyError
  | RuntimeError
  | NotImplementedError
  | TransportError
  | ProtocolError
  | ProviderError
  | TimeoutError
  | ConnectionError
  | HTTPError
  | ValidationError
  | OtherException (type_name : string).

(** [type(e).__name__] *)
Definition class_name (c : exn_class) : string :=
  match c with
  | ValueError => "ValueError"
  | KeyError => "KeyError"
  | RuntimeError => "RuntimeError"
  | NotImplementedError => "NotImplementedError"
  | TransportError => "TransportError"
  | ProtocolError => "ProtocolError"
  | ProviderError => "ProviderError"
  | TimeoutError => "TimeoutError"
  | ConnectionError => "ConnectionError"
  | HTTPError => "HTTPError"
  | ValidationError => "ValidationError"
  | OtherException n => n
  end.

Record exn : Type := Exn { exn_type : exn_class; exn_arg : string }.

(** [isinstance(e, ValueError)] *)
Definition is_ValueError (e : exn) : bool :=
  match exn_type e with
  | ValueError | ValidationError => true
  | _ => false
  end.

(** [isinstance(e, RuntimeError)] *)
Definition is_RuntimeError (e : exn) : bool :=
  match exn_type e with
  | RuntimeError | NotImplementedError => true
  | _ => false
  end.

(** [str(e)]: the argument, except that [KeyError] shows its [repr]. *)
Definition exn_str (e : exn) : string :=
  match exn_type e with
  | KeyError => PyStr.repr (exn_arg e)
  | _ => exn_arg e
  end.

Inductive result (A : Type) : Type :=
  | Ok (a : A)
  | Raise (e : exn).
Arguments Ok {A} a.
Arguments Raise {A} e.

#[global] Instance result_ret : MRet result := λ A, Ok.
#[global] Instance result_fmap : FMap result := λ A B f r,
  match r with
  | Ok a => Ok (f a)
  | Raise e => Raise e
  end.
#[global] Instance result_bind : MBind result := λ A B k r,
  match r with
  | Ok a => k a
  | Raise e => Raise e
  end.

(* ================================================================= *)
(** ** Python dictionaries *)

Definition pydict (V : Type) : Type := list (string * V).

Section pydict.
Context {V : Type}.

(** [d.get(k)] *)
Fixpoint dict_get (k : string) (d : pydict V) : option V :=
  match d with
  | [] => None
  | (k', v) :: d' => if String.eqb k' k then Some v else dict_get k d'
  end.

(** [d[k] = v] *)
Fixpoint dict_set (k : string) (v : V) (d : pydict V) : pydict V :=
  match d with
  | [] => [(k, v)]
  | (k', v') :: d' =>
      if String.eqb k' k then (k, v) :: d' else (k', v') :: dict_set k v d'
  end.

(** [k in d] *)
Definition dict_mem (k : string) (d : pydict V) : bool :=
  match dict_get k d with Some _ => true | None => false end.

(** [d.keys()] *)
Definition dict_keys (d : pydict V) : list string := d.*1.

End pydict.

(* ================================================================= *)
(** ** JSON values *)

(** The value of [json.loads]: JSON numbers are the integers, which is
    all the sources inspect. *)
#[warnings="-register-all"]
Inductive json : Type :=
  | JNull
  | JBool (b : bool)
  | JInt (z : Z)
  | JStr (s : string)
  | JList (l : list json)
  | JDict (d : list (string * json)).

(** [repr(j)] and [str(j)] of a JSON value *)
Fixpoint json_repr (j : json) : string :=
  match j with
  | JNull => "None"
  | JBool true => "True"
  | JBool false => "False"
  | JInt z => pretty z
  | JStr s => PyStr.repr s
  | JList l => "[" +:+ PyStr.join ", " (List.map json_repr l) +:+ "]"
  | JDict d =>
      "{" +:+ PyStr.join ", "
                (List.map (λ kv, PyStr.repr kv.1 +:+ ": " +:+ json_repr kv.2) d)
          +:+ "}"
  end.

Definition json_str (j : json) : string :=
  match j with
  | JStr s => s
  | _ => json_repr j
  end.

(** Truthiness of a JSON value, and of [d.get(k)] *)
Definition json_truthy (j : json) : bool :=
  match j with
  | JNull => false
  | JBool b => b
  | JInt z => negb (z =? 0)%Z
  | JStr s => negb (String.eqb s "")
  | JList l => match l with [] => false | _ => true end
  | JDict d => match d with [] => false | _ => true end
  end.

(* ================================================================= *)
(** ** [mcp/protocol.py] *)

Record JSONRPCError : Type := {
  err_code : Z;
  err_message : string;
  err_data : option (pydict json);
}.

Inductive rpc_id : Type :=
  | IdStr (s : string)
  | IdInt (z : Z).

(** [str(request.id)] *)
Definition id_str (i : rpc_id) : string :=
  match i with
  | IdStr s => s
  | IdInt z => pretty z
  end.

Record JSONRPCRequest : Type := {
  req_id : rpc_id;
  req_method : string;
  req_params : option (pydict json);
}.

Record JSONRPCResponse : Type := {
  resp_id : rpc_id;
  resp_result : option (pydict json);
  resp_error : option JSONRPCError;
}.

Record Tool : Type := {
  tool_name : string;
  tool_description : string;
  tool_input_schema : pydict json;
  tool_provider : option string;
  tool_category : option string;
  tool_namespace_reason : option string;
}.

Inductive ResourceType : Type := TEXT | BINARY | IMAGE.

Record Resource : Type := {
  res_uri : string;
  res_name : string;
  res_description : option string;
  res_mime_type : option string;
  res_resource_type : ResourceType;
}.

Record ResourceContent : Type := {
  rc_uri : string;
  rc_mime_type : option string;
  rc_text : option string;
  rc_blob : option string;
}.

Record ToolCallResult : Type := {
  tcr_content : list (pydict json);
  tcr_is_error : bool;
}.

Record PromptParameter : Type := {
  pp_name : string;
  pp_description : string;
  pp_required : bool;
}.

Record Prompt : Type := {
  prompt_name : string;
  prompt_description : string;
  prompt_parameters : list PromptParameter;
}.

Inductive Role : Type := user | assistant | system.

Record PromptMessage : Type := {
  pm_role : Role;
  pm_content : string;
}.

Record PromptResult : Type := {
  pr_messages : list PromptMessage;
  pr_description : option string;
}.

(* ================================================================= *)
(** ** [mcp/provider.py] *)

(** A connected provider as the gateway sees it: its class metadata and
    what each MCP operation answers when it is awaited ([Raise] when the
    operation raises). *)
Record MCPProvider : Type := {
  prov_name : string;
  prov_category : option string;
  list_tools : result (list Tool);
  list_resources : result (list Resource);
  list_prompts : result (list Prompt);
  call_tool : string → json → result ToolCallResult;
  read_resource : string → result ResourceContent;
}.

(** Every awaited provider call is recorded, in order. *)
Inductive invocation : Type :=
  | CallTool (prov : string) (name : string) (arguments : json)
  | ReadResource (prov : string) (uri : string).

(* ================================================================= *)
(** ** [mcp/aggregator.py]: [ToolAggregator] *)

Record ToolAggregator : Type := {
  providers : list MCPProvider;
  _tool_cache : pydict Tool;
  _provider_map : pydict string;
  _conflicts : gset string;
}.

(** [ToolAggregator.__init__] *)
Definition ToolAggregator_init (ps : list MCPProvider) : ToolAggregator :=
  {| providers := ps; _tool_cache := []; _provider_map := []; _conflicts := ∅ |}.

(** Step 1 of [aggregate_tools]: [provider_tools[provider.name] = tools],
    the empty list standing in for a provider whose [list_tools] raised. *)
Definition tools_or_empty (p : MCPProvider) : list Tool :=
  match list_tools p with
  | Ok tools => tools
  | Raise _ => []
  end.

Definition collect_provider_tools (ps : list MCPProvider) : pydict (list Tool) :=
  foldl (λ d p, dict_set (prov_name p) (tools_or_empty p) d) [] ps.

(** Step 2: [tool_name_counts[tool.name] += 1] on a [defaultdict(int)]. *)
Definition incr_count (counts : pydict nat) (n : string) : pydict nat :=
  dict_set n (default 0 (dict_get n counts) + 1) counts.

Definition count_tool_names (provider_tools : pydict (list Tool)) : pydict nat :=
  foldl (λ counts item, foldl (λ c t, incr_count c (tool_name t)) counts item.2)
        [] provider_tools.

(** [{name for name, count in tool_name_counts.items() if count > 1}] *)
Definition detect_conflicts (counts : pydict nat) : gset string :=
  list_to_set (filter (λ item, 1 < item.2) counts).*1.

(** Step 3, the body of the inner loop: the enriched tool of one tool of
    one provider. *)
Definition enrich_tool (conflicts : gset string) (p : MCPProvider) (t : Tool) : Tool :=
  let original_name := tool_name t in
  let '(namespaced_name, namespace_reason) :=
    if decide (original_name ∈ conflicts)
    then (prov_name p +:+ ":" +:+ original_name, Some "conflict")
    else (original_name, None) in
  {| tool_name := namespaced_name;
     tool_description := tool_description t;
     tool_input_schema := tool_input_schema t;
     tool_provider := Some (prov_name p);
     tool_category := prov_category p;
     tool_namespace_reason := namespace_reason |}.

(** The loop state of step 3: the list built so far and the two maps. *)
Definition agg_acc : Type := list Tool * pydict Tool * pydict string.

Definition publish_tool (conflicts : gset string) (p : MCPProvider)
    (acc : agg_acc) (t : Tool) : agg_acc :=
  let '(aggregated_tools, cache, pmap) := acc in
  let enriched_tool := enrich_tool conflicts p t in
  (aggregated_tools ++ [enriched_tool],
   dict_set (tool_name enriched_tool) enriched_tool cache,
   dict_set (tool_name enriched_tool) (prov_name p) pmap).

Definition publish_provider (conflicts : gset string)
    (provider_tools : pydict (list Tool)) (acc : agg_acc) (p : MCPProvider) : agg_acc :=
  let tools := default [] (dict_get (prov_name p) provider_tools) in
  foldl (publish_tool conflicts p) acc tools.

(** [ToolAggregator.aggregate_tools]: the returned list and the
    aggregator afterwards.  [_conflicts] is assigned afresh; [_tool_cache]
    and [_provider_map] are the attributes as they were, updated in
    place. *)
Definition aggregate_tools (self : ToolAggregator) : list Tool * ToolAggregator :=
  let provider_tools := collect_provider_tools (providers self) in
  let tool_name_counts := count_tool_names provider_tools in
  let conflicts := detect_conflicts tool_name_counts in
  let '(aggregated_tools, cache, pmap) :=
    foldl (publish_provider conflicts provider_tools)
          ([], _tool_cache self, _provider_map self) (providers self) in
  (aggregated_tools,
   {| providers := providers self;
      _tool_cache := cache;
      _provider_map := pmap;
      _conflicts := conflicts |}).

(** The same aggregator object at a later time: its attributes are kept,
    while the providers it holds now answer as [ps] do. *)
Definition with_providers (ps : list MCPProvider) (self : ToolAggregator)
    : ToolAggregator :=
  {| providers := ps;
     _tool_cache := _tool_cache self;
     _provider_map := _provider_map self;
     _conflicts := _conflicts self |}.

(** [ToolAggregator.get_provider_for_tool] *)
Definition get_provider_for_tool (self : ToolAggregator) (tool_name : string)
    : result string :=
  match dict_get tool_name (_provider_map self) with
  | Some p => Ok p
  | None =>
      if decide (tool_name ∈ _conflicts self) then
        Raise (Exn ValueError
          ("Ambiguous tool name '" +:+ tool_name +:+ "'. " +:+
           "This tool exists in multiple providers. " +:+
           "Please use namespaced form: <provider>:" +:+ tool_name))
      else Raise (Exn KeyError ("Tool '" +:+ tool_name +:+ "' not found"))
  end.

(** [ToolAggregator.get_conflicting_tools] *)
Definition get_conflicting_tools (self : ToolAggregator) : gset string :=
  _conflicts self.

(** [ToolAggregator.get_tool_info] *)
Definition get_tool_info (self : ToolAggregator) (tool_name : string) : result Tool :=
  match dict_get tool_name (_tool_cache self) with
  | Some t => Ok t
  | None => Raise (Exn KeyError ("Tool '" +:+ tool_name +:+ "' not found"))
  end.

(* ================================================================= *)
(** ** [mcp/aggregator.py]: [ResourceAggregator] and [PromptAggregator] *)

Record ResourceAggregator : Type := {
  ra_providers : list MCPProvider;
  ra_provider_map : pydict string;
}.

(** [ResourceAggregator.__init__]: the provider name is the URI scheme. *)
Definition ResourceAggregator_init (ps : list MCPProvider) : ResourceAggregator :=
  {| ra_providers := ps;
     ra_provider_map := foldl (λ m p, dict_set (prov_name p) (prov_name p) m) [] ps |}.

(** The body of the inner loop of [aggregate_resources]. *)
Definition prefix_resource (p : MCPProvider) (resource : Resource) : Resource :=
  let original_uri := res_uri resource in
  let prefixed_uri :=
    if negb (PyStr.startswith original_uri (prov_name p +:+ "://"))
    then prov_name p +:+ "://" +:+ original_uri
    else original_uri in
  {| res_uri := prefixed_uri;
     res_name := res_name resource;
     res_description := res_description resource;
     res_mime_type := res_mime_type resource;
     res_resource_type := res_resource_type resource |}.

(** [ResourceAggregator.aggregate_resources]: a provider whose
    [list_resources] raises is skipped. *)
Definition aggregate_resources (self : ResourceAggregator) : list Resource :=
  foldl (λ aggregated_resources p,
           match list_resources p with
           | Ok resources => aggregated_resources ++ (prefix_resource p <$> resources)
           | Raise _ => aggregated_resources
           end)
        [] (ra_providers self).

(** [ResourceAggregator.get_provider_for_uri] *)
Definition get_provider_for_uri (self : ResourceAggregator) (uri : string)
    : result string :=
  if negb (PyStr.contains "://" uri) then
    Raise (Exn ValueError
      ("Invalid URI format: " +:+ uri +:+ ". Expected: <provider>://<path>"))
  else
    match PyStr.split1 "://" uri with
    | [scheme; _] =>
        match dict_get scheme (ra_provider_map self) with
        | Some p => Ok p
        | None =>
            Raise (Exn ValueError
              ("Unknown provider scheme '" +:+ scheme +:+ "' in URI: " +:+ uri
               +:+ ". " +:+ "Available providers: "
               +:+ PyStr.repr_list (dict_keys (ra_provider_map self))))
        end
    | _ => Raise (Exn ValueError "not enough values to unpack (expected 2, got 1)")
    end.

(** [ResourceAggregator.strip_provider_prefix] *)
Definition strip_provider_prefix (self : ResourceAggregator) (uri : string) : string :=
  if PyStr.contains "://" uri then
    match PyStr.split1 "://" uri with
    | [_; path] => path
    | _ => uri
    end
  else uri.

(** [PromptAggregator.aggregate_prompts] *)
Definition aggregate_prompts (ps : list MCPProvider) : list Prompt :=
  foldl (λ aggregated_prompts p,
           match list_prompts p with
           | Ok prompts => aggregated_prompts ++ prompts
           | Raise _ => aggregated_prompts
           end)
        [] ps.

(* ================================================================= *)
(** ** [mcp/router.py] *)

Record ToolRouter : Type := {
  tr_providers : pydict MCPProvider;
  tr_aggregator : ToolAggregator;
}.

(** [ToolRouter._parse_tool_name] *)
Definition _parse_tool_name (self : ToolRouter) (tool_name : string)
    : result (string * string) :=
  if PyStr.contains ":" tool_name then
    match PyStr.split1 ":" tool_name with
    | [provider_name; actual_tool_name] =>
        match get_provider_for_tool (tr_aggregator self) tool_name with
        | Ok expected_provider =>
            if negb (String.eqb expected_provider provider_name) then
              Raise (Exn ValueError
                ("Tool '" +:+ tool_name +:+ "' does not belong to provider '"
                 +:+ provider_name +:+ "'"))
            else Ok (provider_name, actual_tool_name)
        | Raise e =>
            match exn_type e with
            | KeyError =>
                Raise (Exn ValueError ("Tool '" +:+ tool_name +:+ "' not found"))
            | _ => Raise e
            end
        end
    | _ => Raise (Exn ValueError ("Invalid namespaced tool name: " +:+ tool_name))
    end
  else
    match get_provider_for_tool (tr_aggregator self) tool_name with
    | Ok provider_name => Ok (provider_name, tool_name)
    | Raise e =>
        if is_ValueError e then Raise (Exn ValueError (exn_str e))
        else
          match exn_type e with
          | KeyError =>
              Raise (Exn ValueError
                ("Tool '" +:+ tool_name +:+ "' not found. "
                 +:+ "Use 'tools/list' to see available tools."))
          | _ => Raise e
          end
    end.

(** [ToolRouter.route_tool_call]: the outcome and the provider calls made. *)
Definition route_tool_call (self : ToolRouter) (tool_name : string)
    (arguments : json)
    : result ToolCallResult * list invocation :=
  match _parse_tool_name self tool_name with
  | Raise e => (Raise e, [])
  | Ok (provider_name, actual_tool_name) =>
      match dict_get provider_name (tr_providers self) with
      | None =>
          (Raise (Exn RuntimeError
             ("Provider '" +:+ provider_name +:+ "' not available or not connected")),
           [])
      | Some provider =>
          (call_tool provider actual_tool_name arguments,
           [CallTool provider_name actual_tool_name arguments])
      end
  end.

Record ResourceRouter : Type := {
  rr_providers : pydict MCPProvider;
  rr_aggregator : ResourceAggregator;
}.

(** [ResourceRouter.route_resource_read] *)
Definition route_resource_read (self : ResourceRouter) (uri : string)
    : result ResourceContent * list invocation :=
  match get_provider_for_uri (rr_aggregator self) uri with
  | Raise e =>
      if is_ValueError e
      then (Raise (Exn ValueError ("Invalid resource URI: " +:+ exn_str e)), [])
      else (Raise e, [])
  | Ok provider_name =>
      match dict_get provider_name (rr_providers self) with
      | None =>
          (Raise (Exn RuntimeError
             ("Provider '" +:+ provider_name +:+ "' not available or not connected")),
           [])
      | Some provider =>
          let original_uri := strip_provider_prefix (rr_aggregator self) uri in
          (read_resource provider original_uri,
           [ReadResource provider_name original_uri])
      end
  end.

(** [{p.name: p for p in providers}], as the tests build the routers'
    provider table. *)
Definition providers_by_name (ps : list MCPProvider) : pydict MCPProvider :=
  foldl (λ d p, dict_set (prov_name p) p d) [] ps.

(* ================================================================= *)
(** ** [mcp/conflict_resolver.py] *)

Record ConflictResolver : Type := { cr_aggregator : ToolAggregator }.

(** The test of the loop of [get_ambiguity_error]: the cached name is a
    namespaced version of the requested tool. *)
Definition is_namespaced_version (tool_name cached_tool_name : string) : bool :=
  PyStr.contains ":" cached_tool_name &&
  match PyStr.split1 ":" cached_tool_name with
  | [_; base_name] => String.eqb base_name tool_name
  | _ => false
  end.

(** [ConflictResolver.get_ambiguity_error] *)
Definition get_ambiguity_error (self : ConflictResolver) (tool_name : string)
    : pydict json :=
  let available_variants :=
    (filter (λ item, is_namespaced_version tool_name item.1 = true)
            (_provider_map (cr_aggregator self))).*1 in
  [ ("error_type", JStr "ambiguous_tool");
    ("tool_name", JStr tool_name);
    ("message", JStr ("Tool '" +:+ tool_name +:+ "' exists in multiple providers"));
    ("available_tools", JList (JStr <$> available_variants));
    ("suggestion",
     JStr ("Please specify provider using one of: "
           +:+ PyStr.join ", " available_variants));
    ("example",
     match available_variants with
     | v :: _ => JStr ("Use '" +:+ v +:+ "' instead of '" +:+ tool_name +:+ "'")
     | [] => JNull
     end) ].

(** The score of one cached name in [_find_similar_tools]: three tests in
    a row, each assigning [score]. *)
Definition similarity_score (tool_name cached_tool_name : string) : nat :=
  let score := 0 in
  let score :=
    if PyStr.contains (PyStr.lower tool_name) (PyStr.lower cached_tool_name)
    then 10 else score in
  let score :=
    if existsb (λ word, PyStr.contains (PyStr.lower word) (PyStr.lower cached_tool_name))
               (PyStr.split "_" tool_name)
    then 5 else score in
  let score :=
    if PyStr.startswith (PyStr.lower cached_tool_name)
                        (PyStr.take 3 (PyStr.lower tool_name))
    then 3 else score in
  score.

(** [similar.sort(reverse=True, key=lambda x: x[0])]: descending by score,
    entries of equal score in their original order. *)
Fixpoint insert_by_score (x : nat * string) (l : list (nat * string))
    : list (nat * string) :=
  match l with
  | [] => [x]
  | y :: l' => if x.1 <? y.1 then y :: insert_by_score x l' else x :: y :: l'
  end.

Definition sort_by_score (l : list (nat * string)) : list (nat * string) :=
  foldr insert_by_score [] l.

(** [ConflictResolver._find_similar_tools] *)
Definition _find_similar_tools (self : ConflictResolver) (tool_name : string)
    (max_suggestions : nat) : list string :=
  let similar :=
    omap (λ cached_tool_name,
            let score := similarity_score tool_name cached_tool_name in
            if 0 <? score then Some (score, cached_tool_name) else None)
         (dict_keys (_tool_cache (cr_aggregator self))) in
  (take max_suggestions (sort_by_score similar)).*2.

(** [ConflictResolver.get_not_found_error] *)
Definition get_not_found_error (self : ConflictResolver) (tool_name : string)
    : pydict json :=
  let similar_tools := _find_similar_tools self tool_name 5 in
  [ ("error_type", JStr "tool_not_found");
    ("tool_name", JStr tool_name);
    ("message", JStr ("Tool '" +:+ tool_name +:+ "' not found"));
    ("similar_tools", JList (JStr <$> similar_tools));
    ("suggestion",
     JStr (match similar_tools with
           | [] => "Use 'tools/list' to see available tools"
           | _ => "Did you mean: " +:+ PyStr.join ", " (take 3 similar_tools)
           end)) ].

(** [ConflictResolver.get_provider_unavailable_error] *)
Definition get_provider_unavailable_error (provider_name : string) : pydict json :=
  [ ("error_type", JStr "provider_unavailable");
    ("provider_name", JStr provider_name);
    ("message", JStr ("Provider '" +:+ provider_name +:+ "' is not available"));
    ("suggestion",
     JStr "Check if the provider is enabled in config.yaml and connected") ].

(* ================================================================= *)
(** ** [mcp/transport/stdio.py] and [mcp/transport/sse.py]: the pending
       table and the reader loop *)

(** An [asyncio.Future] of a response. *)
Inductive future : Type :=
  | FPending
  | FResult (r : JSONRPCResponse)
  | FException (e : exn).

(** [future.done()] *)
Definition future_done (f : future) : bool :=
  match f with
  | FPending => false
  | _ => true
  end.

(** How an awaited call ends for its caller. *)
Inductive outcome (A : Type) : Type :=
  | Returned (a : A)
  | Raised (e : exn)
  | Cancelled.
Arguments Returned {A} a.
Arguments Raised {A} e.
Arguments Cancelled {A}.

(** What the waiter's own future delivers to [asyncio.wait_for]. *)
Inductive wait_event : Type :=
  | FutureResult (r : JSONRPCResponse)
  | FutureException (e : exn)
  | DeadlineElapsed
  | WaitCancelled.

(** How writing the request line to the child's stdin ends. *)
Inductive write_event : Type :=
  | WriteOk
  | WriteRaises (e : exn)
  | WriteCancelled.

(** How the HTTP POST of the request ends. *)
Inductive post_event : Type :=
  | PostResponse (status_code : Z) (text : string)
  | PostRaises (e : exn)
  | PostCancelled.

Record StdioTransport : Type := {
  stdio_connected : bool;
  stdio_process_stdin : bool;
  stdio_pending_requests : gmap string future;
}.

Record SSETransport : Type := {
  sse_connected : bool;
  sse_client : bool;
  sse_pending_requests : gmap string future;
}.

(** [timeout or 60.0] *)
Definition timeout_or_default (timeout : option Q) : Q :=
  match timeout with
  | Some t => if Qeq_bool t 0 then 60%Q else t
  | None => 60%Q
  end.

Section transport.
(** The constructor call of [JSONRPCResponse] on the keys of a decoded
    message (its pydantic validation), and [str] of a timeout in seconds. *)
Variable validate_response : pydict json → result JSONRPCResponse.
Variable str_float : Q → string.

(** The matched branch of both reader loops, from
    [request_id = str(message["id"])] on. *)
Definition complete_waiter (pending : gmap string future) (message : pydict json)
    : result (gmap string future) :=
  match dict_get "id" message with
  | None => Raise (Exn KeyError "id")
  | Some id =>
      let request_id := json_str id in
      match pending !! request_id with
      | Some f =>
          if negb (future_done f) then
            match validate_response message with
            | Ok response => Ok (<[request_id := FResult response]> pending)
            | Raise e =>
                Ok (<[request_id :=
                       FException (Exn TransportError
                                     ("Invalid response: " +:+ exn_str e))]> pending)
            end
          else Ok pending
      | None => Ok pending
      end
  end.

(** The test of [StdioTransport._listen_loop]:
    ["id" in message and ("result" in message or "error" in message)]. *)
Definition stdio_is_response (message : pydict json) : bool :=
  dict_mem "id" message && (dict_mem "result" message || dict_mem "error" message).

(** The test of [SSETransport._listen_loop]:
    ["id" in message and "result" in message or "error" in message]. *)
Definition sse_is_response (message : pydict json) : bool :=
  (dict_mem "id" message && dict_mem "result" message) || dict_mem "error" message.

(** The body of the loop of [StdioTransport._listen_loop]. *)
Definition stdio_handle_message (pending : gmap string future)
    (message : pydict json) : result (gmap string future) :=
  if stdio_is_response message then complete_waiter pending message
  else if dict_mem "method" message && negb (dict_mem "id" message) then Ok pending
  else Ok pending.

(** The body of the loop of [SSETransport._listen_loop]. *)
Definition sse_handle_message (pending : gmap string future)
    (message : pydict json) : result (gmap string future) :=
  if sse_is_response message then complete_waiter pending message
  else Ok pending.

(** [_listen_loop] over the messages [listen()] yields: an exception of
    the body leaves the loop ([except Exception] around the whole [async
    for]); the messages after it are never read.  The result is the
    table, the exception that ended the loop if any, and the unread
    messages. *)
Fixpoint _listen_loop
    (handle_message : gmap string future → pydict json → result (gmap string future))
    (pending : gmap string future) (messages : list (pydict json))
    : gmap string future * option exn * list (pydict json) :=
  match messages with
  | [] => (pending, None, [])
  | message :: rest =>
      match handle_message pending message with
      | Ok pending' => _listen_loop handle_message pending' rest
      | Raise e => (pending, Some e, rest)
      end
  end.

(** [isinstance(e, (TimeoutError, TransportError))] *)
Definition is_timeout_or_transport_error (e : exn) : bool :=
  match exn_type e with
  | TimeoutError | TransportError | ConnectionError => true
  | _ => false
  end.

(** The outer [except Exception] of [StdioTransport.send_request]. *)
Definition stdio_reraise (e : exn) : exn :=
  if is_timeout_or_transport_error e then e
  else Exn TransportError ("Failed to send request: " +:+ exn_str e).

Definition timed_out (request_id : string) (timeout : option Q) : exn :=
  Exn TimeoutError
    ("Request " +:+ request_id +:+ " timed out after "
     +:+ str_float (timeout_or_default timeout) +:+ "s").

(** [StdioTransport.send_request].  [write] and [wait] are how the two
    awaits end; [during_write] and [during_wait] are what the other tasks
    do to the pending table while this call is suspended. *)
Definition stdio_send_request (self : StdioTransport) (request : JSONRPCRequest)
    (timeout : option Q) (write : write_event) (wait : wait_event)
    (during_write during_wait : gmap string future → gmap string future)
    : outcome JSONRPCResponse * StdioTransport :=
  if negb (stdio_connected self) || negb (stdio_process_stdin self) then
    (Raised (Exn TransportError "Not connected"), self)
  else
    let request_id := id_str (req_id request) in
    let pending := <[request_id := FPending]> (stdio_pending_requests self) in
    let '(result, pending) :=
      match write with
      | WriteRaises e => (Raised (stdio_reraise e), during_write pending)
      | WriteCancelled => (Cancelled, during_write pending)
      | WriteOk =>
          let pending := during_wait (during_write pending) in
          match wait with
          | FutureResult r => (Returned r, pending)
          | FutureException e => (Raised (stdio_reraise e), pending)
          | DeadlineElapsed =>
              (Raised (stdio_reraise (timed_out request_id timeout)), pending)
          | WaitCancelled => (Cancelled, pending)
          end
      end in
    (result,
     {| stdio_connected := stdio_connected self;
        stdio_process_stdin := stdio_process_stdin self;
        stdio_pending_requests := delete request_id pending |}).

(** The [except httpx.HTTPError] of [SSETransport.send_request]. *)
Definition sse_reraise (e : exn) : exn :=
  match exn_type e with
  | HTTPError => Exn TransportError ("HTTP error: " +:+ exn_str e)
  | _ => e
  end.

(** [SSETransport.send_request] *)
Definition sse_send_request (self : SSETransport) (request : JSONRPCRequest)
    (timeout : option Q) (post : post_event) (wait : wait_event)
    (during_post during_wait : gmap string future → gmap string future)
    : outcome JSONRPCResponse * SSETransport :=
  if negb (sse_connected self) || negb (sse_client self) then
    (Raised (Exn TransportError "Not connected"), self)
  else
    let request_id := id_str (req_id request) in
    let pending := <[request_id := FPending]> (sse_pending_requests self) in
    let '(result, pending) :=
      match post with
      | PostRaises e => (Raised (sse_reraise e), during_post pending)
      | PostCancelled => (Cancelled, during_post pending)
      | PostResponse status_code text =>
          let pending := during_post pending in
          if (400 <=? status_code)%Z then
            (Raised (sse_reraise (Exn TransportError
               ("Server returned " +:+ pretty status_code +:+ ": " +:+ text))),
             pending)
          else
            let pending := during_wait pending in
            match wait with
            | FutureResult r => (Returned r, pending)
            | FutureException e => (Raised (sse_reraise e), pending)
            | DeadlineElapsed =>
                (Raised (sse_reraise (timed_out request_id timeout)), pending)
            | WaitCancelled => (Cancelled, pending)
            end
      end in
    (result,
     {| sse_connected := sse_connected self;
        sse_client := sse_client self;
        sse_pending_requests := delete request_id pending |}).

End transport.

(* ================================================================= *)
(** ** [mcp/client.py] *)

Record MCPClient : Type := { _request_counter : nat }.

(** The six MCP operations of the client, and what each returns. *)
Inductive mcp_operation : Type :=
  | ListResources
  | ReadResourceOp (uri : string)
  | ListTools
  | CallToolOp (name : string) (arguments : json)
  | ListPrompts
  | GetPrompt (name : string) (arguments : json).

Inductive mcp_value : Type :=
  | VResources (resources : list Resource)
  | VResourceContent (content : ResourceContent)
  | VTools (tools : list Tool)
  | VToolCallResult (r : ToolCallResult)
  | VPrompts (prompts : list Prompt)
  | VPromptResult (r : PromptResult).

Section client.
(** The transport under the client: what awaiting
    [transport.send_request(request, timeout=timeout)] gives. *)
Variable transport_send_request : JSONRPCRequest → option Q → result JSONRPCResponse.
(** [uuid.uuid4().hex[:8]] of the n-th request. *)
Variable uuid_hex8 : nat → string.
(** The pydantic models of [mcp/protocol.py]: building and dumping the
    parameter models, and validating a result against a result model. *)
Variable ResourcesReadParams_dump : string → result (pydict json).
Variable ToolsCallParams_dump : string → json → result (pydict json).
Variable PromptsGetParams_dump : string → json → result (pydict json).
Variable ResourcesListResult_parse : pydict json → result (list Resource).
Variable ResourceContent_parse : pydict json → result ResourceContent.
Variable ToolsListResult_parse : pydict json → result (list Tool).
Variable ToolCallResult_parse : pydict json → result ToolCallResult.
Variable PromptsListResult_parse : pydict json → result (list Prompt).
Variable PromptResult_parse : pydict json → result PromptResult.

(** [MCPClient._generate_request_id] *)
Definition _generate_request_id (self : MCPClient) : string * MCPClient :=
  let counter := _request_counter self + 1 in
  ("req-" +:+ pretty counter +:+ "-" +:+ uuid_hex8 counter,
   {| _request_counter := counter |}).

(** The request [_send_request] builds. *)
Definition build_request (self : MCPClient) (method : string)
    (params : option (pydict json)) : JSONRPCRequest :=
  {| req_id := IdStr (_generate_request_id self).1;
     req_method := method;
     req_params := params |}.

(** [MCPClient._send_request] *)
Definition _send_request (self : MCPClient) (method : string)
    (params : option (pydict json)) (timeout : option Q)
    : result (pydict json) * MCPClient :=
  let request := build_request self method params in
  let self := (_generate_request_id self).2 in
  match transport_send_request request timeout with
  | Raise e => (Raise e, self)
  | Ok response =>
      match resp_error response with
      | Some error =>
          (Raise (Exn ProtocolError
             ("MCP error " +:+ pretty (err_code error) +:+ ": " +:+ err_message error)),
           self)
      | None =>
          match resp_result response with
          | None =>
              (Raise (Exn ProtocolError ("No result in response for " +:+ method)),
               self)
          | Some result => (Ok result, self)
          end
      end
  end.

(** [MCPClient.list_resources] *)
Definition client_list_resources (self : MCPClient) (timeout : option Q)
    : result (list Resource) * MCPClient :=
  let '(result, self) := _send_request self "resources/list" None timeout in
  (result ≫= ResourcesListResult_parse, self).

(** [MCPClient.read_resource] *)
Definition client_read_resource (self : MCPClient) (uri : string) (timeout : option Q)
    : result ResourceContent * MCPClient :=
  match ResourcesReadParams_dump uri with
  | Raise e => (Raise e, self)
  | Ok params =>
      let '(result, self) := _send_request self "resources/read" (Some params) timeout in
      (result ≫= ResourceContent_parse, self)
  end.

(** [MCPClient.list_tools] *)
Definition client_list_tools (self : MCPClient) (timeout : option Q)
    : result (list Tool) * MCPClient :=
  let '(result, self) := _send_request self "tools/list" None timeout in
  (result ≫= ToolsListResult_parse, self).

(** [arguments or {}] *)
Definition arguments_or_empty (arguments : json) : json :=
  if json_truthy arguments then arguments else JDict [].

(** [MCPClient.call_tool] *)
Definition client_call_tool (self : MCPClient) (name : string) (arguments : json)
    (timeout : option Q) : result ToolCallResult * MCPClient :=
  match ToolsCallParams_dump name (arguments_or_empty arguments) with
  | Raise e => (Raise e, self)
  | Ok params =>
      let '(result, self) := _send_request self "tools/call" (Some params) timeout in
      (result ≫= ToolCallResult_parse, self)
  end.

(** [MCPClient.list_prompts] *)
Definition client_list_prompts (self : MCPClient) (timeout : option Q)
    : result (list Prompt) * MCPClient :=
  let '(result, self) := _send_request self "prompts/list" None timeout in
  (result ≫= PromptsListResult_parse, self).

(** [MCPClient.get_prompt] *)
Definition client_get_prompt (self : MCPClient) (name : string) (arguments : json)
    (timeout : option Q) : result PromptResult * MCPClient :=
  match PromptsGetParams_dump name (arguments_or_empty arguments) with
  | Raise e => (Raise e, self)
  | Ok params =>
      let '(result, self) := _send_request self "prompts/get" (Some params) timeout in
      (result ≫= PromptResult_parse, self)
  end.

(** An operation issued through the client, as [MCPProvider] delegates
    it. *)
Definition perform (self : MCPClient) (op : mcp_operation) (timeout : option Q)
    : result mcp_value * MCPClient :=
  match op with
  | ListResources =>
      let '(r, self) := client_list_resources self timeout in (VResources <$> r, self)
  | ReadResourceOp uri =>
      let '(r, self) := client_read_resource self uri timeout in
      (VResourceContent <$> r, self)
  | ListTools =>
      let '(r, self) := client_list_tools self timeout in (VTools <$> r, self)
  | CallToolOp name arguments =>
      let '(r, self) := client_call_tool self name arguments timeout in
      (VToolCallResult <$> r, self)
  | ListPrompts =>
      let '(r, self) := client_list_prompts self timeout in (VPrompts <$> r, self)
  | GetPrompt name arguments =>
      let '(r, self) := client_get_prompt self name arguments timeout in
      (VPromptResult <$> r, self)
  end.

(** The JSON-RPC method and parameters an operation puts on the wire
    ([MCPMethod] of [mcp/protocol.py]). *)
Definition operation_request (op : mcp_operation)
    : result (string * option (pydict json)) :=
  match op with
  | ListResources => Ok ("resources/list", None)
  | ReadResourceOp uri =>
      params ← ResourcesReadParams_dump uri; Ok ("resources/read", Some params)
  | ListTools => Ok ("tools/list", None)
  | CallToolOp name arguments =>
      params ← ToolsCallParams_dump name (arguments_or_empty arguments);
      Ok ("tools/call", Some params)
  | ListPrompts => Ok ("prompts/list", None)
  | GetPrompt name arguments =>
      params ← PromptsGetParams_dump name (arguments_or_empty arguments);
      Ok ("prompts/get", Some params)
  end.

End client.

(* ================================================================= *)
(** ** [mcp/gateway.py]: how the handlers tell error kinds apart *)

(** The test [handle_tools_call] applies to a [ValueError] from the router:
    ["ambiguous" in str(e).lower() or "multiple providers" in str(e).lower()]. *)
Definition is_ambiguity_error (e : exn) : bool :=
  PyStr.contains "ambiguous" (PyStr.lower (exn_str e))
  || PyStr.contains "multiple providers" (PyStr.lower (exn_str e)).

(** [result.model_dump(mode="json", exclude_none=True)] of a
    [ToolCallResult] *)
Definition ToolCallResult_dump (r : ToolCallResult) : pydict json :=
  [ ("content", JList (JDict <$> tcr_content r));
    ("is_error", JBool (tcr_is_error r)) ].

Record MCPGateway : Type := {
  gw_tool_router : option ToolRouter;
  gw_resource_router : option ResourceRouter;
  gw_conflict_resolver : option ConflictResolver;
}.

(** [not params.get(k)] *)
Definition member_falsy (v : option json) : bool :=
  match v with
  | Some j => negb (json_truthy j)
  | None => true
  end.

(** What the router raises on a tool name that is truthy but no [str]:
    [":" in tool_name] or, past it, the dictionary lookup or [split]. *)
Definition non_str_name_error (tool_name : json) : exn :=
  match tool_name with
  | JInt _ => Exn (OtherException "TypeError") "argument of type 'int' is not iterable"
  | JBool _ => Exn (OtherException "TypeError") "argument of type 'bool' is not iterable"
  | JList l =>
      if existsb (λ j, match j with JStr s => String.eqb s ":" | _ => false end) l
      then Exn (OtherException "AttributeError") "'list' object has no attribute 'split'"
      else Exn (OtherException "TypeError") "unhashable type: 'list'"
  | JDict d =>
      if dict_mem ":" d
      then Exn (OtherException "AttributeError") "'dict' object has no attribute 'split'"
      else Exn (OtherException "TypeError") "unhashable type: 'dict'"
  | JStr _ | JNull => Exn (OtherException "TypeError") ""
  end.

(** [MCPGateway.handle_tools_call]: the outcome and the provider calls
    made.  [error_data] is computed and not used. *)
Definition handle_tools_call (self : MCPGateway) (params : pydict json)
    : result (pydict json) * list invocation :=
  let tool_name := dict_get "name" params in
  let arguments := default (JDict []) (dict_get "arguments" params) in
  if member_falsy tool_name then (Raise (Exn ProtocolError "Tool name required"), [])
  else
    match gw_tool_router self, gw_conflict_resolver self with
    | Some tool_router, Some conflict_resolver =>
        match tool_name with
        | Some (JStr name) =>
            let '(outcome, calls) := route_tool_call tool_router name arguments in
            match outcome with
            | Ok result => (Ok (ToolCallResult_dump result), calls)
            | Raise e =>
                if is_ValueError e then
                  if is_ambiguity_error e then
                    let error_data := get_ambiguity_error conflict_resolver name in
                    (Raise (Exn ProtocolError (exn_str e)), calls)
                  else
                    let error_data := get_not_found_error conflict_resolver name in
                    (Raise (Exn ProtocolError (exn_str e)), calls)
                else if is_RuntimeError e
                then (Raise (Exn ProviderError (exn_str e)), calls)
                else (Raise e, calls)
            end
        | Some other => (Raise (non_str_name_error other), [])
        | None => (Raise (Exn ProtocolError "Tool name required"), [])
        end
    | _, _ => (Raise (Exn RuntimeError "Gateway not initialized"), [])
    end.

(** [MCPGateway.handle_prompts_get] *)
Definition handle_prompts_get (self : MCPGateway) (params : pydict json)
    : result (pydict json) * list invocation :=
  (Raise (Exn NotImplementedError "Prompt routing not yet implemented"), []).

(* ================================================================= *)
(** ** [mcp/server/base.py] and [mcp/server/stdio_server.py] *)

Definition handler : Type := pydict json → result (pydict json) * list invocation.

(** [MCPGateway.register_handlers], for the two handlers above. *)
Definition register_handlers (self : MCPGateway) : pydict handler :=
  dict_set "prompts/get" (handle_prompts_get self)
    (dict_set "tools/call" (handle_tools_call self) []).

Definition error_response (id : rpc_id) (code : Z) (message : string)
    (data : option (pydict json)) : JSONRPCResponse :=
  {| resp_id := id;
     resp_result := None;
     resp_error := Some {| err_code := code; err_message := message; err_data := data |} |}.

(** [StdioMCPServer.handle_request] *)
Definition handle_request (handlers : pydict handler) (request : JSONRPCRequest)
    : JSONRPCResponse * list invocation :=
  let method := req_method request in
  match dict_get method handlers with
  | None =>
      (error_response (req_id request) (-32601) ("Method not found: " +:+ method) None,
       [])
  | Some handler =>
      let '(outcome, calls) := handler (default [] (req_params request)) in
      match outcome with
      | Ok result =>
          ({| resp_id := req_id request; resp_result := Some result;
              resp_error := None |}, calls)
      | Raise e =>
          (error_response (req_id request) (-32000) (exn_str e)
             (Some [("type", JStr (class_name (exn_type e)))]),
           calls)
      end
  end.


(* ================================================================= *)
(** ** [mcp/conflict_resolver.py]: the summary of all conflicts *)

(** The inner loop of [get_conflict_summary]: the owners recorded in
    [_provider_map] under the namespaced versions of [tool_name]. *)
Definition conflict_providers (self : ConflictResolver) (tool_name : string)
    : list string :=
  (filter (λ item, is_namespaced_version tool_name item.1 = true)
          (_provider_map (cr_aggregator self))).*2.

(** [conflict_details[tool_name]] *)
Definition conflict_detail (self : ConflictResolver) (tool_name : string)
    : pydict json :=
  let providers := conflict_providers self tool_name in
  [ ("providers", JList (JStr <$> providers));
    ("namespaced_forms",
     JList (JStr <$> ((λ p, p +:+ ":" +:+ tool_name) <$> providers))) ].

(** [ConflictResolver.get_conflict_summary].  The order in which the loop
    walks the set of conflicting names is the order of [elements]: Python
    leaves it unspecified, and every name is visited once. *)
Definition get_conflict_summary (self : ConflictResolver) : pydict json :=
  let conflicts := get_conflicting_tools (cr_aggregator self) in
  let conflict_details :=
    (λ tool_name, (tool_name, JDict (conflict_detail self tool_name)))
      <$> elements conflicts in
  [ ("total_conflicts", JInt (Z.of_nat (size conflicts)));
    ("conflicts", JDict conflict_details);
    ("recommendation",
     JStr "Use namespaced forms (provider:tool_name) for conflicting tools") ].

(* ================================================================= *)
(** ** [mcp/gateway.py]: the gateway object, its life cycle and the
       remaining handlers *)

(** What [start] assigns together, and nothing else assigns: the three
    aggregators.  The two routers and the conflict resolver it creates
    at the same time hold no data of their own: they refer to the
    gateway's [providers] dictionary and to the tool and resource
    aggregators. *)
Record Wiring : Type := {
  tool_aggregator : ToolAggregator;
  resource_aggregator : ResourceAggregator;
  prompt_aggregator : list MCPProvider;
}.

(** The attributes of an [MCPGateway] object: [providers], the objects
    [start] wires ([None] before), and the three caches. *)
Record GatewayState : Type := {
  gs_providers : pydict MCPProvider;
  gs_wiring : option Wiring;
  _tools_cache : option (list Tool);
  _resources_cache : option (list Resource);
  _prompts_cache : option (list Prompt);
}.

(** [MCPGateway.__init__] *)
Definition GatewayState_init : GatewayState :=
  {| gs_providers := []; gs_wiring := None;
     _tools_cache := None; _resources_cache := None; _prompts_cache := None |}.

(** The routers and the resolver of a gateway object, as the handlers
    reach them: views of [providers] and of the aggregators. *)
Definition gateway_view (self : GatewayState) : MCPGateway :=
  match gs_wiring self with
  | None =>
      {| gw_tool_router := None; gw_resource_router := None;
         gw_conflict_resolver := None |}
  | Some w =>
      {| gw_tool_router :=
           Some {| tr_providers := gs_providers self;
                   tr_aggregator := tool_aggregator w |};
         gw_resource_router :=
           Some {| rr_providers := gs_providers self;
                   rr_aggregator := resource_aggregator w |};
         gw_conflict_resolver := Some {| cr_aggregator := tool_aggregator w |} |}
  end.

(** [MCPGateway._refresh_aggregations] *)
Definition _refresh_aggregations (self : GatewayState) : GatewayState :=
  match gs_wiring self with
  | None => self
  | Some w =>
      let '(tools, aggregator) := aggregate_tools (tool_aggregator w) in
      {| gs_providers := gs_providers self;
         gs_wiring :=
           Some {| tool_aggregator := aggregator;
                   resource_aggregator := resource_aggregator w;
                   prompt_aggregator := prompt_aggregator w |};
         _tools_cache := Some tools;
         _resources_cache := Some (aggregate_resources (resource_aggregator w));
         _prompts_cache := Some (aggregate_prompts (prompt_aggregator w)) |}
  end.

(** The loop of [start] over [config.enabled_providers].  An attempt is
    a configured name with how the body of the [try] ended for it:
    the connected provider ([get_provider_config], [create_provider] and
    [connect] all returned), or the exception one of them raised. *)
Definition connect_enabled (attempts : list (string * result MCPProvider))
    (providers : pydict MCPProvider) : pydict MCPProvider :=
  foldl (λ providers attempt,
           match attempt.2 with
           | Ok provider => dict_set attempt.1 provider providers
           | Raise _ => providers
           end)
        providers attempts.

(** [MCPGateway.start], from the loop over the enabled providers on. *)
Definition start (attempts : list (string * result MCPProvider))
    (self : GatewayState) : result unit * GatewayState :=
  let providers := connect_enabled attempts (gs_providers self) in
  match providers with
  | [] =>
      (Raise (Exn RuntimeError "No providers connected. Check configuration."),
       {| gs_providers := providers; gs_wiring := gs_wiring self;
          _tools_cache := _tools_cache self;
          _resources_cache := _resources_cache self;
          _prompts_cache := _prompts_cache self |})
  | _ =>
      let provider_list := providers.*2 in
      (Ok (),
       _refresh_aggregations
         {| gs_providers := providers;
            gs_wiring :=
              Some {| tool_aggregator := ToolAggregator_init provider_list;
                      resource_aggregator := ResourceAggregator_init provider_list;
                      prompt_aggregator := provider_list |};
            _tools_cache := _tools_cache self;
            _resources_cache := _resources_cache self;
            _prompts_cache := _prompts_cache self |})
  end.


(** What [ResourceRouter.route_resource_read] raises on a [uri] that is
    truthy but no [str]: from ["://" not in uri] or, past it, from
    [uri.split]. *)
Definition non_str_uri_error (uri : json) : exn :=
  match uri with
  | JInt _ => Exn (OtherException "TypeError") "argument of type 'int' is not iterable"
  | JBool _ => Exn (OtherException "TypeError") "argument of type 'bool' is not iterable"
  | JList l =>
      if existsb (λ j, match j with JStr s => String.eqb s "://" | _ => false end) l
      then Exn (OtherException "AttributeError") "'list' object has no attribute 'split'"
      else Exn ValueError
             ("Invalid resource URI: Invalid URI format: " +:+ json_repr uri
              +:+ ". Expected: <provider>://<path>")
  | JDict d =>
      if dict_mem "://" d
      then Exn (OtherException "AttributeError") "'dict' object has no attribute 'split'"
      else Exn ValueError
             ("Invalid resource URI: Invalid URI format: " +:+ json_repr uri
              +:+ ". Expected: <provider>://<path>")
  | JStr _ | JNull => Exn (OtherException "TypeError") ""
  end.

(** The two [except] clauses the handlers of [tools/call] and
    [resources/read] share: a [ValueError] leaves as [ProtocolError], a
    [RuntimeError] as [ProviderError], both with the same text; any
    other exception passes. *)
Definition reraise_for_client (e : exn) : exn :=
  if is_ValueError e then Exn ProtocolError (exn_str e)
  else if is_RuntimeError e then Exn ProviderError (exn_str e)
  else e.

Section gateway_handlers.
(** [model_dump(mode="json", exclude_none=True)] of the pydantic models
    of [mcp/protocol.py]. *)
Variable Tool_dump : Tool → pydict json.
Variable Resource_dump : Resource → pydict json.
Variable Prompt_dump : Prompt → pydict json.
Variable ResourceContent_dump : ResourceContent → pydict json.

(** [MCPGateway.handle_tools_list] *)
Definition handle_tools_list (self : GatewayState) (params : pydict json)
    : pydict json * GatewayState :=
  let self :=
    match _tools_cache self with
    | None => _refresh_aggregations self
    | Some _ => self
    end in
  ([("tools", JList (JDict <$> (Tool_dump <$> default [] (_tools_cache self))))],
   self).

(** [MCPGateway.handle_resources_list] *)
Definition handle_resources_list (self : GatewayState) (params : pydict json)
    : pydict json * GatewayState :=
  let self :=
    match _resources_cache self with
    | None => _refresh_aggregations self
    | Some _ => self
    end in
  ([("resources",
     JList (JDict <$> (Resource_dump <$> default [] (_resources_cache self))))],
   self).

(** [MCPGateway.handle_prompts_list] *)
Definition handle_prompts_list (self : GatewayState) (params : pydict json)
    : pydict json * GatewayState :=
  let self :=
    match _prompts_cache self with
    | None => _refresh_aggregations self
    | Some _ => self
    end in
  ([("prompts", JList (JDict <$> (Prompt_dump <$> default [] (_prompts_cache self))))],
   self).

(** [MCPGateway.handle_resources_read]: the outcome and the provider
    calls made. *)
Definition handle_resources_read (self : MCPGateway) (params : pydict json)
    : result (pydict json) * list invocation :=
  let uri := dict_get "uri" params in
  if member_falsy uri then (Raise (Exn ProtocolError "Resource URI required"), [])
  else
    match gw_resource_router self with
    | None => (Raise (Exn RuntimeError "Gateway not initialized"), [])
    | Some resource_router =>
        match uri with
        | Some (JStr uri) =>
            let '(outcome, calls) := route_resource_read resource_router uri in
            match outcome with
            | Ok content => (Ok (ResourceContent_dump content), calls)
            | Raise e => (Raise (reraise_for_client e), calls)
            end
        | Some other => (Raise (reraise_for_client (non_str_uri_error other)), [])
        | None => (Raise (Exn ProtocolError "Resource URI required"), [])
        end
    end.

(** [MCPGateway.register_handlers] on a gateway whose state the handlers
    leave as it is: the six handlers as functions of the parameters. *)
Definition registered_handlers (self : GatewayState) : pydict handler :=
  dict_set "prompts/get" (handle_prompts_get (gateway_view self))
    (dict_set "prompts/list" (λ params, (Ok (handle_prompts_list self params).1, []))
      (dict_set "resources/read" (handle_resources_read (gateway_view self))
        (dict_set "resources/list"
           (λ params, (Ok (handle_resources_list self params).1, []))
          (dict_set "tools/call" (handle_tools_call (gateway_view self))
            (dict_set "tools/list"
               (λ params, (Ok (handle_tools_list self params).1, [])) []))))).

End gateway_handlers.

(* ================================================================= *)
(** ** [mcp/server/stdio_server.py]: the read loop *)

(** How [json.loads(line)] ends: a value, a [JSONDecodeError] with its
    text, or another exception. *)
Inductive decoded : Type :=
  | Decoded (request_data : json)
  | JSONDecodeError (message : string)
  | DecodeRaises (e : exn).

(** How reading a line from stdin ends: the line (the empty string at
    end of input), or an exception. *)
Inductive read_event : Type :=
  | ReadLine (line : string)
  | ReadRaises (e : exn).

(** How the loop ends: end of input, an exception that reached the outer
    handler, or from outside (the task is cancelled while it waits for a
    line, or [running] was cleared). *)
Inductive loop_end : Type :=
  | EndOfInput
  | LoopFailed (e : exn)
  | LoopStopped.

Section read_loop.
(** The state behind the handlers. *)
Context {S : Type}.
(** [json.loads] and the constructor call of [JSONRPCRequest] on the
    members of [request_data] (its pydantic validation); neither
    [handle_request] nor [_send_response] raises [JSONDecodeError]. *)
Variable json_loads : string → decoded.
Variable JSONRPCRequest_validate : json → result JSONRPCRequest.
(** [self.handle_request(request)], which catches every exception of a
    handler. *)
Variable handle : S → JSONRPCRequest → JSONRPCResponse * S.

(** The loop's view of the world: the server state, the local variable
    [request] (unbound until a line validates), how the coming calls of
    [_send_response] end (the write succeeds where nothing is said), and
    the responses written to stdout so far. *)
Record loop_state : Type := {
  ls_server : S;
  ls_request : option JSONRPCRequest;
  ls_sends : list (option exn);
  ls_written : list JSONRPCResponse;
}.

(** [StdioMCPServer._send_response] *)
Definition _send_response (response : JSONRPCResponse) (st : loop_state)
    : result unit * loop_state :=
  match ls_sends st with
  | Some e :: sends =>
      (Raise e,
       {| ls_server := ls_server st; ls_request := ls_request st;
          ls_sends := sends; ls_written := ls_written st |})
  | sends =>
      (Ok (),
       {| ls_server := ls_server st; ls_request := ls_request st;
          ls_sends := tail sends; ls_written := ls_written st ++ [response] |})
  end.

(** The [except Exception] clause of the body:
    [id=request.id if "request" in locals() else "unknown"]. *)
Definition send_internal_error (e : exn) (st : loop_state) : result unit * loop_state :=
  let id :=
    match ls_request st with
    | Some request => req_id request
    | None => IdStr "unknown"
    end in
  _send_response
    (error_response id (-32603) ("Internal error: " +:+ exn_str e) None) st.

(** The inner [try] statement of the loop, for a line that is not
    blank. *)
Definition answer_line (line : string) (st : loop_state) : result unit * loop_state :=
  match json_loads line with
  | JSONDecodeError message =>
      _send_response
        (error_response (IdStr "unknown") (-32700) ("Parse error: " +:+ message) None)
        st
  | DecodeRaises e => send_internal_error e st
  | Decoded request_data =>
      match JSONRPCRequest_validate request_data with
      | Raise e => send_internal_error e st
      | Ok request =>
          let '(response, server) := handle (ls_server st) request in
          let st :=
            {| ls_server := server; ls_request := Some request;
               ls_sends := ls_sends st; ls_written := ls_written st |} in
          match _send_response response st with
          | (Ok _, st) => (Ok (), st)
          | (Raise e, st) => send_internal_error e st
          end
      end
  end.

(** [StdioMCPServer._read_loop] over the lines stdin delivers before the
    loop is stopped from outside. *)
Fixpoint _read_loop (events : list read_event) (st : loop_state)
    : loop_end * loop_state :=
  match events with
  | [] => (LoopStopped, st)
  | ReadRaises e :: _ => (LoopFailed e, st)
  | ReadLine line :: events =>
      if String.eqb line "" then (EndOfInput, st)
      else
        let line := PyStr.strip line in
        if String.eqb line "" then _read_loop events st
        else
          match answer_line line st with
          | (Ok _, st) => _read_loop events st
          | (Raise e, st) => (LoopFailed e, st)
          end
  end.

End read_loop.

(* ================================================================= *)
(** ** [mcp/config.py]: enabled providers and their settings *)

Record GlobalConfig : Type := {
  logging_level : string;
  logging_format : string;
  connection_timeout : Z;
  request_timeout : Z;
}.

Record Config : Type := {
  enabled_providers : list string;
  provider_settings : pydict (pydict json);
  global_settings : GlobalConfig;
}.

(** [Config()] *)
Definition Config_default : Config :=
  {| enabled_providers := [];
     provider_settings := [];
     global_settings :=
       {| logging_level := "INFO"; logging_format := "json";
          connection_timeout := 30; request_timeout := 60 |} |}.





(** The loop of [get_provider_config] over [os.environ.items()]. *)
Definition overlay_environment (env_prefix : string) (environ : pydict string)
    (config : pydict json) : pydict json :=
  foldl (λ config item,
           if PyStr.startswith item.1 env_prefix
           then dict_set (PyStr.lower (PyStr.drop (String.length env_prefix) item.1))
                         (JStr item.2) config
           else config)
        config environ.

(** [Config.get_provider_config]: the configuration returned and the
    [Config] afterwards.  [provider_settings.get(provider_name, {})]
    returns the stored dictionary itself when there is one, so the loop
    writes into the settings the [Config] holds. *)
Definition get_provider_config (environ : pydict string) (self : Config)
    (provider_name : string) : pydict json * Config :=
  let env_prefix := PyStr.upper provider_name +:+ "_" in
  match dict_get provider_name (provider_settings self) with
  | Some settings =>
      let config := overlay_environment env_prefix environ settings in
      (config,
       {| enabled_providers := enabled_providers self;
          provider_settings := dict_set provider_name config (provider_settings self);
          global_settings := global_settings self |})
  | None => (overlay_environment env_prefix environ [], self)
  end.

(* ================================================================= *)
(** ** [mcp/categories.py] and [mcp/registry.py] *)

Inductive ProviderCategory : Type :=
  | ENTERPRISE | DEV_TOOLS | DATA | CLOUD | WEB | CUSTOM.

#[global] Instance ProviderCategory_eq_dec : EqDecision ProviderCategory.
Proof. solve_decision. Defined.

(** [category.value] *)
Definition category_value (c : ProviderCategory) : string :=
  match c with
  | ENTERPRISE => "enterprise"
  | DEV_TOOLS => "dev_tools"
  | DATA => "data"
  | CLOUD => "cloud"
  | WEB => "web"
  | CUSTOM => "custom"
  end.

(** A provider class, by the class attributes the registry reads and by
    its [repr]. *)
Record provider_class : Type := {
  pc_repr : string;
  pc_name : string;
  pc_display_name : string;
  pc_category : ProviderCategory;
}.

Record ProviderRegistry : Type := {
  _providers : pydict provider_class;
  _instances : pydict MCPProvider;
}.

(** [ProviderRegistry.__init__] *)
Definition ProviderRegistry_init : ProviderRegistry :=
  {| _providers := []; _instances := [] |}.

(** [ProviderRegistry.register] *)
Definition register (self : ProviderRegistry) (cls : provider_class)
    : result unit * ProviderRegistry :=
  if String.eqb (pc_name cls) "" then
    (Raise (Exn ValueError
       ("Provider " +:+ pc_repr cls +:+ " must have a 'name' attribute")),
     self)
  else
    (Ok (),
     {| _providers := dict_set (pc_name cls) cls (_providers self);
        _instances := _instances self |}).

(** [ProviderRegistry.get_provider_class] *)
Definition get_provider_class (self : ProviderRegistry) (name : string)
    : option provider_class :=
  dict_get name (_providers self).

(** [ProviderRegistry.list_providers]; every category is truthy. *)
Definition list_providers (self : ProviderRegistry) (category : option ProviderCategory)
    : list provider_class :=
  let providers := (_providers self).*2 in
  match category with
  | Some category =>
      filter (λ p, pc_category p = category) providers
  | None => providers
  end.

(** [ProviderRegistry.list_by_category]: a dictionary keyed by the
    category, here by its value. *)
Definition list_by_category (self : ProviderRegistry) : pydict (list provider_class) :=
  foldl (λ result cls,
           let category := category_value (pc_category cls) in
           let result :=
             if dict_mem category result then result else dict_set category [] result in
           dict_set category (default [] (dict_get category result) ++ [cls]) result)
        [] (_providers self).*2.

Section create_provider.
(** [provider_class(config)]: the constructor of the provider class, which
    validates the configuration. *)
Variable instantiate : provider_class → option (pydict json) → result MCPProvider.

(** [ProviderRegistry.create_provider] *)
Definition create_provider (self : ProviderRegistry) (name : string)
    (config : option (pydict json)) : result MCPProvider * ProviderRegistry :=
  match get_provider_class self name with
  | None =>
      (Raise (Exn ValueError ("Provider '" +:+ name +:+ "' not found in registry")),
       self)
  | Some cls =>
      match instantiate cls config with
      | Raise e => (Raise e, self)
      | Ok instance =>
          (Ok instance,
           {| _providers := _providers self;
              _instances := dict_set name instance (_instances self) |})
      end
  end.

End create_provider.

(** [ProviderRegistry.get_instance] *)
Definition get_instance (self : ProviderRegistry) (name : string) : option MCPProvider :=
  dict_get name (_instances self).
(* ================================================================= *)
(** ** Scenarios: the fixtures of the unit tests and of the spec *)

Definition mk_tool (n d : string) : Tool :=
  {| tool_name := n; tool_description := d; tool_input_schema := [];
     tool_provider := None; tool_category := None; tool_namespace_reason := None |}.

Definition mock_provider (n cat : string) (tools : list Tool) : MCPProvider :=
  {| prov_name := n;
     prov_category := Some cat;
     list_tools := Ok tools;
     list_resources := Ok [];
     list_prompts := Ok [];
     call_tool := λ name _,
       Ok {| tcr_content := [[("type", JStr "text");
                              ("text", JStr ("Called " +:+ name +:+ " on " +:+ n))]];
             tcr_is_error := false |};
     read_resource := λ uri,
       Ok {| rc_uri := uri; rc_mime_type := None;
             rc_text := Some ("Resource " +:+ uri); rc_blob := None |} |}.

Definition providers_with_conflicts : list MCPProvider :=
  [ mock_provider "provider1" "enterprise"
      [mk_tool "search" "Search P1"; mk_tool "unique_p1" "Unique to P1"];
    mock_provider "provider2" "dev_tools"
      [mk_tool "search" "Search P2"; mk_tool "unique_p2" "Unique to P2"] ].

Definition conflict_router : ToolRouter :=
  {| tr_providers := providers_by_name providers_with_conflicts;
     tr_aggregator :=
       (aggregate_tools (ToolAggregator_init providers_with_conflicts)).2 |}.

Definition resource_router (ps : list MCPProvider) : ResourceRouter :=
  {| rr_providers := providers_by_name ps;
     rr_aggregator := ResourceAggregator_init ps |}.

(** A single provider whose answer lists ["search"] twice. *)
Definition provider_with_repeated_tool : MCPProvider :=
  mock_provider "p1" "enterprise"
    [mk_tool "search" "Search"; mk_tool "search" "Search again"].

(** Scenario 2 of the spec: [p1] and [p2] both return [search]. *)
Definition scenario2_providers : list MCPProvider :=
  [ mock_provider "p1" "enterprise"
      [mk_tool "search" "Search P1"; mk_tool "unique_p1" "Unique to P1"];
    mock_provider "p2" "dev_tools"
      [mk_tool "search" "Search P2"; mk_tool "unique_p2" "Unique to P2"] ].

Definition scenario2_router : ToolRouter :=
  {| tr_providers := providers_by_name scenario2_providers;
     tr_aggregator := (aggregate_tools (ToolAggregator_init scenario2_providers)).2 |}.

(** A provider whose name itself holds the scheme separator. *)
Definition provider_named_like_uri : MCPProvider := mock_provider "a://b" "custom" [].

(** Two runs of one aggregator: first only [p1] returns [search], then
    [p1] and [p2] both do. *)
Definition catalog_before : list MCPProvider :=
  [ mock_provider "p1" "enterprise" [mk_tool "search" "Search P1"];
    mock_provider "p2" "dev_tools" [] ].

Definition catalog_after : list MCPProvider :=
  [ mock_provider "p1" "enterprise" [mk_tool "search" "Search P1"];
    mock_provider "p2" "dev_tools" [mk_tool "search" "Search P2"] ].

Definition after_first_run : ToolAggregator :=
  (aggregate_tools (ToolAggregator_init catalog_before)).2.

Definition second_run : list Tool * ToolAggregator :=
  aggregate_tools (with_providers catalog_after after_first_run).

(** A catalog with six names that all contain ["search"]; only the first
    one starts with it. *)
Definition search_catalog : ConflictResolver :=
  {| cr_aggregator :=
       (aggregate_tools (ToolAggregator_init
          [ mock_provider "p1" "enterprise"
              [ mk_tool "search_issues" "";
                mk_tool "research_a" ""; mk_tool "research_b" "";
                mk_tool "research_c" ""; mk_tool "research_d" "";
                mk_tool "research_e" "" ] ])).2 |}.

(** An error object that names no request. *)
Definition error_without_id : pydict json :=
  [ ("jsonrpc", JStr "2.0");
    ("error", JDict [("code", JInt (-32700)); ("message", JStr "Parse error")]) ].

Definition ambiguous_call : JSONRPCRequest :=
  {| req_id := IdInt 1;
     req_method := "tools/call";
     req_params := Some [("name", JStr "search"); ("arguments", JDict [("q", JStr "x")])] |}.

(** The gateway of scenario 2, as [MCPGateway.start] wires it. *)
Definition gateway_over (ps : list MCPProvider) : MCPGateway :=
  let tool_aggregator := (aggregate_tools (ToolAggregator_init ps)).2 in
  {| gw_tool_router :=
       Some {| tr_providers := providers_by_name ps; tr_aggregator := tool_aggregator |};
     gw_resource_router :=
       Some {| rr_providers := providers_by_name ps;
               rr_aggregator := ResourceAggregator_init ps |};
     gw_conflict_resolver := Some {| cr_aggregator := tool_aggregator |} |}.


(** Dumps of the models, for the scenarios: the fields in the order of
    their declaration, a field that is [None] left out. *)
Definition optional_member (k : string) (v : option string) : pydict json :=
  match v with
  | Some s => [(k, JStr s)]
  | None => []
  end.

Definition dump_tool (t : Tool) : pydict json :=
  [ ("name", JStr (tool_name t)); ("description", JStr (tool_description t));
    ("input_schema", JDict (tool_input_schema t)) ]
  ++ optional_member "provider" (tool_provider t)
  ++ optional_member "category" (tool_category t)
  ++ optional_member "namespace_reason" (tool_namespace_reason t).

Definition dump_resource (r : Resource) : pydict json :=
  [ ("uri", JStr (res_uri r)); ("name", JStr (res_name r)) ]
  ++ optional_member "description" (res_description r)
  ++ optional_member "mime_type" (res_mime_type r)
  ++ [ ("resource_type",
        JStr match res_resource_type r with
             | TEXT => "text" | BINARY => "binary" | IMAGE => "image"
             end) ].

Definition dump_prompt (p : Prompt) : pydict json :=
  [ ("name", JStr (prompt_name p)); ("description", JStr (prompt_description p));
    ("parameters",
     JList ((λ q, JDict [ ("name", JStr (pp_name q));
                          ("description", JStr (pp_description q));
                          ("required", JBool (pp_required q)) ])
              <$> prompt_parameters p)) ].

Definition dump_content (c : ResourceContent) : pydict json :=
  [ ("uri", JStr (rc_uri c)) ]
  ++ optional_member "mime_type" (rc_mime_type c)
  ++ optional_member "text" (rc_text c)
  ++ optional_member "blob" (rc_blob c).

(** The gateway of scenario 2 after [start]: both providers connect. *)
Definition scenario2_attempts : list (string * result MCPProvider) :=
  (λ p, (prov_name p, Ok p)) <$> scenario2_providers.

Definition started_gateway : GatewayState :=
  (start scenario2_attempts GatewayState_init).2.

Definition started_handlers : pydict handler :=
  registered_handlers dump_tool dump_resource dump_prompt dump_content started_gateway.
(* ================================================================= *)
(** ** Vocabulary of the statements *)

(** How many tools named [n] one answer holds, and how many the answers
    of all providers hold together. *)
Definition name_count (n : string) (ts : list Tool) : nat :=
  length (filter (λ t, tool_name t = n) ts).

Definition occurrences (n : string) (ps : list MCPProvider) : nat :=
  sum_list_with (λ p, name_count n (tools_or_empty p)) ps.

(** Reading a [defaultdict(int)]. *)
Definition count_of (n : string) (counts : pydict nat) : nat :=
  default 0 (dict_get n counts).

(** A run of assignments [d[k] = v], in order. *)
Definition store_all {V} (kvs : list (string * V)) (d : pydict V) : pydict V :=
  foldl (λ d kv, dict_set kv.1 kv.2 d) d kvs.

(** Every tool some provider returned, with the provider that returned it,
    in the order [aggregate_tools] walks them. *)
Definition returned_tools (ps : list MCPProvider) : list (MCPProvider * Tool) :=
  ps ≫= (λ p, pair p <$> tools_or_empty p).

(** What [aggregate_tools] promises about one returned tool [t] of
    provider [p] and the tool [e] published for it. *)
Definition published_as (ps : list MCPProvider) (conflicts : gset string)
    (p : MCPProvider) (t e : Tool) : Prop :=
  (tool_name e = tool_name t ↔ occurrences (tool_name t) ps = 1) ∧
  (tool_name e ≠ tool_name t → tool_name e = prov_name p +:+ ":" +:+ tool_name t) ∧
  (tool_namespace_reason e = Some "conflict" ↔ tool_name t ∈ conflicts) ∧
  (tool_namespace_reason e = None ↔ tool_name t ∉ conflicts) ∧
  tool_provider e = Some (prov_name p) ∧
  tool_category e = prov_category p ∧
  tool_description e = tool_description t ∧
  tool_input_schema e = tool_input_schema t.

(** Provider [p] returns a tool named [n]. *)
Definition returns (p : MCPProvider) (n : string) : Prop :=
  ∃ t, t ∈ tools_or_empty p ∧ tool_name t = n.

(** The claim as the spec words it: a tool keeps its natural name iff no
    other provider returns a tool of that name, and the conflict set holds
    the names returned by more than one provider. *)
Definition natural_iff_unshared (self : ToolAggregator) : Prop :=
  let ps := providers self in
  let run := aggregate_tools self in
  (∀ n, n ∈ _conflicts run.2
        ↔ ∃ p q, p ∈ ps ∧ q ∈ ps ∧ prov_name p ≠ prov_name q
                 ∧ returns p n ∧ returns q n) ∧
  Forall2 (λ pt e,
             (tool_name e = tool_name pt.2
              ↔ ¬ ∃ q, q ∈ ps ∧ prov_name q ≠ prov_name pt.1
                       ∧ returns q (tool_name pt.2)) ∧
             (tool_name e ≠ tool_name pt.2 →
              tool_name e = prov_name pt.1 +:+ ":" +:+ tool_name pt.2))
          (returned_tools ps) run.1.

(** Every resource some provider listed, with the provider that listed
    it, in the order [aggregate_resources] walks them. *)
Definition emitted_resources (ps : list MCPProvider) : list (MCPProvider * Resource) :=
  ps ≫= (λ p, match list_resources p with
              | Ok resources => pair p <$> resources
              | Raise _ => []
              end).

(** What [aggregate_resources] promises about one listed resource [r] of
    provider [p] and the resource [r'] published for it. *)
Definition published_resource (p : MCPProvider) (r r' : Resource) : Prop :=
  (PyStr.startswith (res_uri r) (prov_name p +:+ "://") = false →
   res_uri r' = prov_name p +:+ "://" +:+ res_uri r) ∧
  (PyStr.startswith (res_uri r) (prov_name p +:+ "://") = true →
   res_uri r' = res_uri r) ∧
  res_name r' = res_name r ∧
  res_description r' = res_description r ∧
  res_mime_type r' = res_mime_type r ∧
  res_resource_type r' = res_resource_type r.

(** The claim as the spec words it: every URI [p://rest] whose [p] names a
    known provider is read as [rest] from that provider. *)
Definition prefixed_uri_reaches_provider (ps : list MCPProvider) : Prop :=
  ∀ p rest,
    p ∈ prov_name <$> ps →
    ∃ P, P ∈ ps ∧ prov_name P = p ∧
         route_resource_read (resource_router ps) (p +:+ "://" +:+ rest)
         = (read_resource P rest, [ReadResource p rest]).

(** What [_send_request] makes of the transport's answer. *)
Definition unwrap_response (method : string) (answer : result JSONRPCResponse)
    : result (pydict json) :=
  match answer with
  | Raise e => Raise e
  | Ok response =>
      match resp_error response with
      | Some error =>
          Raise (Exn ProtocolError
            ("MCP error " +:+ pretty (err_code error) +:+ ": " +:+ err_message error))
      | None =>
          match resp_result response with
          | None => Raise (Exn ProtocolError ("No result in response for " +:+ method))
          | Some result => Ok result
          end
      end
  end.

(** The tools step 3 of [aggregate_tools] reads for a provider, the
    tools it publishes and the owners it records, in order. *)
Definition tools_of (provider_tools : pydict (list Tool)) (p : MCPProvider)
    : list Tool :=
  default [] (dict_get (prov_name p) provider_tools).

Definition published_tools (conflicts : gset string)
    (provider_tools : pydict (list Tool)) (ps : list MCPProvider) : list Tool :=
  ps ≫= (λ p, enrich_tool conflicts p <$> tools_of provider_tools p).

Definition published_owners (conflicts : gset string)
    (provider_tools : pydict (list Tool)) (ps : list MCPProvider)
    : list (string * string) :=
  ps ≫= (λ p, (λ t, (tool_name (enrich_tool conflicts p t), prov_name p))
                <$> tools_of provider_tools p).

(** The states of one aggregator over providers of the given names: after
    its first run, and after every later run over the answers the
    providers give then. *)
Inductive aggregated_catalog (names : list string) : ToolAggregator → Prop :=
  | first_run ps :
      prov_name <$> ps = names →
      aggregated_catalog names (aggregate_tools (ToolAggregator_init ps)).2
  | later_run self ps :
      aggregated_catalog names self →
      prov_name <$> ps = names →
      aggregated_catalog names (aggregate_tools (with_providers ps self)).2.

(** The invariant of the aggregated catalog after a run: every key of
    [_tool_cache] is a name published in that run, and no natural name of
    the conflict set is a key. *)
Definition catalog_of_this_run (run : list Tool * ToolAggregator) : Prop :=
  (∀ k, is_Some (dict_get k (_tool_cache run.2)) → k ∈ tool_name <$> run.1) ∧
  (∀ n, n ∈ _conflicts run.2 → dict_get n (_tool_cache run.2) = None).

(** What the spec asks of the body of a reader loop on the messages that
    are no responses (no [id], or neither [result] nor [error]): they are
    ignored without error. *)
Definition ignores_unmatched
    (handle_message : gmap string future → pydict json → result (gmap string future))
    : Prop :=
  ∀ pending message,
    dict_mem "id" message && (dict_mem "result" message || dict_mem "error" message)
    = false →
    handle_message pending message = Ok pending.

(** A JSON-RPC response that reports a handler error of the given kind:
    [error.code = -32000] and [error.data.type = kind]. *)
Definition reports_error_kind (response : JSONRPCResponse) (kind : string) : Prop :=
  ∃ error data,
    resp_error response = Some error ∧
    err_code error = (-32000)%Z ∧
    err_data error = Some data ∧
    dict_get "type" data = Some (JStr kind).

(** Closed goals about the scenarios are settled by evaluation. *)
Ltac by_evaluation :=
  first [ vm_compute; reflexivity
        | apply (bool_decide_unpack _); vm_compute; exact I ].


(* ================================================================= *)
(** ** Vocabulary: catalogs whose names can be told apart *)

(** No provider name and no tool name of the providers' answers holds a
    [":"], the separator of namespaced tool names. *)
Definition colon_free (ps : list MCPProvider) : bool :=
  forallb (λ p, negb (PyStr.contains ":" (prov_name p))
                && forallb (λ t, negb (PyStr.contains ":" (tool_name t)))
                           (tools_or_empty p))
          ps.

(** No provider name holds a ["://"], the separator of prefixed URIs. *)
Definition scheme_free (ps : list MCPProvider) : bool :=
  forallb (λ p, negb (PyStr.contains "://" (prov_name p))) ps.

(** The tool router [MCPGateway.start] builds over its providers. *)
Definition tool_router_over (ps : list MCPProvider) (agg : ToolAggregator)
    : ToolRouter :=
  {| tr_providers := providers_by_name ps; tr_aggregator := agg |}.

(** [list_tools] of the provider returned. *)
Definition answers_tools (p : MCPProvider) : bool :=
  match list_tools p with
  | Ok _ => true
  | Raise _ => false
  end.

(** The value of the last assignment to [k] in a run of assignments. *)
Definition last_assigned {V} (k : string) (kvs : list (string * V)) : option V :=
  foldl (λ acc kv, if String.eqb kv.1 k then Some kv.2 else acc) None kvs.

(** The URI a provider is asked for when a published URI is read: the
    listed URI, without the provider's own prefix if it had one. *)
Definition uri_read_back (p : MCPProvider) (r : Resource) : string :=
  if PyStr.startswith (res_uri r) (prov_name p +:+ "://")
  then PyStr.drop (String.length (prov_name p +:+ "://")) (res_uri r)
  else res_uri r.

(** The prompts a provider contributes to the aggregate. *)
Definition prompts_or_empty (p : MCPProvider) : list Prompt :=
  match list_prompts p with
  | Ok prompts => prompts
  | Raise _ => []
  end.

(** Scored names in descending order of score. *)
Definition by_score_desc : relation (nat * string) := λ x y, y.1 ≤ x.1.



(** The answer of the gateway to a request whose routing led to the
    provider call with the given outcome: the dumped result, or the
    error [-32000] with [str(e)] as its message and, as [data.type], the
    class name of the exception that left the handler. *)
Definition answer_of {A} (dump : A → pydict json) (id : rpc_id) (outcome : result A)
    : JSONRPCResponse :=
  match outcome with
  | Ok r => {| resp_id := id; resp_result := Some (dump r); resp_error := None |}
  | Raise e =>
      error_response id (-32000) (exn_str (reraise_for_client e))
        (Some [("type", JStr (class_name (exn_type (reraise_for_client e))))])
  end.

(** A response that is an error [-32000] raised without any provider
    being involved: [data.type] is one of the two classes the handlers
    raise themselves, or [RuntimeError] (gateway not initialized), or the
    class of the error a malformed parameter caused. *)
Definition error_answer (response : JSONRPCResponse) (id : rpc_id) : Prop :=
  resp_id response = id ∧ resp_result response = None ∧
  ∃ kind, reports_error_kind response kind.

(** The attempts of [start] that connected, in order. *)
Definition connected_attempts (attempts : list (string * result MCPProvider))
    : list (string * MCPProvider) :=
  omap (λ attempt, match attempt.2 with
                   | Ok provider => Some (attempt.1, provider)
                   | Raise _ => None
                   end)
       attempts.

(** The state [start] leaves when it wired the gateway over the given
    table of providers, starting from a new gateway object. *)
Definition wired_over (providers : pydict MCPProvider) : GatewayState :=
  let provider_list := providers.*2 in
  let run := aggregate_tools (ToolAggregator_init provider_list) in
  {| gs_providers := providers;
     gs_wiring :=
       Some {| tool_aggregator := run.2;
               resource_aggregator := ResourceAggregator_init provider_list;
               prompt_aggregator := provider_list |};
     _tools_cache := Some run.1;
     _resources_cache :=
       Some (aggregate_resources (ResourceAggregator_init provider_list));
     _prompts_cache := Some (aggregate_prompts provider_list) |}.

(** Every provider of the table is stored under its own name. *)
Definition keyed_by_name (providers : pydict MCPProvider) : Prop :=
  Forall (λ item, prov_name item.2 = item.1) providers.

(** A [tools/call] request. *)
Definition tools_call_request (id : rpc_id) (name : string) (arguments : json)
    : JSONRPCRequest :=
  {| req_id := id; req_method := "tools/call";
     req_params := Some [("name", JStr name); ("arguments", arguments)] |}.

(** The assignments [get_provider_config] makes for the environment: one
    for every variable whose name starts with the prefix, in the order of
    the environment. *)
Definition environment_overrides (env_prefix : string) (environ : pydict string)
    : list (string * json) :=
  omap (λ item,
          if PyStr.startswith item.1 env_prefix
          then Some (PyStr.lower (PyStr.drop (String.length env_prefix) item.1),
                     JStr item.2)
          else None)
       environ.


(** The registry after [register] was called with each of the classes in
    turn, on a new registry, whether the call raised or not. *)
Definition registered (classes : list provider_class) : ProviderRegistry :=
  foldl (λ self cls, (register self cls).2) ProviderRegistry_init classes.

(** The classes that have a name, each with its name. *)
Definition by_class_name (classes : list provider_class)
    : list (string * provider_class) :=
  (λ cls, (pc_name cls, cls)) <$> filter (λ cls, pc_name cls ≠ "") classes.

(* ================================================================= *)
(** ** Vocabulary: the lines of the read loop *)

(** The lines the loop answers: the lines read before the end of input
    or a failing read that are not blank, stripped. *)
Fixpoint lines_to_answer (events : list read_event) : list string :=
  match events with
  | ReadLine line :: events =>
      if String.eqb line "" then []
      else if String.eqb (PyStr.strip line) "" then lines_to_answer events
      else PyStr.strip line :: lines_to_answer events
  | _ => []
  end.

(** How the reads end when no write fails: the end of input, the first
    failing read, or none of them. *)
Fixpoint reads_end (events : list read_event) : loop_end :=
  match events with
  | [] => LoopStopped
  | ReadRaises e :: _ => LoopFailed e
  | ReadLine line :: events =>
      if String.eqb line "" then EndOfInput else reads_end events
  end.

Section read_loop_vocabulary.
Context {S : Type}.
Variable json_loads : string → decoded.
Variable JSONRPCRequest_validate : json → result JSONRPCRequest.
Variable handle : S → JSONRPCRequest → JSONRPCResponse * S.

(** The request a line holds, if it decodes and validates. *)
Definition validated_request (line : string) : option JSONRPCRequest :=
  match json_loads line with
  | Decoded request_data =>
      match JSONRPCRequest_validate request_data with
      | Ok request => Some request
      | Raise _ => None
      end
  | _ => None
  end.

(** The last request that validated, among the lines answered. *)
Definition last_validated (events : list read_event)
    (request : option JSONRPCRequest) : option JSONRPCRequest :=
  foldl (λ request line,
           match validated_request line with
           | Some r => Some r
           | None => request
           end)
        request (lines_to_answer events).

(** A response that answers a line: the parse error for a line that is
    no JSON, the response of [handle_request] for a line that holds a
    request, and an internal error under some id for any other line. *)
Definition answers_line (line : string) (response : JSONRPCResponse) : Prop :=
  match json_loads line with
  | JSONDecodeError message =>
      response = error_response (IdStr "unknown") (-32700)
                   ("Parse error: " +:+ message) None
  | DecodeRaises e =>
      ∃ id, response = error_response id (-32603)
                         ("Internal error: " +:+ exn_str e) None
  | Decoded request_data =>
      match JSONRPCRequest_validate request_data with
      | Ok request => ∃ server, response = (handle server request).1
      | Raise e =>
          ∃ id, response = error_response id (-32603)
                             ("Internal error: " +:+ exn_str e) None
      end
  end.

End read_loop_vocabulary.

(** A stdin fixture: the line ["A"] holds the request [tools/list] with
    id 1, the line ["B"] is JSON that is no request, and any other line is
    no JSON. *)
Definition fixture_loads (line : string) : decoded :=
  if String.eqb line "A"
  then Decoded (JDict [("id", JInt 1); ("method", JStr "tools/list")])
  else if String.eqb line "B" then Decoded (JDict [("id", JInt 2)])
  else JSONDecodeError "Expecting value: line 1 column 1 (char 0)".

Definition fixture_validate (request_data : json) : result JSONRPCRequest :=
  match request_data with
  | JDict [("id", JInt id); ("method", JStr method)] =>
      Ok {| req_id := IdInt id; req_method := method; req_params := None |}
  | _ => Raise (Exn ValidationError "1 validation error for JSONRPCRequest")
  end.

Definition fixture_handle (server : unit) (request : JSONRPCRequest)
    : JSONRPCResponse * unit :=
  ((handle_request started_handlers request).1, server).

Definition fixture_state : loop_state :=
  {| ls_server := (); ls_request := None; ls_sends := []; ls_written := [] |}.
(* ================================================================= *)
(** ** Dictionaries: lookups after updates *)

Section pydict_facts.
Context {V : Type}.
Implicit Types (d : pydict V) (k : string) (v : V).

Lemma dict_get_set_eq d k v : dict_get k (dict_set k v d) = Some v.
Proof.
  induction d as [|[k' v'] d IH]; simpl.
  - by rewrite String.eqb_refl.
  - destruct (String.eqb_spec k' k) as [->|Hne]; simpl.
    + by rewrite String.eqb_refl.
    + by destruct (String.eqb_spec k' k).
Qed.

Lemma dict_get_set_ne d k k' v :
  k ≠ k' → dict_get k' (dict_set k v d) = dict_get k' d.
Proof.
  intros Hne. induction d as [|[k0 v0] d IH]; simpl.
  - by destruct (String.eqb_spec k k').
  - destruct (String.eqb_spec k0 k) as [->|Hk0]; simpl.
    + by destruct (String.eqb_spec k k').
    + by rewrite IH.
Qed.

Lemma dict_get_set d k k' v :
  dict_get k' (dict_set k v d) = if decide (k = k') then Some v else dict_get k' d.
Proof.
  destruct (decide (k = k')) as [->|Hne].
  - apply dict_get_set_eq.
  - by apply dict_get_set_ne.
Qed.

Lemma dict_get_None d k : dict_get k d = None ↔ k ∉ dict_keys d.
Proof.
  unfold dict_keys. induction d as [|[k' v'] d IH]; simpl.
  - split; [intros _; apply not_elem_of_nil | done].
  - rewrite not_elem_of_cons. destruct (String.eqb_spec k' k) as [->|Hne].
    + split; [done | by intros [? _]].
    + rewrite IH. split; [intros ?; split; [congruence | done] | by intros [_ ?]].
Qed.

Lemma dict_get_Some_elem d k v : dict_get k d = Some v → (k, v) ∈ d.
Proof.
  induction d as [|[k' v'] d IH]; simpl; [done|].
  destruct (String.eqb_spec k' k) as [->|Hne].
  - intros [= ->]. apply list_elem_of_here.
  - intros ?. apply list_elem_of_further. auto.
Qed.

Lemma dict_elem_get d k v :
  NoDup (dict_keys d) → (k, v) ∈ d → dict_get k d = Some v.
Proof.
  unfold dict_keys. induction d as [|[k' v'] d IH]; simpl.
  - intros _ ?%elem_of_nil. done.
  - rewrite NoDup_cons. intros [Hk' Hnd] [Heq|Hin]%elem_of_cons.
    + simplify_eq. by rewrite String.eqb_refl.
    + destruct (String.eqb_spec k' k) as [->|Hne]; [|by apply IH].
      exfalso. apply Hk'. apply list_elem_of_fmap. by exists (k, v).
Qed.

Lemma dict_set_fresh d k v : dict_get k d = None → dict_set k v d = d ++ [(k, v)].
Proof.
  induction d as [|[k' v'] d IH]; simpl; [done|].
  destruct (String.eqb_spec k' k); [done|]. intros ?. by rewrite IH.
Qed.

Lemma dict_keys_set d k v :
  dict_keys (dict_set k v d)
  = if dict_mem k d then dict_keys d else dict_keys d ++ [k].
Proof.
  unfold dict_keys, dict_mem. induction d as [|[k' v'] d IH]; simpl; [done|].
  destruct (String.eqb_spec k' k) as [->|Hne]; [done|].
  rewrite fmap_cons, IH. by destruct (dict_get k d).
Qed.

Lemma dict_set_NoDup d k v : NoDup (dict_keys d) → NoDup (dict_keys (dict_set k v d)).
Proof.
  intros Hnd. rewrite dict_keys_set. unfold dict_mem.
  destruct (dict_get k d) eqn:Hget; [done|].
  apply NoDup_app. split_and!; [done| |apply NoDup_singleton].
  intros x Hx ->%list_elem_of_singleton. by apply dict_get_None in Hget.
Qed.

End pydict_facts.

(* ================================================================= *)
(** ** Strings: lengths and concatenation *)

Lemma str_app_nil_l (s : string) : "" +:+ s = s.
Proof. reflexivity. Qed.

Lemma str_app_cons (a : ascii) (s1 s2 : string) :
  String a s1 +:+ s2 = String a (s1 +:+ s2).
Proof. reflexivity. Qed.

Lemma str_length_app (s1 s2 : string) :
  String.length (s1 +:+ s2) = String.length s1 + String.length s2.
Proof.
  induction s1 as [|a s1 IH]; [done|].
  rewrite str_app_cons. simpl. by rewrite IH.
Qed.

Lemma str_app_assoc (s1 s2 s3 : string) : (s1 +:+ s2) +:+ s3 = s1 +:+ (s2 +:+ s3).
Proof.
  induction s1 as [|a s1 IH]; [done|].
  rewrite !str_app_cons. by rewrite IH.
Qed.

Lemma namespaced_ne (p n : string) : p +:+ ":" +:+ n ≠ n.
Proof.
  intros Heq. apply (f_equal String.length) in Heq.
  rewrite !str_length_app in Heq. simpl in Heq. lia.
Qed.

(* ================================================================= *)
(** ** Strings: searching and splitting *)

Section pystr_facts.
Import PyStr.
Implicit Types (s t l r sub sep pre : string) (a b c : ascii).

Lemma startswith_nil s : startswith s "" = true.
Proof. by destruct s. Qed.

Lemma startswith_cons a b s pre :
  startswith (String b s) (String a pre)
  = if Ascii.eqb a b then startswith s pre else false.
Proof. reflexivity. Qed.

Lemma startswith_app_same pre s : startswith (pre +:+ s) pre = true.
Proof.
  induction pre as [|a pre IH]; [apply startswith_nil|].
  rewrite str_app_cons, startswith_cons. by rewrite Ascii.eqb_refl.
Qed.

Lemma startswith_app_l s t pre :
  startswith s pre = true → startswith (s +:+ t) pre = true.
Proof.
  revert s. induction pre as [|a pre IH]; intros s.
  { intros _. apply startswith_nil. }
  destruct s as [|b s]; [done|]. rewrite str_app_cons, !startswith_cons.
  destruct (Ascii.eqb a b); [apply IH | done].
Qed.

Lemma startswith_split s pre :
  startswith s pre = true → s = pre +:+ drop (String.length pre) s.
Proof.
  revert s. induction pre as [|a pre IH]; intros s; [by destruct s|].
  destruct s as [|b s]; [done|]. rewrite startswith_cons.
  destruct (Ascii.eqb_spec a b) as [->|]; [|done].
  intros Hs. rewrite str_app_cons. simpl. f_equal. by apply IH.
Qed.

Lemma drop_app_length pre s : drop (String.length pre) (pre +:+ s) = s.
Proof. induction pre as [|a pre IH]; [done|]. by rewrite str_app_cons. Qed.

Lemma contains_unfold sub s :
  contains sub s
  = startswith s sub
    || match s with "" => false | String _ s' => contains sub s' end.
Proof. by destruct s. Qed.

Lemma contains_startswith sub s : startswith s sub = true → contains sub s = true.
Proof. intros H. rewrite contains_unfold, H. done. Qed.

Lemma contains_app_r sub s t : contains sub t = true → contains sub (s +:+ t) = true.
Proof.
  intros Ht. induction s as [|a s IH]; [done|].
  rewrite str_app_cons, contains_unfold, IH. apply orb_true_r.
Qed.

Lemma contains_app_l sub s t : contains sub s = true → contains sub (s +:+ t) = true.
Proof.
  induction s as [|a s IH].
  - rewrite contains_unfold, orb_false_r. destruct sub; [|done].
    intros _. rewrite contains_unfold. by rewrite startswith_nil.
  - rewrite contains_unfold. intros [Hs|Hs]%orb_true_iff.
    + apply contains_startswith. by apply startswith_app_l.
    + rewrite str_app_cons, contains_unfold, IH by done. apply orb_true_r.
Qed.

Lemma contains_middle sub s t : contains sub (s +:+ sub +:+ t) = true.
Proof. apply contains_app_r, contains_startswith, startswith_app_same. Qed.

Lemma partition_unfold sep s :
  partition sep s
  = if startswith s sep then Some ("", drop (String.length sep) s)
    else match s with
         | "" => None
         | String a s' =>
             match partition sep s' with
             | Some (l, r) => Some (String a l, r)
             | None => None
             end
         end.
Proof. by destruct s. Qed.

(** [partition] finds an occurrence of the separator... *)
Lemma partition_Some sep s l r :
  partition sep s = Some (l, r) → s = l +:+ sep +:+ r.
Proof.
  revert l. induction s as [|a s IH]; intros l; rewrite partition_unfold;
    destruct (startswith _ sep) eqn:Hs; try done.
  - intros [= <- <-]. rewrite str_app_nil_l. by apply startswith_split.
  - intros [= <- <-]. rewrite str_app_nil_l. by apply startswith_split.
  - destruct (partition sep s) as [[l' r']|]; [|done].
    intros [= <- <-]. rewrite str_app_cons. f_equal. by apply IH.
Qed.

(** ...exactly when the separator occurs... *)
Lemma partition_is_Some sep s : contains sep s = true → is_Some (partition sep s).
Proof.
  induction s as [|a s IH]; rewrite contains_unfold, partition_unfold;
    destruct (startswith _ sep); simpl; eauto; try done.
  intros [[l r] ->]%IH. eauto.
Qed.

Lemma partition_None sep s : contains sep s = false → partition sep s = None.
Proof.
  induction s as [|a s IH]; rewrite contains_unfold, partition_unfold;
    destruct (startswith _ sep); simpl; try done.
  intros Hs. by rewrite IH.
Qed.

(** ...and it is the first one. *)
Lemma partition_app sep l r :
  starts_no_earlier sep l r = true → partition sep (l +:+ sep +:+ r) = Some (l, r).
Proof.
  induction l as [|a l IH].
  - intros _. rewrite str_app_nil_l, partition_unfold.
    by rewrite startswith_app_same, drop_app_length.
  - cbn [starts_no_earlier]. intros [Hhd Htl]%andb_true_iff.
    apply negb_true_iff in Hhd. rewrite partition_unfold, Hhd.
    rewrite str_app_cons. by rewrite IH.
Qed.

Lemma starts_no_earlier_colon l r :
  contains ":" l = false → starts_no_earlier ":" l r = true.
Proof.
  induction l as [|a l IH]; [done|].
  rewrite contains_unfold. intros [Hhd Htl]%orb_false_iff.
  cbn [starts_no_earlier]. rewrite IH, andb_true_r by done.
  rewrite str_app_cons. rewrite startswith_cons, startswith_nil in *.
  by destruct (Ascii.eqb ":" a).
Qed.

Lemma starts_no_earlier_scheme l r :
  contains "://" l = false → starts_no_earlier "://" l r = true.
Proof.
  induction l as [|a l IH]; [done|].
  rewrite contains_unfold. intros [Hhd Htl]%orb_false_iff.
  cbn [starts_no_earlier]. rewrite IH, andb_true_r by done.
  apply negb_true_iff. clear IH Htl.
  rewrite str_app_cons. rewrite startswith_cons in *.
  destruct (Ascii.eqb ":" a); [|done].
  destruct l as [|b l]; [done|].
  rewrite str_app_cons. rewrite startswith_cons in *.
  destruct (Ascii.eqb "/" b); [|done].
  destruct l as [|c l]; [done|].
  rewrite str_app_cons. rewrite startswith_cons in *.
  destruct (Ascii.eqb "/" c); [|done].
  by rewrite startswith_nil in Hhd.
Qed.

(** Splitting a namespaced name on its first [":"], and a prefixed URI on
    its first ["://"]. *)
Lemma split1_colon l r :
  contains ":" l = false → split1 ":" (l +:+ ":" +:+ r) = [l; r].
Proof.
  intros Hl. unfold split1. by rewrite partition_app by by apply starts_no_earlier_colon.
Qed.

Lemma partition_scheme l r :
  contains "://" l = false → partition "://" (l +:+ "://" +:+ r) = Some (l, r).
Proof. intros Hl. by apply partition_app, starts_no_earlier_scheme. Qed.

Lemma partition_starts_no_earlier sep s l r :
  partition sep s = Some (l, r) → sep ≠ "" → starts_no_earlier sep l r = true.
Proof.
  revert l. induction s as [|a s IH]; intros l; rewrite partition_unfold;
    destruct (startswith _ sep) eqn:Hs; try done; try by intros [= <- <-].
  destruct (partition sep s) as [[l' r']|] eqn:Hp; [|done].
  intros [= <- <-] Hsep. cbn [starts_no_earlier].
  rewrite (IH l') by done. rewrite andb_true_r. apply negb_true_iff.
  apply partition_Some in Hp as ->. by rewrite str_app_cons.
Qed.

Lemma lower_app s t : lower (s +:+ t) = lower s +:+ lower t.
Proof.
  induction s as [|a s IH]; [done|].
  rewrite str_app_cons. simpl. by rewrite IH.
Qed.

End pystr_facts.

(* ================================================================= *)
(** ** The unit tests of the repository, replayed *)

Example test_aggregate_conflicting_tools :
  tool_name <$> (aggregate_tools (ToolAggregator_init providers_with_conflicts)).1
  = ["provider1:search"; "unique_p1"; "provider2:search"; "unique_p2"].
Proof. by_evaluation. Qed.

Example test_conflict_detection :
  get_conflicting_tools (aggregate_tools (ToolAggregator_init providers_with_conflicts)).2
  = {["search"]}.
Proof. by_evaluation. Qed.

Example test_route_namespaced_tool :
  route_tool_call conflict_router "provider1:search" (JDict [])
  = (Ok {| tcr_content := [[("type", JStr "text");
                            ("text", JStr "Called search on provider1")]];
           tcr_is_error := false |},
     [CallTool "provider1" "search" (JDict [])]).
Proof. by_evaluation. Qed.

Example test_route_ambiguous_tool_error :
  route_tool_call conflict_router "search" (JDict [])
  = (Raise (Exn ValueError
       "Ambiguous tool name 'search'. This tool exists in multiple providers. Please use namespaced form: <provider>:search"),
     []).
Proof. by_evaluation. Qed.

Example test_route_nonexistent_tool :
  route_tool_call conflict_router "nonexistent_tool" (JDict [])
  = (Raise (Exn ValueError
       "Tool 'nonexistent_tool' not found. Use 'tools/list' to see available tools."),
     []).
Proof. by_evaluation. Qed.

Example test_resource_aggregator :
  res_uri <$> aggregate_resources (ResourceAggregator_init
    [ {| prov_name := "provider1"; prov_category := Some "enterprise";
         list_tools := Ok [];
         list_resources := Ok [ {| res_uri := "PROJ-123"; res_name := "Issue 123";
                                   res_description := None; res_mime_type := None;
                                   res_resource_type := TEXT |} ];
         list_prompts := Ok [];
         call_tool := λ _ _, Raise (Exn RuntimeError "");
         read_resource := λ _, Raise (Exn RuntimeError "") |} ])
  = ["provider1://PROJ-123"].
Proof. by_evaluation. Qed.

Example test_resource_router :
  route_resource_read (resource_router providers_with_conflicts) "provider1://PROJ-123"
  = (Ok {| rc_uri := "PROJ-123"; rc_mime_type := None;
           rc_text := Some "Resource PROJ-123"; rc_blob := None |},
     [ReadResource "provider1" "PROJ-123"]).
Proof. by_evaluation. Qed.

Example test_resource_router_invalid_uri :
  route_resource_read (resource_router providers_with_conflicts) "invalid_uri"
  = (Raise (Exn ValueError
       "Invalid resource URI: Invalid URI format: invalid_uri. Expected: <provider>://<path>"),
     []).
Proof. by_evaluation. Qed.

Example test_resource_router_unknown_scheme :
  route_resource_read (resource_router providers_with_conflicts) "unknown://resource"
  = (Raise (Exn ValueError
       "Invalid resource URI: Unknown provider scheme 'unknown' in URI: unknown://resource. Available providers: ['provider1', 'provider2']"),
     []).
Proof. by_evaluation. Qed.

(* ================================================================= *)
(** ** Tool aggregation: counting and conflict detection *)

Section counting.
Implicit Types (c : pydict nat) (n m : string) (ts : list Tool).

Lemma count_of_incr c m n :
  count_of n (incr_count c m) = count_of n c + (if decide (m = n) then 1 else 0).
Proof.
  unfold count_of, incr_count. rewrite dict_get_set.
  destruct (decide (m = n)) as [->|]; simpl; lia.
Qed.

Lemma name_count_cons n t ts :
  name_count n (t :: ts)
  = (if decide (tool_name t = n) then 1 else 0) + name_count n ts.
Proof.
  unfold name_count. rewrite filter_cons.
  by destruct (decide (tool_name t = n)).
Qed.

Lemma count_of_fold_tools c ts n :
  count_of n (foldl (λ c t, incr_count c (tool_name t)) c ts)
  = count_of n c + name_count n ts.
Proof.
  revert c. induction ts as [|t ts IH]; intros c; simpl.
  - unfold name_count. simpl. lia.
  - rewrite IH, count_of_incr, name_count_cons. lia.
Qed.

Lemma count_of_fold_items c (pt : pydict (list Tool)) n :
  count_of n (foldl (λ counts item,
                foldl (λ c t, incr_count c (tool_name t)) counts item.2) c pt)
  = count_of n c + sum_list (name_count n <$> pt.*2).
Proof.
  revert c. induction pt as [|[k ts] pt IH]; intros c; csimpl; [lia|].
  rewrite IH, count_of_fold_tools. lia.
Qed.

Lemma fold_tools_NoDup c ts :
  NoDup (dict_keys c) →
  NoDup (dict_keys (foldl (λ c t, incr_count c (tool_name t)) c ts)).
Proof.
  revert c. induction ts as [|t ts IH]; intros c Hc; simpl; [done|].
  apply IH. by apply dict_set_NoDup.
Qed.

Lemma count_tool_names_NoDup (pt : pydict (list Tool)) :
  NoDup (dict_keys (count_tool_names pt)).
Proof.
  unfold count_tool_names.
  assert (NoDup (dict_keys ([] : pydict nat))) as Hnil by apply NoDup_nil_2.
  revert Hnil. generalize ([] : pydict nat).
  induction pt as [|[k ts] pt IH]; intros c Hc; simpl; [done|].
  apply IH. by apply fold_tools_NoDup.
Qed.

Lemma elem_of_detect_conflicts c n :
  NoDup (dict_keys c) → n ∈ detect_conflicts c ↔ 1 < count_of n c.
Proof.
  intros Hnd. unfold detect_conflicts, count_of.
  rewrite elem_of_list_to_set, list_elem_of_fmap. split.
  - intros ([n' k] & -> & [Hk Hin]%list_elem_of_filter). simpl in *.
    by rewrite (dict_elem_get c n' k).
  - destruct (dict_get n c) as [k|] eqn:Hget; simpl; [|lia].
    intros Hk. exists (n, k). split; [done|].
    apply list_elem_of_filter. split; [done|]. by apply dict_get_Some_elem.
Qed.

End counting.

(** With pairwise distinct provider names no assignment of step 1
    overwrites another: [provider_tools] lists every provider's answer,
    in the order of the provider list. *)
Lemma collect_provider_tools_NoDup (ps : list MCPProvider) :
  NoDup (prov_name <$> ps) →
  collect_provider_tools ps = (λ p, (prov_name p, tools_or_empty p)) <$> ps.
Proof.
  unfold collect_provider_tools.
  enough (∀ d : pydict (list Tool),
    NoDup (dict_keys d ++ (prov_name <$> ps)) →
    foldl (λ d p, dict_set (prov_name p) (tools_or_empty p) d) d ps
    = d ++ ((λ p, (prov_name p, tools_or_empty p)) <$> ps)) as Hgen.
  { intros Hnd. by rewrite (Hgen []). }
  induction ps as [|p ps IH]; intros d Hnd; simpl.
  - by rewrite app_nil_r.
  - rewrite fmap_cons in Hnd. apply NoDup_app in Hnd as (Hd & Hdisj & Hps).
    apply NoDup_cons in Hps as [Hp Hps].
    rewrite dict_set_fresh.
    + rewrite IH, <- app_assoc; [done|].
      unfold dict_keys. rewrite fmap_app. simpl.
      apply NoDup_app. split_and!; [|set_solver|done].
      apply NoDup_app. split_and!; [done|set_solver|apply NoDup_singleton].
    + apply dict_get_None. set_solver.
Qed.

Lemma dict_get_collect (ps : list MCPProvider) (p : MCPProvider) :
  NoDup (prov_name <$> ps) → p ∈ ps →
  dict_get (prov_name p) (collect_provider_tools ps) = Some (tools_or_empty p).
Proof.
  intros Hnd Hp. rewrite collect_provider_tools_NoDup by done.
  apply dict_elem_get.
  - unfold dict_keys. by rewrite <- list_fmap_compose.
  - apply list_elem_of_fmap. by exists p.
Qed.

Lemma elem_of_conflicts (ps : list MCPProvider) (n : string) :
  NoDup (prov_name <$> ps) →
  n ∈ detect_conflicts (count_tool_names (collect_provider_tools ps))
  ↔ 1 < occurrences n ps.
Proof.
  intros Hnd. rewrite elem_of_detect_conflicts by apply count_tool_names_NoDup.
  unfold count_tool_names. rewrite count_of_fold_items.
  rewrite collect_provider_tools_NoDup by done.
  unfold occurrences, count_of. simpl.
  rewrite <- !list_fmap_compose.
  replace (sum_list (name_count n ∘ snd
             ∘ (λ p, (prov_name p, tools_or_empty p)) <$> ps))
    with (sum_list_with (λ p, name_count n (tools_or_empty p)) ps); [done|].
  clear Hnd. induction ps as [|p ps IH]; csimpl; [done|]. by rewrite IH.
Qed.

(* ================================================================= *)
(** ** Tool aggregation: what step 3 builds *)

Section store_all.
Context {V : Type}.
Implicit Types (d : pydict V) (kvs : list (string * V)).

Lemma store_all_app kvs1 kvs2 d :
  store_all (kvs1 ++ kvs2) d = store_all kvs2 (store_all kvs1 d).
Proof. apply foldl_app. Qed.

Lemma store_all_get_Some kvs d k v :
  dict_get k (store_all kvs d) = Some v → (k, v) ∈ kvs ∨ dict_get k d = Some v.
Proof.
  revert d. induction kvs as [|[k' v'] kvs IH]; intros d; simpl; [by right|].
  intros [Hin|Hget]%IH.
  - left. by apply list_elem_of_further.
  - rewrite dict_get_set in Hget. simpl in Hget. case_decide as Hk.
    + left. simplify_eq. apply list_elem_of_here.
    + by right.
Qed.

Lemma store_all_get_None kvs d k :
  dict_get k (store_all kvs d) = None ↔ dict_get k d = None ∧ k ∉ kvs.*1.
Proof.
  revert d. induction kvs as [|[k' v'] kvs IH]; intros d; csimpl.
  - split; [intros ?; split; [done|apply not_elem_of_nil] | by intros [? _]].
  - rewrite IH, dict_get_set, not_elem_of_cons. simpl.
    case_decide; naive_solver.
Qed.

Lemma store_all_NoDup kvs d :
  NoDup (dict_keys d) → NoDup (dict_keys (store_all kvs d)).
Proof.
  revert d. induction kvs as [|[k' v'] kvs IH]; intros d Hd; simpl; [done|].
  apply IH. by apply dict_set_NoDup.
Qed.

End store_all.

Section publish.
Variables (conflicts : gset string) (provider_tools : pydict (list Tool)).

Lemma foldl_publish_tool p ts (a : list Tool) c m :
  foldl (publish_tool conflicts p) (a, c, m) ts
  = (a ++ (enrich_tool conflicts p <$> ts),
     store_all ((λ e, (tool_name e, e)) <$> (enrich_tool conflicts p <$> ts)) c,
     store_all ((λ t, (tool_name (enrich_tool conflicts p t), prov_name p)) <$> ts) m).
Proof.
  revert a c m. induction ts as [|t ts IH]; intros a c m; csimpl.
  - by rewrite app_nil_r.
  - rewrite IH, <- app_assoc. done.
Qed.

Lemma foldl_publish_provider ps (a : list Tool) c m :
  foldl (publish_provider conflicts provider_tools) (a, c, m) ps
  = (a ++ published_tools conflicts provider_tools ps,
     store_all ((λ e, (tool_name e, e)) <$> published_tools conflicts provider_tools ps) c,
     store_all (published_owners conflicts provider_tools ps) m).
Proof.
  revert a c m. induction ps as [|p ps IH]; intros a c m; csimpl.
  - by rewrite app_nil_r.
  - unfold publish_provider at 2. fold (tools_of provider_tools p).
    rewrite foldl_publish_tool, IH.
    unfold published_tools, published_owners. csimpl.
    by rewrite <- app_assoc, fmap_app, !store_all_app.
Qed.

End publish.

(** [aggregate_tools] in closed form. *)
Lemma aggregate_tools_eq (self : ToolAggregator) :
  let provider_tools := collect_provider_tools (providers self) in
  let conflicts := detect_conflicts (count_tool_names provider_tools) in
  let published := published_tools conflicts provider_tools (providers self) in
  aggregate_tools self
  = (published,
     {| providers := providers self;
        _tool_cache :=
          store_all ((λ e, (tool_name e, e)) <$> published) (_tool_cache self);
        _provider_map :=
          store_all (published_owners conflicts provider_tools (providers self))
                    (_provider_map self);
        _conflicts := conflicts |}).
Proof.
  intros provider_tools conflicts published. unfold aggregate_tools.
  fold provider_tools. fold conflicts.
  by rewrite foldl_publish_provider.
Qed.

Lemma published_tools_NoDup (ps : list MCPProvider) (conflicts : gset string) :
  NoDup (prov_name <$> ps) →
  published_tools conflicts (collect_provider_tools ps) ps
  = ps ≫= (λ p, enrich_tool conflicts p <$> tools_or_empty p).
Proof.
  intros Hnd. unfold published_tools.
  apply Forall_bind_ext, Forall_forall. intros p Hp. unfold tools_of.
  by rewrite dict_get_collect.
Qed.

(* ================================================================= *)
(** ** Tool aggregation: the published names *)

Lemma elem_of_returned_tools ps p t :
  (p, t) ∈ returned_tools ps ↔ p ∈ ps ∧ t ∈ tools_or_empty p.
Proof.
  unfold returned_tools. rewrite list_elem_of_bind. split.
  - intros (q & (t' & [= -> ->] & Ht)%list_elem_of_fmap & Hq). done.
  - intros [Hp Ht]. exists p. split; [|done]. apply list_elem_of_fmap. by exists t.
Qed.

Lemma bind_fmap_returned {B} (g : MCPProvider → Tool → B) ps :
  ps ≫= (λ p, g p <$> tools_or_empty p) = (λ pt, g pt.1 pt.2) <$> returned_tools ps.
Proof.
  unfold returned_tools. induction ps as [|p ps IH]; csimpl; [done|].
  by rewrite IH, fmap_app, <- list_fmap_compose.
Qed.

Lemma name_count_pos n t ts : t ∈ ts → tool_name t = n → 1 ≤ name_count n ts.
Proof.
  intros Hin Hn. induction Hin as [t ts|t t' ts Hin IH]; rewrite name_count_cons.
  - rewrite decide_True by done. lia.
  - specialize (IH Hn). lia.
Qed.

Lemma occurrences_pos ps p t :
  p ∈ ps → t ∈ tools_or_empty p → 1 ≤ occurrences (tool_name t) ps.
Proof.
  intros Hp Ht. unfold occurrences.
  etrans; [|apply (sum_list_with_in p); done]. by eapply name_count_pos.
Qed.

Lemma enrich_tool_published_as ps conflicts p t :
  (∀ n, n ∈ conflicts ↔ 1 < occurrences n ps) →
  p ∈ ps → t ∈ tools_or_empty p →
  published_as ps conflicts p t (enrich_tool conflicts p t).
Proof.
  intros Hconf Hp Ht. pose proof (occurrences_pos ps p t Hp Ht) as Hpos.
  unfold published_as, enrich_tool.
  destruct (decide (tool_name t ∈ conflicts)) as [Hin|Hnin]; simpl.
  - pose proof (proj1 (Hconf _) Hin). pose proof (namespaced_ne (prov_name p) (tool_name t)).
    split_and!; try done; split; try done; lia.
  - assert (¬ 1 < occurrences (tool_name t) ps) by (by rewrite <- Hconf).
    split_and!; try done; split; try done; lia.
Qed.

(** The catalog of a run, tool by tool. *)
Lemma aggregate_tools_published (self : ToolAggregator) :
  NoDup (prov_name <$> providers self) →
  let ps := providers self in
  let run := aggregate_tools self in
  (∀ n, n ∈ _conflicts run.2 ↔ 1 < occurrences n ps) ∧
  Forall2 (λ pt e, published_as ps (_conflicts run.2) pt.1 pt.2 e)
          (returned_tools ps) run.1.
Proof.
  intros Hnd ps run. subst run. rewrite aggregate_tools_eq. simpl.
  assert (∀ n, n ∈ detect_conflicts (count_tool_names (collect_provider_tools ps))
               ↔ 1 < occurrences n ps) as Hconf
    by (intros n; by apply elem_of_conflicts).
  split; [done|].
  fold ps. rewrite published_tools_NoDup by done.
  rewrite bind_fmap_returned. apply Forall2_fmap_r, Forall_Forall2_diag.
  apply Forall_forall. intros [p t] [Hp Ht]%elem_of_returned_tools.
  by apply enrich_tool_published_as.
Qed.

(** C1 (amended).  For every run of [aggregate_tools] over providers with
    pairwise distinct names: the returned catalog holds exactly one
    published tool for every tool a provider returned, in the order of the
    provider list; its name is the natural name iff that name occurs exactly
    once among all the tools returned by all providers, and is
    [<provider>:<name>] otherwise; the conflict set is exactly the set of
    natural names that occur more than once among all returned tools (a name
    one provider returns twice counts twice); and [namespace_reason] is
    ["conflict"] iff the natural name is in the conflict set, and [None]
    otherwise. *)
Theorem aggregate_tools_namespacing (self : ToolAggregator) :
  NoDup (prov_name <$> providers self) →
  let ps := providers self in
  let run := aggregate_tools self in
  (∀ n, n ∈ _conflicts run.2 ↔ 1 < occurrences n ps) ∧
  Forall2 (λ pt e, published_as ps (_conflicts run.2) pt.1 pt.2 e)
          (returned_tools ps) run.1.
Proof. exact (aggregate_tools_published self). Qed.

(** A run on the conflict scenario of the unit tests. *)
Lemma aggregate_tools_namespacing_witness :
  let self := ToolAggregator_init providers_with_conflicts in
  NoDup (prov_name <$> providers self) ∧
  (∀ n, n ∈ _conflicts (aggregate_tools self).2
        ↔ 1 < occurrences n (providers self)) ∧
  Forall2 (λ pt e, published_as (providers self)
                     (_conflicts (aggregate_tools self).2) pt.1 pt.2 e)
          (returned_tools (providers self)) (aggregate_tools self).1.
Proof.
  assert (NoDup (prov_name <$> providers_with_conflicts)) as Hnd.
  { by_evaluation. }
  split; [exact Hnd|].
  exact (aggregate_tools_namespacing
           (ToolAggregator_init providers_with_conflicts) Hnd).
Defined.

(** C1, counterexample: with one provider that returns ["search"] twice,
    no other provider returns ["search"], yet it is published as
    ["p1:search"] and ["search"] is in the conflict set. *)
Lemma aggregate_tools_repeated_name_namespaced :
  let self := ToolAggregator_init [provider_with_repeated_tool] in
  NoDup (prov_name <$> providers self) ∧
  tool_name <$> (aggregate_tools self).1 = ["p1:search"; "p1:search"] ∧
  "search" ∈ _conflicts (aggregate_tools self).2 ∧
  ¬ natural_iff_unshared self.
Proof.
  assert ("search" ∈ _conflicts (aggregate_tools
            (ToolAggregator_init [provider_with_repeated_tool])).2) as Hin.
  { by_evaluation. }
  split_and!.
  - by_evaluation.
  - by_evaluation.
  - exact Hin.
  - intros [Hconf _]. apply Hconf in Hin as (p & q & Hp & Hq & Hne & _).
    simpl in Hp, Hq.
    apply list_elem_of_singleton in Hp as ->.
    apply list_elem_of_singleton in Hq as ->. done.
Qed.


(** When, besides, no provider returns the same name twice, counting
    occurrences is counting providers, and the catalog is as the spec words
    it. *)
Lemma name_count_zero (n : string) (ts : list Tool) :
  name_count n ts = 0 ↔ n ∉ tool_name <$> ts.
Proof.
  induction ts as [|t ts IH]; csimpl.
  - split; [intros _; apply not_elem_of_nil | done].
  - rewrite name_count_cons, not_elem_of_cons, <- IH.
    destruct (decide (tool_name t = n)) as [<-|Hne]; split; try lia; naive_solver.
Qed.

Lemma returns_name_count (p : MCPProvider) (n : string) :
  returns p n ↔ 1 ≤ name_count n (tools_or_empty p).
Proof.
  unfold returns. split.
  - intros (t & Ht & Hn). by eapply name_count_pos.
  - intros Hc. destruct (decide (n ∈ tool_name <$> tools_or_empty p)) as [Hin|Hnin].
    + apply list_elem_of_fmap in Hin as (t & -> & Ht). by exists t.
    + apply name_count_zero in Hnin. lia.
Qed.

Lemma name_count_NoDup (n : string) (ts : list Tool) :
  NoDup (tool_name <$> ts) → name_count n ts ≤ 1.
Proof.
  induction ts as [|t ts IH]; csimpl; [unfold name_count; simpl; lia|].
  rewrite NoDup_cons, name_count_cons. intros [Hnin Hnd].
  destruct (decide (tool_name t = n)) as [<-|Hne]; [|by apply IH].
  apply name_count_zero in Hnin. lia.
Qed.

Lemma occurrences_cons (n : string) (p : MCPProvider) (ps : list MCPProvider) :
  occurrences n (p :: ps) = name_count n (tools_or_empty p) + occurrences n ps.
Proof. reflexivity. Qed.

Lemma occurrences_pos_inv (n : string) (ps : list MCPProvider) :
  1 ≤ occurrences n ps → ∃ q, q ∈ ps ∧ returns q n.
Proof.
  induction ps as [|p ps IH]; [unfold occurrences; simpl; lia|].
  rewrite occurrences_cons. intros Hocc.
  destruct (decide (1 ≤ name_count n (tools_or_empty p))) as [Hp|Hp].
  - exists p. split; [apply list_elem_of_here|]. by apply returns_name_count.
  - destruct IH as (q & Hq & Hr); [lia|]. exists q.
    split; [by apply list_elem_of_further|done].
Qed.

Lemma occurrences_shared (n : string) (ps : list MCPProvider) :
  NoDup (prov_name <$> ps) →
  (∀ p, p ∈ ps → NoDup (tool_name <$> tools_or_empty p)) →
  1 < occurrences n ps
  ↔ ∃ p q, p ∈ ps ∧ q ∈ ps ∧ prov_name p ≠ prov_name q ∧ returns p n ∧ returns q n.
Proof.
  induction ps as [|p ps IH].
  - intros _ _. split; [unfold occurrences; simpl; lia|].
    by intros (p & q & Hp%elem_of_nil & _).
  - rewrite fmap_cons, NoDup_cons. intros [Hp Hnd] Hans.
    assert (name_count n (tools_or_empty p) ≤ 1) as Hle
      by (apply name_count_NoDup, Hans, list_elem_of_here).
    assert (∀ q, q ∈ ps → prov_name p ≠ prov_name q) as Hother.
    { intros q Hq Heq. apply Hp. rewrite Heq. by apply list_elem_of_fmap_2. }
    specialize (IH Hnd (λ q Hq, Hans q (list_elem_of_further _ _ _ Hq))).
    rewrite occurrences_cons. split.
    + intros Hocc.
      destruct (decide (1 ≤ name_count n (tools_or_empty p))) as [Hone|Hzero].
      * destruct (occurrences_pos_inv n ps) as (q & Hq & Hr); [lia|].
        exists p, q. split_and!; [apply list_elem_of_here
          |by apply list_elem_of_further|by apply Hother
          |by apply returns_name_count|done].
      * destruct (proj1 IH) as (a & b & Ha & Hb & Hne & Hra & Hrb); [lia|].
        exists a, b. split_and!; try done; by apply list_elem_of_further.
    + intros (a & b & Ha & Hb & Hne & Hra & Hrb).
      apply elem_of_cons in Ha as [->|Ha]; apply elem_of_cons in Hb as [->|Hb].
      * done.
      * apply returns_name_count in Hra.
        destruct Hrb as (t & Ht & Hn).
        pose proof (occurrences_pos ps b t Hb Ht) as Hocc. rewrite Hn in Hocc. lia.
      * apply returns_name_count in Hrb.
        destruct Hra as (t & Ht & Hn).
        pose proof (occurrences_pos ps a t Ha Ht) as Hocc. rewrite Hn in Hocc. lia.
      * assert (1 < occurrences n ps) by (apply IH; by exists a, b). lia.
Qed.

Lemma Forall2_impl_elem {A B} (P Q : A → B → Prop) (l : list A) (k : list B) :
  Forall2 P l k → (∀ x y, x ∈ l → P x y → Q x y) → Forall2 Q l k.
Proof.
  induction 1 as [|x y l k Hxy Hlk IH]; intros Himpl; constructor.
  - apply Himpl; [apply list_elem_of_here|done].
  - apply IH. intros x' y' Hx'. apply Himpl. by apply list_elem_of_further.
Qed.

Lemma natural_iff_unshared_distinct_answers (self : ToolAggregator) :
  NoDup (prov_name <$> providers self) →
  (∀ p, p ∈ providers self → NoDup (tool_name <$> tools_or_empty p)) →
  natural_iff_unshared self.
Proof.
  intros Hnd Hans.
  destruct (aggregate_tools_published self Hnd) as [Hconf Hpub].
  unfold natural_iff_unshared. split.
  - intros n. rewrite Hconf. by apply occurrences_shared.
  - eapply Forall2_impl_elem; [exact Hpub|].
    intros [p t] e Hin (Hnat & Hns & _). simpl in *.
    apply elem_of_returned_tools in Hin as [Hp Ht].
    split; [|done]. rewrite Hnat.
    pose proof (occurrences_pos _ p t Hp Ht) as Hpos.
    pose proof (occurrences_shared (tool_name t) _ Hnd Hans) as Hshared.
    split.
    + intros Hone (q & Hq & Hne & Hr).
      assert (1 < occurrences (tool_name t) (providers self)); [|lia].
      apply Hshared. exists p, q. split_and!; try done. by exists t.
    + intros Hnone.
      destruct (decide (1 < occurrences (tool_name t) (providers self))) as [Hmany|]; [|lia].
      exfalso. apply Hshared in Hmany as (a & b & Ha & Hb & Hne & Hra & Hrb).
      destruct (decide (prov_name a = prov_name p)) as [Heq|Hap].
      * apply Hnone. exists b. split_and!; [done| |done]. congruence.
      * apply Hnone. by exists a.
Qed.
(* ================================================================= *)
(** ** Lookup and routing of tool names *)

Lemma ambiguous_message_recognised (n : string) :
  is_ambiguity_error (Exn ValueError
    ("Ambiguous tool name '" +:+ n +:+ "'. " +:+
     "This tool exists in multiple providers. " +:+
     "Please use namespaced form: <provider>:" +:+ n)) = true.
Proof.
  unfold is_ambiguity_error, exn_str. cbn [exn_type exn_arg].
  apply orb_true_iff. left.
  apply contains_startswith. rewrite lower_app.
  by apply startswith_app_l.
Qed.

(** A name that contains [":"] splits at its first colon. *)
Lemma split1_first_colon (name : string) :
  PyStr.contains ":" name = true →
  ∃ prov local,
    PyStr.split1 ":" name = [prov; local] ∧
    name = prov +:+ ":" +:+ local ∧
    PyStr.contains ":" prov = false.
Proof.
  intros Hc. destruct (partition_is_Some _ _ Hc) as [[prov local] Hp].
  exists prov, local. unfold PyStr.split1. rewrite Hp.
  split_and!; [done|by apply partition_Some|].
  pose proof (partition_starts_no_earlier _ _ _ _ Hp) as Hfirst.
  specialize (Hfirst ltac:(done)). clear Hp Hc.
  induction prov as [|a prov IH]; [done|].
  cbn [PyStr.starts_no_earlier] in Hfirst. apply andb_true_iff in Hfirst as [Hhd Htl].
  rewrite contains_unfold, IH by done.
  rewrite str_app_cons in Hhd. rewrite startswith_cons, startswith_nil in *.
  by destruct (Ascii.eqb ":" a).
Qed.

(** C2.  Lookup of a tool name: a key of [_provider_map] yields its
    provider; otherwise a name in the conflict set raises the ambiguity
    error (a [ValueError] that the gateway recognises as ambiguous);
    otherwise the lookup raises [KeyError] (tool not found).  Routing of a
    name that contains [":"]: the name is split at its first colon into
    [(prov, local)], and when the aggregator maps the full name to another
    provider than [prov] the router raises [ValueError] (validation); when
    it maps it to [prov] the router answers [(prov, local)]. *)
Theorem lookup_and_routing_errors (agg : ToolAggregator) (router : ToolRouter)
    (name : string) :
  match dict_get name (_provider_map agg) with
  | Some p => get_provider_for_tool agg name = Ok p
  | None =>
      if decide (name ∈ _conflicts agg) then
        ∃ e, get_provider_for_tool agg name = Raise e
             ∧ exn_type e = ValueError ∧ is_ambiguity_error e = true
      else
        ∃ e, get_provider_for_tool agg name = Raise e ∧ exn_type e = KeyError
  end ∧
  (PyStr.contains ":" name = true →
   ∃ prov local,
     PyStr.split1 ":" name = [prov; local] ∧
     name = prov +:+ ":" +:+ local ∧
     PyStr.contains ":" prov = false ∧
     ∀ q, get_provider_for_tool (tr_aggregator router) name = Ok q →
          if decide (q = prov)
          then _parse_tool_name router name = Ok (prov, local)
          else ∃ e, _parse_tool_name router name = Raise e
                    ∧ exn_type e = ValueError
                    ∧ exn_arg e = "Tool '" +:+ name
                        +:+ "' does not belong to provider '" +:+ prov +:+ "'").
Proof.
  split.
  - unfold get_provider_for_tool.
    destruct (dict_get name (_provider_map agg)) as [p|]; [done|].
    destruct (decide (name ∈ _conflicts agg)).
    + eexists. split_and!; [done..|]. apply ambiguous_message_recognised.
    + eexists. by split.
  - intros Hc. destruct (split1_first_colon name Hc) as (prov & local & Hs & Hn & Hp).
    exists prov, local. split_and!; [done..|].
    intros q Hq. unfold _parse_tool_name. rewrite Hc, Hs, Hq.
    destruct (decide (q = prov)) as [->|Hne].
    + by rewrite String.eqb_refl.
    + apply String.eqb_neq in Hne. rewrite Hne. simpl. eexists. by split_and!.
Qed.

(** Routing a namespaced name whose owner is the named provider. *)
Lemma route_namespaced (router : ToolRouter) (prov local : string)
    (arguments : json) (P : MCPProvider) :
  PyStr.contains ":" prov = false →
  dict_get (prov +:+ ":" +:+ local) (_provider_map (tr_aggregator router)) = Some prov →
  dict_get prov (tr_providers router) = Some P →
  route_tool_call router (prov +:+ ":" +:+ local) arguments
  = (call_tool P local arguments, [CallTool prov local arguments]).
Proof.
  intros Hprov Hmap HP. unfold route_tool_call, _parse_tool_name.
  rewrite contains_middle, split1_colon by done.
  unfold get_provider_for_tool. rewrite Hmap, String.eqb_refl. simpl.
  by rewrite HP.
Qed.

(** The providers a catalog names are providers of the aggregator, so a
    router built over the same providers finds them. *)
Lemma provider_map_owner (self : ToolAggregator) (n q : string) :
  dict_get n (_provider_map (aggregate_tools self).2) = Some q →
  q ∈ prov_name <$> providers self ∨ dict_get n (_provider_map self) = Some q.
Proof.
  rewrite aggregate_tools_eq. simpl. intros [Hin|Hold]%store_all_get_Some; [left|by right].
  unfold published_owners in Hin. apply list_elem_of_bind in Hin as (p & Hin & Hp).
  apply list_elem_of_fmap in Hin as (t & Heq & _). simplify_eq.
  by apply list_elem_of_fmap_2.
Qed.

Lemma providers_by_name_lookup (ps : list MCPProvider) (q : string) :
  q ∈ prov_name <$> ps →
  ∃ P, dict_get q (providers_by_name ps) = Some P ∧ P ∈ ps ∧ prov_name P = q.
Proof.
  intros Hq. unfold providers_by_name.
  assert (foldl (λ d p, dict_set (prov_name p) p d) [] ps
          = store_all ((λ p, (prov_name p, p)) <$> ps) []) as ->.
  { unfold store_all. by rewrite foldl_fmap. }
  destruct (dict_get q (store_all _ _)) as [P|] eqn:Hget.
  - exists P. split; [done|].
    apply store_all_get_Some in Hget as [Hin|?]; [|done].
    apply list_elem_of_fmap in Hin as (p & Heq & Hp). by simplify_eq.
  - apply store_all_get_None in Hget as [_ Hnin]. exfalso. apply Hnin.
    by rewrite <- list_fmap_compose.
Qed.

Lemma aggregated_catalog_owner (names : list string) (self : ToolAggregator)
    (n q : string) :
  aggregated_catalog names self →
  dict_get n (_provider_map self) = Some q → q ∈ names.
Proof.
  intros Hagg. revert n q.
  induction Hagg as [ps Hps|self ps Hagg IH Hps]; intros n q Hget.
  - apply provider_map_owner in Hget as [Hin|Hold]; [|done]. by rewrite <- Hps.
  - apply provider_map_owner in Hget as [Hin|Hold].
    + by rewrite <- Hps.
    + by apply (IH n).
Qed.

(** C3.  For every aggregated catalog over the connected providers in
    which ["p1:search"] maps to provider ["p1"], the router over these
    providers answers [route_tool_call("p1:search", args)] by exactly one
    provider call, [call_tool("search", args)] on the provider named
    ["p1"], and its outcome is the outcome of that call, unchanged. *)
Theorem route_tool_call_namespaced (ps : list MCPProvider) (agg : ToolAggregator)
    (arguments : json) :
  aggregated_catalog (prov_name <$> ps) agg →
  dict_get "p1:search" (_provider_map agg) = Some "p1" →
  ∃ P, P ∈ ps ∧ prov_name P = "p1" ∧
       route_tool_call {| tr_providers := providers_by_name ps; tr_aggregator := agg |}
         "p1:search" arguments
       = (call_tool P "search" arguments, [CallTool "p1" "search" arguments]).
Proof.
  intros Hagg Hmap.
  pose proof (aggregated_catalog_owner _ _ _ _ Hagg Hmap) as Hq.
  destruct (providers_by_name_lookup ps "p1" Hq) as (P & HP & Hin & Hname).
  exists P. split_and!; [done..|].
  by apply (route_namespaced _ "p1" "search").
Qed.

Lemma route_tool_call_namespaced_witness :
  ∃ P, P ∈ scenario2_providers ∧ prov_name P = "p1" ∧
       route_tool_call scenario2_router "p1:search" (JDict [("q", JStr "x")])
       = (call_tool P "search" (JDict [("q", JStr "x")]),
          [CallTool "p1" "search" (JDict [("q", JStr "x")])]).
Proof.
  apply (route_tool_call_namespaced scenario2_providers
           (aggregate_tools (ToolAggregator_init scenario2_providers)).2).
  - by apply first_run.
  - by_evaluation.
Defined.
(* ================================================================= *)
(** ** Resource URIs: prefixing and routing *)

Lemma prefix_resource_published p r : published_resource p r (prefix_resource p r).
Proof.
  unfold published_resource, prefix_resource.
  destruct (PyStr.startswith _ _); simpl; by split_and!.
Qed.

Lemma aggregate_resources_eq (ps : list MCPProvider) :
  aggregate_resources (ResourceAggregator_init ps)
  = (λ pr, prefix_resource pr.1 pr.2) <$> emitted_resources ps.
Proof.
  unfold aggregate_resources, emitted_resources. simpl.
  enough (∀ acc : list Resource,
    foldl (λ aggregated_resources p,
             match list_resources p with
             | Ok resources => aggregated_resources ++ (prefix_resource p <$> resources)
             | Raise _ => aggregated_resources
             end) acc ps
    = acc ++ ((λ pr, prefix_resource pr.1 pr.2) <$>
                (ps ≫= (λ p, match list_resources p with
                             | Ok resources => pair p <$> resources
                             | Raise _ => []
                             end)))) as Hgen by apply (Hgen []).
  induction ps as [|p ps IH]; intros acc; csimpl.
  - by rewrite app_nil_r.
  - rewrite IH, fmap_app. destruct (list_resources p) as [rs|e]; simpl.
    + by rewrite <- app_assoc, <- list_fmap_compose.
    + done.
Qed.

(** The scheme table of [ResourceAggregator.__init__] maps exactly the
    provider names, each to itself. *)
Lemma ra_provider_map_lookup (ps : list MCPProvider) (k : string) :
  dict_get k (ra_provider_map (ResourceAggregator_init ps))
  = if decide (k ∈ prov_name <$> ps) then Some k else None.
Proof.
  simpl.
  assert (foldl (λ m p, dict_set (prov_name p) (prov_name p) m) [] ps
          = store_all ((λ p, (prov_name p, prov_name p)) <$> ps) []) as ->.
  { unfold store_all. by rewrite foldl_fmap. }
  destruct (dict_get k (store_all _ _)) as [v|] eqn:Hget.
  - apply store_all_get_Some in Hget as [Hin|?]; [|done].
    apply list_elem_of_fmap in Hin as (p & Heq & Hp). simplify_eq.
    rewrite decide_True; [done|]. by apply list_elem_of_fmap_2.
  - apply store_all_get_None in Hget as [_ Hnin].
    rewrite <- list_fmap_compose in Hnin. by rewrite decide_False.
Qed.

Lemma route_resource_read_known (ps : list MCPProvider) (tbl : pydict MCPProvider)
    (p rest : string) (P : MCPProvider) :
  PyStr.contains "://" p = false →
  p ∈ prov_name <$> ps →
  dict_get p tbl = Some P →
  route_resource_read
    {| rr_providers := tbl; rr_aggregator := ResourceAggregator_init ps |}
    (p +:+ "://" +:+ rest)
  = (read_resource P rest, [ReadResource p rest]).
Proof.
  intros Hp Hin HP.
  unfold route_resource_read, get_provider_for_uri, strip_provider_prefix.
  cbn [rr_aggregator rr_providers].
  rewrite contains_middle. cbn [negb]. unfold PyStr.split1.
  rewrite partition_scheme by done.
  rewrite ra_provider_map_lookup, decide_True by done.
  by rewrite HP.
Qed.

Lemma route_resource_read_no_scheme (router : ResourceRouter) (uri : string) :
  PyStr.contains "://" uri = false →
  ∃ e, route_resource_read router uri = (Raise e, []) ∧ exn_type e = ValueError.
Proof.
  intros Hc. unfold route_resource_read, get_provider_for_uri. rewrite Hc. simpl.
  eexists. by split.
Qed.

Lemma route_resource_read_unknown_scheme (ps : list MCPProvider)
    (tbl : pydict MCPProvider) (uri scheme rest : string) :
  PyStr.partition "://" uri = Some (scheme, rest) →
  scheme ∉ prov_name <$> ps →
  ∃ e, route_resource_read
         {| rr_providers := tbl; rr_aggregator := ResourceAggregator_init ps |} uri
       = (Raise e, []) ∧ exn_type e = ValueError.
Proof.
  intros Hpart Hnin. unfold route_resource_read, get_provider_for_uri.
  cbn [rr_aggregator].
  assert (PyStr.contains "://" uri = true) as ->.
  { apply partition_Some in Hpart as ->. apply contains_middle. }
  cbn [negb]. unfold PyStr.split1. rewrite Hpart.
  rewrite ra_provider_map_lookup, decide_False by done. simpl.
  eexists. by split.
Qed.

(** C4 (amended).  Resource aggregation publishes exactly one resource for
    every resource a provider listed; when the listed URI [u] does not
    start with [p://] the published URI is [p://u], and all other fields
    are unchanged.  For every provider name [p] that contains no ["://"]
    and names a known provider, [route_resource_read("p://rest")] makes
    exactly one provider call, [read_resource("rest")] on the provider
    named [p], and returns its outcome: prefixing and stripping are
    inverse on such URIs.  A URI without ["://"], or whose text before the
    first ["://"] names no known provider, fails with [ValueError] and no
    provider is called. *)
Theorem resource_prefix_and_routing (ps : list MCPProvider) :
  let agg := ResourceAggregator_init ps in
  let router := resource_router ps in
  Forall2 (λ pr r', published_resource pr.1 pr.2 r')
          (emitted_resources ps) (aggregate_resources agg) ∧
  (∀ p rest,
     PyStr.contains "://" p = false →
     p ∈ prov_name <$> ps →
     strip_provider_prefix agg (p +:+ "://" +:+ rest) = rest ∧
     ∃ P, P ∈ ps ∧ prov_name P = p ∧
          route_resource_read router (p +:+ "://" +:+ rest)
          = (read_resource P rest, [ReadResource p rest])) ∧
  (∀ uri,
     PyStr.contains "://" uri = false →
     ∃ e, route_resource_read router uri = (Raise e, []) ∧ exn_type e = ValueError) ∧
  (∀ uri scheme rest,
     PyStr.partition "://" uri = Some (scheme, rest) →
     scheme ∉ prov_name <$> ps →
     ∃ e, route_resource_read router uri = (Raise e, []) ∧ exn_type e = ValueError).
Proof.
  intros agg router. split_and!.
  - subst agg. rewrite aggregate_resources_eq.
    apply Forall2_fmap_r, Forall_Forall2_diag, Forall_forall.
    intros [p r] _. apply prefix_resource_published.
  - intros p rest Hp Hin. split.
    + unfold strip_provider_prefix, PyStr.split1.
      by rewrite contains_middle, partition_scheme.
    + destruct (providers_by_name_lookup ps p Hin) as (P & HP & HPin & Hname).
      exists P. split_and!; [done..|]. by apply route_resource_read_known.
  - intros uri Hc. by apply route_resource_read_no_scheme.
  - intros uri scheme rest Hpart Hnin.
    by apply (route_resource_read_unknown_scheme ps _ uri scheme rest).
Qed.

(** C4, counterexample: the provider ["a://b"] is known to the aggregator
    and to the router, yet reading ["a://b://doc"] takes ["a"] for the
    scheme, fails with [ValueError] and calls no provider. *)
Lemma route_resource_read_scheme_cut_short :
  let ps := [provider_named_like_uri] in
  "a://b" ∈ prov_name <$> ps ∧
  dict_get "a://b" (providers_by_name ps) = Some provider_named_like_uri ∧
  route_resource_read (resource_router ps) ("a://b" +:+ "://" +:+ "doc")
  = (Raise (Exn ValueError
       "Invalid resource URI: Unknown provider scheme 'a' in URI: a://b://doc. Available providers: ['a://b']"),
     []) ∧
  ¬ prefixed_uri_reaches_provider ps.
Proof.
  assert (route_resource_read (resource_router [provider_named_like_uri])
            ("a://b" +:+ "://" +:+ "doc")
          = (Raise (Exn ValueError
               "Invalid resource URI: Unknown provider scheme 'a' in URI: a://b://doc. Available providers: ['a://b']"),
             [])) as Hroute by by_evaluation.
  split_and!.
  - apply list_elem_of_singleton. reflexivity.
  - by_evaluation.
  - exact Hroute.
  - intros Hclaim.
    destruct (Hclaim "a://b" "doc") as (P & _ & _ & HP).
    + apply list_elem_of_singleton. reflexivity.
    + rewrite HP in Hroute. discriminate Hroute.
Qed.
(* ================================================================= *)
(** ** The catalog maps across runs *)

(** On a fresh aggregator the maps hold what the run published, and no
    natural name of the conflict set is a key. *)
Lemma fresh_run_cache_keys (ps : list MCPProvider) (n : string) :
  let run := aggregate_tools (ToolAggregator_init ps) in
  is_Some (dict_get n (_tool_cache run.2)) → n ∈ tool_name <$> run.1.
Proof.
  intros run [e He]. subst run. rewrite aggregate_tools_eq in *. simpl in *.
  apply store_all_get_Some in He as [Hin|?]; [|done].
  apply list_elem_of_fmap in Hin as (e' & Heq & Hin). simplify_eq.
  by apply list_elem_of_fmap_2.
Qed.

Lemma fresh_run_conflict_not_key (ps : list MCPProvider) (n : string) :
  let run := aggregate_tools (ToolAggregator_init ps) in
  n ∈ _conflicts run.2 → PyStr.contains ":" n = false →
  dict_get n (_tool_cache run.2) = None.
Proof.
  intros run Hn Hcolon. subst run. rewrite aggregate_tools_eq in *. simpl in *.
  destruct (dict_get n _) as [e|] eqn:He; [exfalso|done].
  apply store_all_get_Some in He as [Hin|?]; [|done].
  apply list_elem_of_fmap in Hin as (e' & Heq & Hin). simplify_eq.
  unfold published_tools in Hin. apply list_elem_of_bind in Hin as (p & Hin & _).
  apply list_elem_of_fmap in Hin as (t & -> & _).
  unfold enrich_tool in *. case_decide as Hc; simpl in *; [|done].
  by rewrite contains_middle in Hcolon.
Qed.

Lemma fresh_run_catalog (ps : list MCPProvider) :
  NoDup (prov_name <$> ps) →
  (∀ p t, p ∈ ps → t ∈ tools_or_empty p → PyStr.contains ":" (tool_name t) = false) →
  catalog_of_this_run (aggregate_tools (ToolAggregator_init ps)).
Proof.
  intros Hnd Hnames. split.
  - intros k. apply fresh_run_cache_keys.
  - intros n Hn. apply fresh_run_conflict_not_key; [done|].
    destruct (aggregate_tools_published (ToolAggregator_init ps) Hnd) as [Hconf _].
    apply Hconf in Hn. simpl in Hn.
    destruct (occurrences_pos_inv n ps) as (q & Hq & t & Ht & <-); [lia|].
    by apply (Hnames q).
Qed.

(** A run only adds to the two maps: every key of before is a key after. *)
Lemma aggregate_tools_keeps_keys (self : ToolAggregator) (n : string) :
  (is_Some (dict_get n (_tool_cache self)) →
   is_Some (dict_get n (_tool_cache (aggregate_tools self).2))) ∧
  (is_Some (dict_get n (_provider_map self)) →
   is_Some (dict_get n (_provider_map (aggregate_tools self).2))).
Proof.
  rewrite aggregate_tools_eq. simpl. split; intros [v Hv].
  - destruct (dict_get n (store_all _ _)) eqn:Hget; [done|].
    apply store_all_get_None in Hget as [Hget _]. congruence.
  - destruct (dict_get n (store_all _ _)) eqn:Hget; [done|].
    apply store_all_get_None in Hget as [Hget _]. congruence.
Qed.

(** C5, the code at the failing input: after the second run the catalog
    is not the catalog of that run.  The second run publishes
    ["p1:search"] and ["p2:search"] and puts ["search"] in the conflict
    set, but both maps still hold the entry ["search"] of the first run:
    the key ["search"] of [_tool_cache] is no name published in this run,
    and looking ["search"] up answers ["p1"] where the conflict set calls
    for the ambiguity error. *)
Theorem second_run_keeps_stale_entries :
  ¬ catalog_of_this_run second_run ∧
  tool_name <$> second_run.1 = ["p1:search"; "p2:search"] ∧
  "search" ∈ _conflicts second_run.2 ∧
  dict_keys (_tool_cache second_run.2) = ["search"; "p1:search"; "p2:search"] ∧
  ("search" ∉ tool_name <$> second_run.1) ∧
  dict_get "search" (_provider_map second_run.2) = Some "p1" ∧
  get_provider_for_tool second_run.2 "search" = Ok "p1".
Proof.
  assert (tool_name <$> second_run.1 = ["p1:search"; "p2:search"]) as Hnames
    by by_evaluation.
  assert (dict_get "search" (_tool_cache second_run.2)
          = Some (enrich_tool ∅ (mock_provider "p1" "enterprise" [])
                    (mk_tool "search" "Search P1"))) as Hstale
    by by_evaluation.
  split_and!.
  - intros [Hkeys _]. specialize (Hkeys "search"). rewrite Hstale, Hnames in Hkeys.
    specialize (Hkeys (mk_is_Some _ _ eq_refl)).
    apply elem_of_cons in Hkeys as [Heq|Hin]; [discriminate Heq|].
    apply list_elem_of_singleton in Hin. discriminate Hin.
  - exact Hnames.
  - by_evaluation.
  - by_evaluation.
  - rewrite Hnames. intros Hin.
    apply elem_of_cons in Hin as [Heq|Hin]; [discriminate Heq|].
    apply list_elem_of_singleton in Hin. discriminate Hin.
  - by_evaluation.
  - by_evaluation.
Qed.

(* ================================================================= *)
(** ** Similar-name suggestions *)

Lemma contains_inv (sub s : string) :
  PyStr.contains sub s = true → ∃ l r, s = l +:+ sub +:+ r.
Proof.
  intros [[l r] Hp]%partition_is_Some. exists l, r. by apply partition_Some.
Qed.

Lemma contains_trans (a b c : string) :
  PyStr.contains a b = true → PyStr.contains b c = true → PyStr.contains a c = true.
Proof.
  intros (x & y & ->)%contains_inv (u & v & ->)%contains_inv.
  rewrite !str_app_assoc, <- (str_app_assoc u x).
  apply contains_middle.
Qed.

(** The first word of [s.split("_")] is a prefix of [s]. *)
Lemma split_first_word (c : ascii) (s : string) :
  ∃ w ws r, PyStr.split c s = w :: ws ∧ s = w +:+ r.
Proof.
  induction s as [|a s (w & ws & r & Hs & Hr)]; simpl.
  - by exists "", [], "".
  - destruct (Ascii.eqb a c).
    + by exists "", (PyStr.split c s), (String a s).
    + rewrite Hs. exists (String a w), ws, r. split; [done|].
      by rewrite str_app_cons, <- Hr.
Qed.

Lemma substring_match_implies_word_match (tool_name cached : string) :
  PyStr.contains (PyStr.lower tool_name) (PyStr.lower cached) = true →
  existsb (λ word, PyStr.contains (PyStr.lower word) (PyStr.lower cached))
          (PyStr.split "_" tool_name) = true.
Proof.
  intros Hsub.
  destruct (split_first_word "_" tool_name) as (w & ws & r & Hs & Hr).
  rewrite Hs. simpl. apply orb_true_iff. left.
  apply (contains_trans _ (PyStr.lower tool_name)); [|done].
  rewrite Hr, lower_app.
  apply contains_startswith, startswith_app_same.
Qed.

(** C9, the code on every input and at the failing input.  The three
    tests assign [score] one after the other, so a later match replaces
    the score of an earlier one: no name is ever scored 10, and a known
    name of which [n] is a substring is scored 5, or 3 when it also
    starts with the first three characters of [n].  For [n = "search"] the
    name ["search_issues"], which matches all three signals, is scored 3,
    ranks below the five names scored 5 and is cut from the five
    suggestions. *)
Theorem similarity_score_overwritten (n cached : string) :
  similarity_score n cached ≠ 10 ∧
  (if PyStr.contains (PyStr.lower n) (PyStr.lower cached)
   then similarity_score n cached
        = (if PyStr.startswith (PyStr.lower cached) (PyStr.take 3 (PyStr.lower n))
           then 3 else 5)
   else similarity_score n cached ∈ [0; 3; 5]) ∧
  similarity_score "search" "search_issues" = 3 ∧
  _find_similar_tools search_catalog "search" 5
  = ["research_a"; "research_b"; "research_c"; "research_d"; "research_e"].
Proof.
  assert (if PyStr.contains (PyStr.lower n) (PyStr.lower cached)
          then similarity_score n cached
               = (if PyStr.startswith (PyStr.lower cached) (PyStr.take 3 (PyStr.lower n))
                  then 3 else 5)
          else similarity_score n cached ∈ [0; 3; 5]) as Hscore.
  { unfold similarity_score.
    destruct (PyStr.contains (PyStr.lower n) (PyStr.lower cached)) eqn:Hsub.
    - by rewrite substring_match_implies_word_match.
    - destruct (existsb _ _), (PyStr.startswith _ _); set_solver. }
  split_and!.
  - destruct (PyStr.contains (PyStr.lower n) (PyStr.lower cached)).
    + rewrite Hscore. by destruct (PyStr.startswith _ _).
    + intros Heq. rewrite Heq in Hscore. set_solver.
  - exact Hscore.
  - by_evaluation.
  - by_evaluation.
Qed.

(* ================================================================= *)
(** ** The reader loops *)

Section reader_loops.
Variable validate_response : pydict json → result JSONRPCResponse.
Implicit Types (pending : gmap string future) (message : pydict json).

(** The stdio loop matches a message iff it has [id] and one of [result]
    and [error]; a matched message completes the waiter only when the
    table holds a waiter for that id that is not yet done; nothing else
    changes, and no message makes the body raise. *)
Lemma stdio_handle_message_spec pending message :
  stdio_handle_message validate_response pending message
  = if dict_mem "id" message && (dict_mem "result" message || dict_mem "error" message)
    then complete_waiter validate_response pending message
    else Ok pending.
Proof.
  unfold stdio_handle_message, stdio_is_response.
  destruct (dict_mem "id" message && _); [done|]. by destruct (_ && _).
Qed.



Lemma stdio_ignores_unmatched :
  ignores_unmatched (stdio_handle_message validate_response).
Proof.
  intros pending message Hno. by rewrite stdio_handle_message_spec, Hno.
Qed.

(** The two tests differ exactly on the messages that carry [error] but
    no [id]. *)
Lemma sse_is_response_differs message :
  sse_is_response message ≠ stdio_is_response message
  ↔ dict_mem "error" message = true ∧ dict_mem "id" message = false.
Proof.
  unfold sse_is_response, stdio_is_response.
  destruct (dict_mem "id" message), (dict_mem "result" message),
    (dict_mem "error" message); simpl; naive_solver.
Qed.

Lemma sse_handle_message_error_without_id pending message :
  dict_mem "error" message = true → dict_mem "id" message = false →
  sse_handle_message validate_response pending message = Raise (Exn KeyError "id").
Proof.
  intros Herr Hid. unfold sse_handle_message, sse_is_response, complete_waiter.
  rewrite Herr, Hid. simpl. unfold dict_mem in Hid.
  by destruct (dict_get "id" message).
Qed.

End reader_loops.

(** C6, the code at the failing input.  A message with an [error] member
    and no [id] is ignored by the stdio loop, as the claim says, but the
    SSE loop takes it for a response ([and] binds tighter than [or] in its
    test), evaluates [message["id"]] and raises [KeyError]; the exception
    leaves the [async for], so every later message stays unread and no
    waiter is completed any more. *)
Theorem sse_listen_loop_stops_on_error_without_id
    (validate_response : pydict json → result JSONRPCResponse)
    (pending : gmap string future) (rest : list (pydict json)) :
  ¬ ignores_unmatched (sse_handle_message validate_response) ∧
  stdio_is_response error_without_id = false ∧
  stdio_handle_message validate_response pending error_without_id = Ok pending ∧
  _listen_loop (stdio_handle_message validate_response) pending (error_without_id :: rest)
  = _listen_loop (stdio_handle_message validate_response) pending rest ∧
  sse_is_response error_without_id = true ∧
  sse_handle_message validate_response pending error_without_id
  = Raise (Exn KeyError "id") ∧
  _listen_loop (sse_handle_message validate_response) pending (error_without_id :: rest)
  = (pending, Some (Exn KeyError "id"), rest).
Proof.
  assert (sse_handle_message validate_response pending error_without_id
          = Raise (Exn KeyError "id")) as Hsse
    by (by apply sse_handle_message_error_without_id).
  assert (stdio_handle_message validate_response pending error_without_id
          = Ok pending) as Hstdio
    by (by rewrite stdio_handle_message_spec).
  split_and!; try (cbn [_listen_loop]; by rewrite ?Hstdio, ?Hsse).
  intros Hignores. specialize (Hignores pending error_without_id eq_refl).
  rewrite Hsse in Hignores. discriminate Hignores.
Qed.

(* ================================================================= *)
(** ** [send_request] and the pending table *)

Section send_request.
Variable str_float : Q → string.

Lemma stdio_send_request_pending (self : StdioTransport) (request : JSONRPCRequest)
    (timeout : option Q) (write : write_event) (wait : wait_event)
    (during_write during_wait : gmap string future → gmap string future) :
  let r := stdio_send_request str_float self request timeout write wait
             during_write during_wait in
  if stdio_connected self && stdio_process_stdin self
  then stdio_pending_requests r.2 !! id_str (req_id request) = None
  else r = (Raised (Exn TransportError "Not connected"), self).
Proof.
  unfold stdio_send_request.
  destruct (stdio_connected self), (stdio_process_stdin self); simpl; try done.
  destruct write; [destruct wait|..]; simpl; apply lookup_delete_eq.
Qed.

Lemma sse_send_request_pending (self : SSETransport) (request : JSONRPCRequest)
    (timeout : option Q) (post : post_event) (wait : wait_event)
    (during_post during_wait : gmap string future → gmap string future) :
  let r := sse_send_request str_float self request timeout post wait
             during_post during_wait in
  if sse_connected self && sse_client self
  then sse_pending_requests r.2 !! id_str (req_id request) = None
  else r = (Raised (Exn TransportError "Not connected"), self).
Proof.
  unfold sse_send_request.
  destruct (sse_connected self), (sse_client self); simpl; try done.
  destruct post as [status_code text| |]; simpl; [|apply lookup_delete_eq..].
  destruct (400 <=? status_code)%Z; [apply lookup_delete_eq|].
  destruct wait; simpl; apply lookup_delete_eq.
Qed.

End send_request.

(** C7.  On both transports, every [send_request] that gets past the
    connection check leaves the pending table without an entry for the
    request's id, however the write (or POST) and the wait end and whatever
    the other tasks do to the table meanwhile; a call refused by the
    connection check raises [TransportError] and leaves the table as it
    was.  When the request was sent and the deadline elapses without a
    reply, the call raises [TimeoutError] naming the deadline, which is
    the given timeout, and 60 seconds when none (or zero) is given. *)
Theorem send_request_removes_pending_entry (str_float : Q → string)
    (request : JSONRPCRequest) (timeout : option Q) (wait : wait_event)
    (during_send during_wait : gmap string future → gmap string future) :
  let request_id := id_str (req_id request) in
  let timeout_error :=
    Exn TimeoutError ("Request " +:+ request_id +:+ " timed out after "
                      +:+ str_float (timeout_or_default timeout) +:+ "s") in
  timeout_or_default None = 60%Q ∧
  (∀ (self : StdioTransport) (write : write_event),
     let r := stdio_send_request str_float self request timeout write wait
                during_send during_wait in
     if stdio_connected self && stdio_process_stdin self
     then stdio_pending_requests r.2 !! request_id = None ∧
          (write = WriteOk → wait = DeadlineElapsed → r.1 = Raised timeout_error)
     else r = (Raised (Exn TransportError "Not connected"), self)) ∧
  (∀ (self : SSETransport) (post : post_event),
     let r := sse_send_request str_float self request timeout post wait
                during_send during_wait in
     if sse_connected self && sse_client self
     then sse_pending_requests r.2 !! request_id = None ∧
          (∀ status_code text,
             post = PostResponse status_code text → (status_code < 400)%Z →
             wait = DeadlineElapsed → r.1 = Raised timeout_error)
     else r = (Raised (Exn TransportError "Not connected"), self)).
Proof.
  intros request_id timeout_error. split_and!; [done|..].
  - intros self write r.
    pose proof (stdio_send_request_pending str_float self request timeout write wait
                  during_send during_wait) as Hp.
    fold r in Hp. destruct (stdio_connected self && stdio_process_stdin self) eqn:Hc;
      [|done].
    split; [done|]. intros -> ->. subst r. unfold stdio_send_request.
    apply andb_true_iff in Hc as [-> ->]. done.
  - intros self post r.
    pose proof (sse_send_request_pending str_float self request timeout post wait
                  during_send during_wait) as Hp.
    fold r in Hp. destruct (sse_connected self && sse_client self) eqn:Hc; [|done].
    split; [done|]. intros status_code text -> Hlt ->. subst r. unfold sse_send_request.
    apply andb_true_iff in Hc as [-> ->]. simpl.
    destruct (Z.leb_spec 400 status_code); [lia|done].
Qed.

(* ================================================================= *)
(** ** The client: responses without a result *)

Section client_facts.
Variable transport_send_request : JSONRPCRequest → option Q → result JSONRPCResponse.
Variable uuid_hex8 : nat → string.
Variable ResourcesReadParams_dump : string → result (pydict json).
Variable ToolsCallParams_dump : string → json → result (pydict json).
Variable PromptsGetParams_dump : string → json → result (pydict json).
Variable ResourcesListResult_parse : pydict json → result (list Resource).
Variable ResourceContent_parse : pydict json → result ResourceContent.
Variable ToolsListResult_parse : pydict json → result (list Tool).
Variable ToolCallResult_parse : pydict json → result ToolCallResult.
Variable PromptsListResult_parse : pydict json → result (list Prompt).
Variable PromptResult_parse : pydict json → result PromptResult.

Local Abbreviation send_request_of self method params timeout :=
  (_send_request transport_send_request uuid_hex8 self method params timeout).
Local Abbreviation perform_op self op timeout :=
  (perform transport_send_request uuid_hex8
     ResourcesReadParams_dump ToolsCallParams_dump PromptsGetParams_dump
     ResourcesListResult_parse ResourceContent_parse ToolsListResult_parse
     ToolCallResult_parse PromptsListResult_parse PromptResult_parse
     self op timeout).
Local Abbreviation request_of op :=
  (operation_request ResourcesReadParams_dump ToolsCallParams_dump
     PromptsGetParams_dump op).

Lemma _send_request_outcome (self : MCPClient) (method : string)
    (params : option (pydict json)) (timeout : option Q) :
  (send_request_of self method params timeout).1
  = unwrap_response method
      (transport_send_request (build_request uuid_hex8 self method params) timeout).
Proof.
  unfold _send_request, unwrap_response.
  destruct (transport_send_request _ _) as [response|e]; [|done].
  destruct (resp_error response); [done|]. by destruct (resp_result response).
Qed.

Lemma unwrap_response_Ok method answer result :
  unwrap_response method answer = Ok result →
  ∃ response, answer = Ok response ∧ resp_error response = None
              ∧ resp_result response = Some result.
Proof.
  unfold unwrap_response. destruct answer as [response|e]; [|done].
  destruct (resp_error response) eqn:He; [done|].
  destruct (resp_result response) as [r|] eqn:Hr; [|done].
  intros [= ->]. by exists response.
Qed.

(** Every operation is: build the parameters, [_send_request], validate
    the result. *)
Lemma perform_outcome (self : MCPClient) (op : mcp_operation) (timeout : option Q) :
  ∃ parse : pydict json → result mcp_value,
    (perform_op self op timeout).1
    = match request_of op with
      | Raise e => Raise e
      | Ok (method, params) =>
          unwrap_response method
            (transport_send_request (build_request uuid_hex8 self method params) timeout)
          ≫= parse
      end.
Proof.
  destruct op as [|uri| |name arguments| |name arguments]; simpl.
  - exists (λ r, VResources <$> ResourcesListResult_parse r).
    unfold client_list_resources.
    pose proof (_send_request_outcome self "resources/list" None timeout) as H.
    destruct (send_request_of self "resources/list" None timeout) as [r s].
    simpl in *. rewrite <- H. by destruct r.
  - exists (λ r, VResourceContent <$> ResourceContent_parse r).
    unfold client_read_resource.
    destruct (ResourcesReadParams_dump uri) as [params|e]; simpl; [|done].
    pose proof (_send_request_outcome self "resources/read" (Some params) timeout) as H.
    destruct (send_request_of self "resources/read" (Some params) timeout) as [r s].
    simpl in *. rewrite <- H. by destruct r.
  - exists (λ r, VTools <$> ToolsListResult_parse r).
    unfold client_list_tools.
    pose proof (_send_request_outcome self "tools/list" None timeout) as H.
    destruct (send_request_of self "tools/list" None timeout) as [r s].
    simpl in *. rewrite <- H. by destruct r.
  - exists (λ r, VToolCallResult <$> ToolCallResult_parse r).
    unfold client_call_tool.
    destruct (ToolsCallParams_dump name _) as [params|e]; simpl; [|done].
    pose proof (_send_request_outcome self "tools/call" (Some params) timeout) as H.
    destruct (send_request_of self "tools/call" (Some params) timeout) as [r s].
    simpl in *. rewrite <- H. by destruct r.
  - exists (λ r, VPrompts <$> PromptsListResult_parse r).
    unfold client_list_prompts.
    pose proof (_send_request_outcome self "prompts/list" None timeout) as H.
    destruct (send_request_of self "prompts/list" None timeout) as [r s].
    simpl in *. rewrite <- H. by destruct r.
  - exists (λ r, VPromptResult <$> PromptResult_parse r).
    unfold client_get_prompt.
    destruct (PromptsGetParams_dump name _) as [params|e]; simpl; [|done].
    pose proof (_send_request_outcome self "prompts/get" (Some params) timeout) as H.
    destruct (send_request_of self "prompts/get" (Some params) timeout) as [r s].
    simpl in *. rewrite <- H. by destruct r.
Qed.

(** C10.  For each of the six client operations: when the transport's
    response to the request of the operation carries an error object the
    operation raises [ProtocolError] ("MCP error ..."); when it carries
    neither an error nor a non-null result the operation raises
    [ProtocolError] ("No result in response for ..."), so a reply
    ["result": null] is a protocol failure; and an operation that returns
    normally got a response with no error and a non-null result. *)
Theorem client_operation_requires_result (self : MCPClient) (op : mcp_operation)
    (timeout : option Q) :
  let out := (perform_op self op timeout).1 in
  (∀ method params response,
     request_of op = Ok (method, params) →
     transport_send_request (build_request uuid_hex8 self method params) timeout
     = Ok response →
     match resp_error response, resp_result response with
     | Some error, _ =>
         out = Raise (Exn ProtocolError
                 ("MCP error " +:+ pretty (err_code error) +:+ ": "
                  +:+ err_message error))
     | None, None =>
         out = Raise (Exn ProtocolError ("No result in response for " +:+ method))
     | None, Some _ => True
     end) ∧
  (∀ v, out = Ok v →
     ∃ method params response result,
       request_of op = Ok (method, params) ∧
       transport_send_request (build_request uuid_hex8 self method params) timeout
       = Ok response ∧
       resp_error response = None ∧ resp_result response = Some result).
Proof.
  intros out. subst out.
  destruct (perform_outcome self op timeout) as [parse ->]. split.
  - intros method params response -> ->. unfold unwrap_response.
    destruct (resp_error response); [done|]. by destruct (resp_result response).
  - intros v Hv. destruct (request_of op) as [[method params]|e]; [|done].
    destruct (unwrap_response method _) as [result|e] eqn:Hu; [|done].
    apply unwrap_response_Ok in Hu as (response & Hsend & Herr & Hres).
    by exists method, params, response, result.
Qed.

End client_facts.

(* ================================================================= *)
(** ** Errors at the JSON-RPC boundary *)

(** An exception of a handler becomes code -32000 with [str(e)] as the
    message and the class name of the exception as [data.type]. *)
Lemma handle_request_handler_raises (handlers : pydict handler)
    (request : JSONRPCRequest) (h : handler) (e : exn) (calls : list invocation) :
  dict_get (req_method request) handlers = Some h →
  h (default [] (req_params request)) = (Raise e, calls) →
  handle_request handlers request
  = (error_response (req_id request) (-32000) (exn_str e)
       (Some [("type", JStr (class_name (exn_type e)))]), calls).
Proof. intros Hh He. unfold handle_request. by rewrite Hh, He. Qed.

(** Whatever the router raises as a [ValueError], ambiguous or not, leaves
    [handle_tools_call] as a [ProtocolError] carrying the same text. *)
Lemma handle_tools_call_ValueError (self : MCPGateway) (router : ToolRouter)
    (resolver : ConflictResolver) (params : pydict json) (name : string)
    (e : exn) (calls : list invocation) :
  gw_tool_router self = Some router →
  gw_conflict_resolver self = Some resolver →
  dict_get "name" params = Some (JStr name) → name ≠ "" →
  route_tool_call router name (default (JDict []) (dict_get "arguments" params))
  = (Raise e, calls) →
  is_ValueError e = true →
  handle_tools_call self params = (Raise (Exn ProtocolError (exn_str e)), calls).
Proof.
  intros Hr Hc Hn Hne Hroute Hv. unfold handle_tools_call.
  rewrite Hn, Hr, Hc. simpl.
  apply String.eqb_neq in Hne. rewrite Hne. simpl.
  rewrite Hroute, Hv. by destruct (is_ambiguity_error e).
Qed.

(** C8, the code at the failing input.  In the gateway of scenario 2 the
    name [search] is ambiguous; the response to [tools/call] of [search]
    has [error.code = -32000] and the ambiguity text as its message, but
    [error.data] is [{"type": "ProtocolError"}]: [data.type] is the class
    name of the exception the handler raised, and the [ambiguous_tool]
    payload of the conflict resolver is computed and dropped. *)
Theorem ambiguous_tool_call_response :
  let response :=
    (handle_request (register_handlers (gateway_over scenario2_providers))
       ambiguous_call).1 in
  ¬ reports_error_kind response "ambiguous_tool" ∧
  reports_error_kind response "ProtocolError" ∧
  get_provider_for_tool (aggregate_tools (ToolAggregator_init scenario2_providers)).2
    "search"
  = Raise (Exn ValueError
      "Ambiguous tool name 'search'. This tool exists in multiple providers. Please use namespaced form: <provider>:search") ∧
  dict_get "error_type"
    (get_ambiguity_error
       {| cr_aggregator := (aggregate_tools (ToolAggregator_init scenario2_providers)).2 |}
       "search")
  = Some (JStr "ambiguous_tool") ∧
  handle_request (register_handlers (gateway_over scenario2_providers)) ambiguous_call
  = (error_response (IdInt 1) (-32000)
       "Ambiguous tool name 'search'. This tool exists in multiple providers. Please use namespaced form: <provider>:search"
       (Some [("type", JStr "ProtocolError")]),
     []).
Proof.
  assert (handle_request (register_handlers (gateway_over scenario2_providers))
            ambiguous_call
          = (error_response (IdInt 1) (-32000)
               "Ambiguous tool name 'search'. This tool exists in multiple providers. Please use namespaced form: <provider>:search"
               (Some [("type", JStr "ProtocolError")]), [])) as Hresp
    by by_evaluation.
  intros response. subst response. rewrite Hresp. split_and!.
  - intros (error & data & Herr & _ & Hdata & Htype). simpl in Herr.
    injection Herr as <-. simpl in Hdata. injection Hdata as <-.
    discriminate Htype.
  - eexists _, _. by split_and!.
  - by_evaluation.
  - by_evaluation.
  - reflexivity.
Qed.


(* ================================================================= *)
(** ** From the catalog to the provider: published names are routable *)

Lemma colon_free_provider (ps : list MCPProvider) (p : MCPProvider) :
  colon_free ps = true → p ∈ ps → PyStr.contains ":" (prov_name p) = false.
Proof.
  unfold colon_free. rewrite forallb_forall. intros Hall Hp.
  apply list_elem_of_In, Hall in Hp. apply andb_true_iff in Hp as [Hp _].
  by apply negb_true_iff.
Qed.

Lemma colon_free_tool (ps : list MCPProvider) (p : MCPProvider) (t : Tool) :
  colon_free ps = true → p ∈ ps → t ∈ tools_or_empty p →
  PyStr.contains ":" (tool_name t) = false.
Proof.
  unfold colon_free. rewrite forallb_forall. intros Hall Hp Ht.
  apply list_elem_of_In, Hall in Hp. apply andb_true_iff in Hp as [_ Hp].
  rewrite forallb_forall in Hp. apply list_elem_of_In, Hp in Ht.
  by apply negb_true_iff.
Qed.

(** Providers of distinct names are told apart by their names. *)
Lemma prov_name_inj (ps : list MCPProvider) (p q : MCPProvider) :
  NoDup (prov_name <$> ps) → p ∈ ps → q ∈ ps → prov_name p = prov_name q → p = q.
Proof.
  induction ps as [|a ps IH]; [by intros _ ?%elem_of_nil|].
  rewrite fmap_cons, NoDup_cons. intros [Ha Hnd] Hp Hq Heq.
  apply elem_of_cons in Hp as [->|Hp]; apply elem_of_cons in Hq as [->|Hq].
  - done.
  - exfalso. apply Ha. rewrite Heq. by apply list_elem_of_fmap_2.
  - exfalso. apply Ha. rewrite <- Heq. by apply list_elem_of_fmap_2.
  - by apply IH.
Qed.

Lemma providers_by_name_get (ps : list MCPProvider) (p : MCPProvider) :
  NoDup (prov_name <$> ps) → p ∈ ps →
  dict_get (prov_name p) (providers_by_name ps) = Some p.
Proof.
  intros Hnd Hp.
  destruct (providers_by_name_lookup ps (prov_name p)) as (P & HP & Hin & Hname).
  { by apply list_elem_of_fmap_2. }
  by rewrite HP, (prov_name_inj ps P p).
Qed.

(** Two different providers that both return a name make it occur
    twice. *)
Lemma occurrences_two_providers (n : string) (ps : list MCPProvider)
    (p q : MCPProvider) :
  p ∈ ps → q ∈ ps → prov_name p ≠ prov_name q → returns p n → returns q n →
  1 < occurrences n ps.
Proof.
  induction ps as [|a ps IH]; [by intros ?%elem_of_nil|].
  intros Hp Hq Hne Hrp Hrq. rewrite occurrences_cons.
  apply elem_of_cons in Hp as [->|Hp]; apply elem_of_cons in Hq as [->|Hq].
  - done.
  - apply returns_name_count in Hrp.
    destruct Hrq as (t & Ht & Hn).
    pose proof (occurrences_pos ps q t Hq Ht) as Hocc. rewrite Hn in Hocc. lia.
  - apply returns_name_count in Hrq.
    destruct Hrp as (t & Ht & Hn).
    pose proof (occurrences_pos ps p t Hp Ht) as Hocc. rewrite Hn in Hocc. lia.
  - specialize (IH Hp Hq Hne Hrp Hrq). lia.
Qed.

(** Under the naming discipline a published name tells its provider: two
    returned tools published under one name come from one provider. *)
Lemma published_name_owner (ps : list MCPProvider) (conflicts : gset string)
    (p q : MCPProvider) (t u : Tool) :
  colon_free ps = true →
  (∀ n, n ∈ conflicts ↔ 1 < occurrences n ps) →
  p ∈ ps → t ∈ tools_or_empty p → q ∈ ps → u ∈ tools_or_empty q →
  tool_name (enrich_tool conflicts p t) = tool_name (enrich_tool conflicts q u) →
  prov_name p = prov_name q.
Proof.
  intros Hfree Hconf Hp Ht Hq Hu.
  pose proof (colon_free_provider ps p Hfree Hp) as Hpc.
  pose proof (colon_free_provider ps q Hfree Hq) as Hqc.
  pose proof (colon_free_tool ps p t Hfree Hp Ht) as Htc.
  pose proof (colon_free_tool ps q u Hfree Hq Hu) as Huc.
  unfold enrich_tool.
  destruct (decide (tool_name t ∈ conflicts)) as [Hin|Hnin];
    destruct (decide (tool_name u ∈ conflicts)) as [Hin'|Hnin']; simpl; intros Heq.
  - apply (f_equal (PyStr.split1 ":")) in Heq.
    rewrite !split1_colon in Heq by done. by injection Heq.
  - rewrite <- Heq, contains_middle in Huc. done.
  - rewrite Heq, contains_middle in Htc. done.
  - destruct (decide (prov_name p = prov_name q)) as [|Hne]; [done|].
    exfalso. apply Hnin, Hconf.
    apply (occurrences_two_providers _ ps p q); try done.
    + by exists t.
    + exists u. by split.
Qed.

Lemma last_assigned_snoc {V} (k : string) (kvs : list (string * V)) (kv : string * V) :
  last_assigned k (kvs ++ [kv])
  = if String.eqb kv.1 k then Some kv.2 else last_assigned k kvs.
Proof. unfold last_assigned. by rewrite foldl_app. Qed.

(** Reading a dictionary after a run of assignments. *)
Lemma store_all_get {V} (kvs : list (string * V)) (d : pydict V) (k : string) :
  dict_get k (store_all kvs d)
  = match last_assigned k kvs with
    | Some v => Some v
    | None => dict_get k d
    end.
Proof.
  revert d. induction kvs as [|kv kvs IH] using rev_ind; intros d; [done|].
  rewrite store_all_app, last_assigned_snoc. simpl.
  rewrite dict_get_set. destruct (String.eqb_spec kv.1 k) as [->|Hne].
  - by rewrite decide_True.
  - by rewrite decide_False, IH.
Qed.

Lemma last_assigned_Some {V} (k : string) (kvs : list (string * V)) (v : V) :
  last_assigned k kvs = Some v → (k, v) ∈ kvs.
Proof.
  induction kvs as [|kv kvs IH] using rev_ind; [done|].
  rewrite last_assigned_snoc. destruct (String.eqb_spec kv.1 k) as [<-|Hne].
  - intros [= <-]. apply elem_of_app. right.
    destruct kv. apply list_elem_of_here.
  - intros Hl. apply elem_of_app. left. by apply IH.
Qed.

Lemma last_assigned_None {V} (k : string) (kvs : list (string * V)) :
  last_assigned k kvs = None ↔ k ∉ kvs.*1.
Proof.
  induction kvs as [|kv kvs IH] using rev_ind.
  - split; [intros _; apply not_elem_of_nil|done].
  - rewrite last_assigned_snoc, fmap_app, not_elem_of_app. csimpl.
    rewrite list_elem_of_singleton.
    destruct (String.eqb_spec kv.1 k) as [<-|Hne]; [naive_solver|].
    rewrite IH. naive_solver.
Qed.

(** When every assignment to [k] stores the same value, that value is
    read. *)
Lemma store_all_get_agree {V} (kvs : list (string * V)) (d : pydict V)
    (k : string) (v : V) :
  (k, v) ∈ kvs → (∀ v', (k, v') ∈ kvs → v' = v) →
  dict_get k (store_all kvs d) = Some v.
Proof.
  intros Hin Hall. rewrite store_all_get.
  destruct (last_assigned k kvs) as [v'|] eqn:Hl.
  - f_equal. by apply Hall, last_assigned_Some.
  - apply last_assigned_None in Hl. exfalso. apply Hl.
    by apply (list_elem_of_fmap_2 fst _ (k, v)).
Qed.

Lemma published_owners_NoDup (ps : list MCPProvider) (conflicts : gset string) :
  NoDup (prov_name <$> ps) →
  published_owners conflicts (collect_provider_tools ps) ps
  = (λ pt, (tool_name (enrich_tool conflicts pt.1 pt.2), prov_name pt.1))
      <$> returned_tools ps.
Proof.
  intros Hnd. rewrite <- (bind_fmap_returned
    (λ p t, (tool_name (enrich_tool conflicts p t), prov_name p))).
  unfold published_owners.
  apply Forall_bind_ext, Forall_forall. intros p Hp. unfold tools_of.
  by rewrite dict_get_collect.
Qed.

(** The owner recorded for a published name on a fresh aggregator. *)
Lemma fresh_run_owner (ps : list MCPProvider) (p : MCPProvider) (t : Tool) :
  NoDup (prov_name <$> ps) → colon_free ps = true →
  p ∈ ps → t ∈ tools_or_empty p →
  let run := aggregate_tools (ToolAggregator_init ps) in
  dict_get (tool_name (enrich_tool (_conflicts run.2) p t)) (_provider_map run.2)
  = Some (prov_name p).
Proof.
  intros Hnd Hfree Hp Ht run. subst run. rewrite aggregate_tools_eq. simpl.
  set (conflicts := detect_conflicts _).
  assert (∀ n, n ∈ conflicts ↔ 1 < occurrences n ps) as Hconf
    by (intros n; by apply elem_of_conflicts).
  rewrite published_owners_NoDup by done.
  apply store_all_get_agree.
  - apply list_elem_of_fmap. exists (p, t). split; [done|].
    by apply elem_of_returned_tools.
  - intros v' ([q u] & [= Hname ->] & [Hq Hu]%elem_of_returned_tools)%list_elem_of_fmap.
    simpl in *. symmetry. by apply (published_name_owner ps conflicts p q t u).
Qed.

(** Routing a natural name the catalog knows. *)
Lemma route_natural (router : ToolRouter) (name prov : string)
    (arguments : json) (P : MCPProvider) :
  PyStr.contains ":" name = false →
  dict_get name (_provider_map (tr_aggregator router)) = Some prov →
  dict_get prov (tr_providers router) = Some P →
  route_tool_call router name arguments
  = (call_tool P name arguments, [CallTool prov name arguments]).
Proof.
  intros Hname Hmap HP. unfold route_tool_call, _parse_tool_name.
  rewrite Hname. unfold get_provider_for_tool. rewrite Hmap. simpl.
  by rewrite HP.
Qed.

(** Every tool of a fresh run is routed to the provider that returned it. *)
Lemma fresh_run_routes (ps : list MCPProvider) (arguments : json) :
  NoDup (prov_name <$> ps) → colon_free ps = true →
  let run := aggregate_tools (ToolAggregator_init ps) in
  Forall2 (λ pt e,
             route_tool_call (tool_router_over ps run.2) (tool_name e) arguments
             = (call_tool pt.1 (tool_name pt.2) arguments,
                [CallTool (prov_name pt.1) (tool_name pt.2) arguments]))
          (returned_tools ps) run.1.
Proof.
  intros Hnd Hfree run.
  assert (run.1 = (λ pt, enrich_tool (_conflicts run.2) pt.1 pt.2)
                    <$> returned_tools ps) as ->.
  { subst run. rewrite aggregate_tools_eq. simpl.
    by rewrite published_tools_NoDup, bind_fmap_returned. }
  apply Forall2_fmap_r, Forall_Forall2_diag, Forall_forall.
  intros [p t] [Hp Ht]%elem_of_returned_tools. simpl.
  pose proof (fresh_run_owner ps p t Hnd Hfree Hp Ht) as Howner.
  pose proof (providers_by_name_get ps p Hnd Hp) as Htable.
  fold run in Howner. simpl in Howner. revert Howner.
  unfold enrich_tool at 1 2.
  destruct (decide (tool_name t ∈ _conflicts run.2)); simpl; intros Howner.
  - apply route_namespaced; [by apply (colon_free_provider ps)|done..].
  - apply route_natural; [by apply (colon_free_tool ps p)|done..].
Qed.

(** X1.  Aggregation and routing compose.  Take providers with pairwise
    distinct names, none of whose names or tool names holds a [":"], a
    fresh aggregator over them, and the router over the same providers.
    Then every tool of the catalog [aggregate_tools] returns is routable
    under its published name: [route_tool_call] makes exactly one provider
    call, to the provider that returned the tool and under the tool's
    natural name, and returns the outcome of that call. *)
Theorem published_tool_reaches_owner (ps : list MCPProvider) (arguments : json) :
  NoDup (prov_name <$> ps) → colon_free ps = true →
  let run := aggregate_tools (ToolAggregator_init ps) in
  Forall2 (λ pt e,
             route_tool_call (tool_router_over ps run.2) (tool_name e) arguments
             = (call_tool pt.1 (tool_name pt.2) arguments,
                [CallTool (prov_name pt.1) (tool_name pt.2) arguments]))
          (returned_tools ps) run.1.
Proof. exact (fresh_run_routes ps arguments). Qed.

Lemma published_tool_reaches_owner_witness :
  let run := aggregate_tools (ToolAggregator_init scenario2_providers) in
  Forall2 (λ pt e,
             route_tool_call (tool_router_over scenario2_providers run.2)
               (tool_name e) (JDict [("q", JStr "x")])
             = (call_tool pt.1 (tool_name pt.2) (JDict [("q", JStr "x")]),
                [CallTool (prov_name pt.1) (tool_name pt.2) (JDict [("q", JStr "x")])]))
          (returned_tools scenario2_providers) run.1.
Proof.
  apply (published_tool_reaches_owner scenario2_providers).
  - by_evaluation.
  - reflexivity.
Defined.

(* ================================================================= *)
(** ** The tool cache of a fresh run *)

Lemma last_assigned_fmap_Some {A} (f : A → string) (l : list A) (k : string) (x : A) :
  last_assigned k ((λ a, (f a, a)) <$> l) = Some x → x ∈ l ∧ f x = k.
Proof.
  intros Hl%last_assigned_Some. apply list_elem_of_fmap in Hl as (a & Heq & Ha).
  by simplify_eq.
Qed.

Lemma last_assigned_last {V} (k : string) (kvs1 kvs2 : list (string * V)) (v : V) :
  k ∉ kvs2.*1 → last_assigned k (kvs1 ++ (k, v) :: kvs2) = Some v.
Proof.
  induction kvs2 as [|kv kvs2 IH] using rev_ind; intros Hnin.
  - rewrite last_assigned_snoc. simpl. by rewrite String.eqb_refl.
  - rewrite fmap_app, not_elem_of_app in Hnin. destruct Hnin as [Hnin Hkv].
    csimpl in Hkv. rewrite list_elem_of_singleton in Hkv.
    replace (kvs1 ++ (k, v) :: kvs2 ++ [kv]) with ((kvs1 ++ (k, v) :: kvs2) ++ [kv])
      by (by rewrite <- app_assoc).
    rewrite last_assigned_snoc.
    destruct (String.eqb_spec kv.1 k) as [Heq|_]; [by destruct Hkv|by apply IH].
Qed.

(** X2.  Storing and looking up the catalog.  After a run of
    [aggregate_tools] on a fresh aggregator, [get_tool_info] answers
    exactly the published names: whatever it returns is a tool of the
    returned catalog stored under its own name; every tool of the catalog
    is found under its name; a name the catalog does not hold raises
    [KeyError]; and where several tools were published under one name the
    last of them is the one returned, so with pairwise distinct published
    names every tool is returned as it was published. *)
Theorem get_tool_info_fresh_run (ps : list MCPProvider) :
  let run := aggregate_tools (ToolAggregator_init ps) in
  (∀ n e, get_tool_info run.2 n = Ok e → e ∈ run.1 ∧ tool_name e = n) ∧
  (∀ e, e ∈ run.1 → ∃ e', get_tool_info run.2 (tool_name e) = Ok e') ∧
  (∀ n, n ∉ tool_name <$> run.1 →
        get_tool_info run.2 n = Raise (Exn KeyError ("Tool '" +:+ n +:+ "' not found"))) ∧
  (∀ before e after,
     run.1 = before ++ e :: after → tool_name e ∉ tool_name <$> after →
     get_tool_info run.2 (tool_name e) = Ok e) ∧
  (NoDup (tool_name <$> run.1) →
   ∀ e, e ∈ run.1 → get_tool_info run.2 (tool_name e) = Ok e).
Proof.
  intros run.
  assert (∀ n, dict_get n (_tool_cache run.2)
               = last_assigned n ((λ e, (tool_name e, e)) <$> run.1)) as Hcache.
  { intros n. subst run. rewrite aggregate_tools_eq. simpl.
    rewrite store_all_get. by destruct (last_assigned _ _). }
  assert (∀ before e after,
     run.1 = before ++ e :: after → tool_name e ∉ tool_name <$> after →
     get_tool_info run.2 (tool_name e) = Ok e) as Hlast.
  { intros before e after Hrun Hnin. unfold get_tool_info.
    rewrite Hcache, Hrun, fmap_app, fmap_cons, last_assigned_last; [done|].
    by rewrite <- list_fmap_compose. }
  split_and!.
  - intros n e. unfold get_tool_info. rewrite Hcache.
    destruct (last_assigned _ _) as [e'|] eqn:Hl; [|done].
    intros [= ->]. by apply (last_assigned_fmap_Some tool_name).
  - intros e He. unfold get_tool_info. rewrite Hcache.
    destruct (last_assigned _ _) as [e'|] eqn:Hl; [by exists e'|].
    apply last_assigned_None in Hl. exfalso. apply Hl.
    rewrite <- list_fmap_compose. by apply (list_elem_of_fmap_2 tool_name).
  - intros n Hn. unfold get_tool_info. rewrite Hcache.
    destruct (last_assigned _ _) as [e'|] eqn:Hl; [|done].
    apply (last_assigned_fmap_Some tool_name) in Hl as [He <-].
    exfalso. apply Hn. by apply list_elem_of_fmap_2.
  - exact Hlast.
  - intros Hnd e He.
    apply list_elem_of_split in He as (before & after & Hrun).
    apply (Hlast before e after Hrun).
    rewrite Hrun, fmap_app, fmap_cons in Hnd.
    apply NoDup_app in Hnd as (_ & _ & Hnd). by apply NoDup_cons in Hnd as [? _].
Qed.

(* ================================================================= *)
(** ** A provider that fails to list its tools *)

Lemma occurrences_filter (n : string) (ps : list MCPProvider) :
  occurrences n (filter (λ p, answers_tools p = true) ps) = occurrences n ps.
Proof.
  induction ps as [|p ps IH]; [done|].
  rewrite filter_cons, occurrences_cons. case_decide as Hp.
  - by rewrite occurrences_cons, IH.
  - rewrite IH. unfold answers_tools, tools_or_empty in *.
    destruct (list_tools p); [done|]. unfold name_count. simpl. lia.
Qed.

Lemma bind_filter_answers {B} (f : MCPProvider → list Tool → list B) (ps : list MCPProvider) :
  (∀ p, f p [] = []) →
  filter (λ p, answers_tools p = true) ps ≫= (λ p, f p (tools_or_empty p))
  = ps ≫= (λ p, f p (tools_or_empty p)).
Proof.
  intros Hnil. induction ps as [|p ps IH]; [done|].
  rewrite filter_cons. case_decide as Hp; csimpl; rewrite IH; [done|].
  unfold answers_tools, tools_or_empty in *.
  destruct (list_tools p); [done|]. by rewrite Hnil.
Qed.

Lemma filter_names_NoDup (P : MCPProvider → Prop) `{!∀ p, Decision (P p)}
    (ps : list MCPProvider) :
  NoDup (prov_name <$> ps) → NoDup (prov_name <$> filter P ps).
Proof.
  intros Hnd. eapply sublist_NoDup; [exact Hnd|].
  apply fmap_sublist, sublist_filter.
Qed.

(** The catalog of a run over providers of distinct names, in closed
    form. *)
Lemma aggregate_tools_NoDup_eq (self : ToolAggregator) :
  NoDup (prov_name <$> providers self) →
  let ps := providers self in
  let conflicts := _conflicts (aggregate_tools self).2 in
  (∀ n, n ∈ conflicts ↔ 1 < occurrences n ps) ∧
  aggregate_tools self
  = (ps ≫= (λ p, enrich_tool conflicts p <$> tools_or_empty p),
     {| providers := ps;
        _tool_cache :=
          store_all ((λ e, (tool_name e, e))
                       <$> (ps ≫= (λ p, enrich_tool conflicts p <$> tools_or_empty p)))
                    (_tool_cache self);
        _provider_map :=
          store_all (ps ≫= (λ p, (λ t, (tool_name (enrich_tool conflicts p t),
                                        prov_name p)) <$> tools_or_empty p))
                    (_provider_map self);
        _conflicts := conflicts |}).
Proof.
  intros Hnd ps conflicts. subst conflicts. rewrite aggregate_tools_eq. simpl.
  split; [intros n; by apply elem_of_conflicts|].
  fold ps. rewrite published_tools_NoDup by done.
  do 3 f_equal. unfold published_owners.
  apply Forall_bind_ext, Forall_forall. intros p Hp. unfold tools_of.
  by rewrite dict_get_collect.
Qed.

(** X3.  A failing provider is left out and nothing else changes.  For
    providers with pairwise distinct names, a run of [aggregate_tools]
    over all of them returns the same catalog, and leaves the same
    conflict set and the same two maps, as a run over only the providers
    whose [list_tools] did not raise: a provider that fails to list its
    tools contributes nothing and takes nothing away. *)
Theorem aggregate_tools_skips_failing_providers (self : ToolAggregator) :
  NoDup (prov_name <$> providers self) →
  let answering := filter (λ p, answers_tools p = true) (providers self) in
  let run := aggregate_tools self in
  let run' := aggregate_tools (with_providers answering self) in
  run.1 = run'.1 ∧
  _conflicts run.2 = _conflicts run'.2 ∧
  _tool_cache run.2 = _tool_cache run'.2 ∧
  _provider_map run.2 = _provider_map run'.2.
Proof.
  intros Hnd answering run run'.
  destruct (aggregate_tools_NoDup_eq self Hnd) as [Hconf Hrun].
  destruct (aggregate_tools_NoDup_eq (with_providers answering self)) as [Hconf' Hrun'].
  { by apply filter_names_NoDup. }
  fold run in Hconf, Hrun. fold run' in Hconf', Hrun'. simpl in *.
  assert (_conflicts run.2 = _conflicts run'.2) as Heq.
  { apply set_eq. intros n. rewrite Hconf, Hconf'. fold answering.
    subst answering. by rewrite occurrences_filter. }
  rewrite Hrun, Hrun', <- Heq. simpl. subst answering.
  rewrite (bind_filter_answers (λ p ts, enrich_tool (_conflicts run.2) p <$> ts))
    by done.
  rewrite (bind_filter_answers
             (λ p ts, (λ t, (tool_name (enrich_tool (_conflicts run.2) p t),
                             prov_name p)) <$> ts)) by done.
  done.
Qed.

Lemma aggregate_tools_skips_failing_providers_witness :
  let failing :=
    {| prov_name := "down"; prov_category := None;
       list_tools := Raise (Exn RuntimeError "Provider not connected");
       list_resources := Ok []; list_prompts := Ok [];
       call_tool := λ _ _, Raise (Exn RuntimeError "Provider not connected");
       read_resource := λ _, Raise (Exn RuntimeError "Provider not connected") |} in
  let self := ToolAggregator_init (failing :: scenario2_providers) in
  let run := aggregate_tools self in
  let run' := aggregate_tools (with_providers scenario2_providers self) in
  run.1 = run'.1 ∧
  _conflicts run.2 = _conflicts run'.2 ∧
  _tool_cache run.2 = _tool_cache run'.2 ∧
  _provider_map run.2 = _provider_map run'.2.
Proof.
  intros failing self.
  apply (aggregate_tools_skips_failing_providers self).
  by_evaluation.
Defined.

(* ================================================================= *)
(** ** Running the aggregation again *)

Section pydict_ext.
Context {V : Type}.
Implicit Types (d : pydict V) (kvs : list (string * V)).

(** Dictionaries with the same keys in the same order and the same
    values are the same dictionary. *)
Lemma dict_ext d1 d2 :
  NoDup (dict_keys d1) → dict_keys d1 = dict_keys d2 →
  (∀ k, dict_get k d1 = dict_get k d2) → d1 = d2.
Proof.
  unfold dict_keys. revert d2.
  induction d1 as [|[k v] d1 IH]; intros [|[k' v'] d2]; csimpl; try done.
  rewrite NoDup_cons. intros [Hk Hnd] [= <- Hkeys] Hget. f_equal.
  - specialize (Hget k). simpl in Hget. rewrite String.eqb_refl in Hget.
    by injection Hget as ->.
  - apply IH; [done..|]. intros k0. specialize (Hget k0). simpl in Hget.
    destruct (String.eqb_spec k k0) as [Heq|Hne]; [|done]. subst k0.
    assert (dict_get k d1 = None) as -> by by apply dict_get_None.
    symmetry. apply dict_get_None. unfold dict_keys. by rewrite <- Hkeys.
Qed.

Lemma store_all_keys_present kvs d :
  (∀ k, k ∈ kvs.*1 → k ∈ dict_keys d) → dict_keys (store_all kvs d) = dict_keys d.
Proof.
  revert d. induction kvs as [|[k v] kvs IH]; intros d Hin; csimpl; [done|].
  assert (dict_mem k d = true) as Hmem.
  { unfold dict_mem. destruct (dict_get k d) eqn:Hget; [done|].
    apply dict_get_None in Hget. exfalso. apply Hget, Hin. csimpl. apply list_elem_of_here. }
  rewrite IH; rewrite dict_keys_set, Hmem; [done|].
  intros k' Hk'. apply Hin. csimpl. by apply list_elem_of_further.
Qed.

Lemma store_all_key_stored kvs d k : k ∈ kvs.*1 → k ∈ dict_keys (store_all kvs d).
Proof.
  intros Hk. destruct (dict_get k (store_all kvs d)) eqn:Hget.
  - apply dict_get_Some_elem in Hget. by apply (list_elem_of_fmap_2 fst _ (k, v)).
  - by apply store_all_get_None in Hget as [_ ?].
Qed.

(** Repeating a run of assignments changes nothing. *)
Lemma store_all_idemp kvs d :
  NoDup (dict_keys d) → store_all kvs (store_all kvs d) = store_all kvs d.
Proof.
  intros Hnd. apply dict_ext.
  - by do 2 apply store_all_NoDup.
  - apply store_all_keys_present. intros k. apply store_all_key_stored.
  - intros k. rewrite !store_all_get. by destruct (last_assigned k kvs).
Qed.

End pydict_ext.

(** X4.  Aggregating again is harmless while the providers answer the
    same.  For an aggregator whose two maps hold each key once (as every
    Python dict does), a second run of [aggregate_tools] right after a
    first returns the same catalog and leaves the aggregator exactly as
    the first run left it. *)
Theorem aggregate_tools_idempotent (self : ToolAggregator) :
  NoDup (dict_keys (_tool_cache self)) → NoDup (dict_keys (_provider_map self)) →
  aggregate_tools (aggregate_tools self).2 = aggregate_tools self.
Proof.
  intros Hcache Hmap. rewrite (aggregate_tools_eq self). cbn [snd].
  rewrite aggregate_tools_eq. cbn [providers _tool_cache _provider_map].
  by rewrite !store_all_idemp.
Qed.

Lemma aggregate_tools_idempotent_witness :
  aggregate_tools (aggregate_tools after_first_run).2 = aggregate_tools after_first_run.
Proof.
  apply (aggregate_tools_idempotent after_first_run); by_evaluation.
Defined.

(* ================================================================= *)
(** ** From the resource list to the provider *)

Lemma scheme_free_provider (ps : list MCPProvider) (p : MCPProvider) :
  scheme_free ps = true → p ∈ ps → PyStr.contains "://" (prov_name p) = false.
Proof.
  unfold scheme_free. rewrite forallb_forall. intros Hall Hp.
  apply list_elem_of_In, Hall in Hp. by apply negb_true_iff.
Qed.

Lemma elem_of_emitted_resources (ps : list MCPProvider) (p : MCPProvider) (r : Resource) :
  (p, r) ∈ emitted_resources ps → p ∈ ps.
Proof.
  unfold emitted_resources. intros (q & Hin & Hq)%list_elem_of_bind.
  destruct (list_resources q); [|by apply elem_of_nil in Hin].
  apply list_elem_of_fmap in Hin as (r' & Heq & _). by simplify_eq.
Qed.

(** A published URI is the provider's prefix followed by the URI that is
    read back. *)
Lemma prefix_resource_uri (p : MCPProvider) (r : Resource) :
  res_uri (prefix_resource p r) = prov_name p +:+ "://" +:+ uri_read_back p r.
Proof.
  unfold prefix_resource, uri_read_back. cbn [res_uri].
  destruct (PyStr.startswith _ _) eqn:Hs; cbn [negb]; [|done].
  apply startswith_split in Hs. by rewrite <- str_app_assoc.
Qed.

(** X5.  Listing and reading resources compose.  For providers with
    pairwise distinct names that hold no ["://"], every resource of the
    list [aggregate_resources] returns can be read through the router
    under its published URI: [route_resource_read] makes exactly one
    provider call, to the provider that listed the resource, and returns
    its outcome.  The provider is asked for the URI it listed, except
    that a listed URI which already began with the provider's own
    [<name>://] (and was therefore published as it was) is asked for
    without that prefix. *)
Theorem listed_resource_reads_from_owner (ps : list MCPProvider) :
  NoDup (prov_name <$> ps) → scheme_free ps = true →
  Forall2 (λ pr r',
             route_resource_read (resource_router ps) (res_uri r')
             = (read_resource pr.1 (uri_read_back pr.1 pr.2),
                [ReadResource (prov_name pr.1) (uri_read_back pr.1 pr.2)]))
          (emitted_resources ps) (aggregate_resources (ResourceAggregator_init ps)).
Proof.
  intros Hnd Hfree. rewrite aggregate_resources_eq.
  apply Forall2_fmap_r, Forall_Forall2_diag, Forall_forall.
  intros [p r] Hp%elem_of_emitted_resources. unfold compose. cbn [fst snd].
  rewrite prefix_resource_uri.
  apply route_resource_read_known.
  - by apply (scheme_free_provider ps).
  - by apply list_elem_of_fmap_2.
  - by apply providers_by_name_get.
Qed.

Lemma listed_resource_reads_from_owner_witness :
  let p1 :=
    {| prov_name := "p1"; prov_category := Some "enterprise";
       list_tools := Ok [];
       list_resources :=
         Ok [ {| res_uri := "PROJ-123"; res_name := "Issue"; res_description := None;
                 res_mime_type := None; res_resource_type := TEXT |};
              {| res_uri := "p1://PROJ-7"; res_name := "Other"; res_description := None;
                 res_mime_type := None; res_resource_type := TEXT |} ];
       list_prompts := Ok [];
       call_tool := λ _ _, Ok {| tcr_content := []; tcr_is_error := false |};
       read_resource := λ uri,
         Ok {| rc_uri := uri; rc_mime_type := None; rc_text := Some uri;
               rc_blob := None |} |} in
  Forall2 (λ pr r',
             route_resource_read (resource_router [p1]) (res_uri r')
             = (read_resource pr.1 (uri_read_back pr.1 pr.2),
                [ReadResource (prov_name pr.1) (uri_read_back pr.1 pr.2)]))
          (emitted_resources [p1]) (aggregate_resources (ResourceAggregator_init [p1])).
Proof.
  intros p1. apply (listed_resource_reads_from_owner [p1]).
  - by_evaluation.
  - reflexivity.
Defined.

(** X6.  Prefixing is idempotent.  A published resource always carries
    its provider's prefix, and publishing it once more for the same
    provider leaves it as it is: aggregating what was already aggregated
    never stacks a second [<name>://]. *)
Theorem prefix_resource_idempotent (p : MCPProvider) (r : Resource) :
  PyStr.startswith (res_uri (prefix_resource p r)) (prov_name p +:+ "://") = true ∧
  prefix_resource p (prefix_resource p r) = prefix_resource p r.
Proof.
  assert (PyStr.startswith (res_uri (prefix_resource p r)) (prov_name p +:+ "://")
          = true) as Hs.
  { rewrite prefix_resource_uri, <- str_app_assoc. apply startswith_app_same. }
  split; [done|]. unfold prefix_resource at 1. by rewrite Hs.
Qed.

(* ================================================================= *)
(** ** Prompts *)

(** X7.  Prompts are passed through.  [aggregate_prompts] returns, in the
    order of the providers, exactly the prompts of the providers whose
    [list_prompts] did not raise, each as the provider gave it: a failing
    provider is skipped, and nothing is renamed or dropped, so two
    providers that list a prompt of the same name both have it in the
    result. *)
Theorem aggregate_prompts_passes_through (ps : list MCPProvider) :
  aggregate_prompts ps = ps ≫= prompts_or_empty ∧
  length (aggregate_prompts ps) = sum_list_with (λ p, length (prompts_or_empty p)) ps ∧
  (∀ pr, pr ∈ aggregate_prompts ps
         ↔ ∃ p prompts, p ∈ ps ∧ list_prompts p = Ok prompts ∧ pr ∈ prompts).
Proof.
  assert (aggregate_prompts ps = ps ≫= prompts_or_empty) as Heq.
  { unfold aggregate_prompts.
    enough (∀ acc : list Prompt,
      foldl (λ aggregated_prompts p,
               match list_prompts p with
               | Ok prompts => aggregated_prompts ++ prompts
               | Raise _ => aggregated_prompts
               end) acc ps
      = acc ++ (ps ≫= prompts_or_empty)) as Hgen by apply (Hgen []).
    induction ps as [|p ps IH]; intros acc; csimpl.
    - by rewrite app_nil_r.
    - rewrite IH. unfold prompts_or_empty at 2.
      destruct (list_prompts p); simpl; [by rewrite <- app_assoc|done]. }
  split_and!; [done| |].
  - rewrite Heq. clear Heq. induction ps as [|p ps IH]; csimpl; [done|].
    by rewrite length_app, IH.
  - intros pr. rewrite Heq, list_elem_of_bind. unfold prompts_or_empty. split.
    + intros (p & Hin & Hp). destruct (list_prompts p) as [prompts|] eqn:Hl.
      * by exists p, prompts.
      * by apply elem_of_nil in Hin.
    + intros (p & prompts & Hp & Hl & Hin). exists p. by rewrite Hl.
Qed.

(* ================================================================= *)
(** ** Suggestions: the best-scored names of the cache *)

Section sort_by_score.
Implicit Types (x y : nat * string) (l : list (nat * string)).

Lemma insert_by_score_Permutation x l : insert_by_score x l ≡ₚ x :: l.
Proof.
  induction l as [|y l IH]; simpl; [done|].
  destruct (x.1 <? y.1); [|done]. by rewrite IH, Permutation_swap.
Qed.

Lemma sort_by_score_Permutation l : sort_by_score l ≡ₚ l.
Proof.
  induction l as [|x l IH]; simpl; [done|].
  by rewrite insert_by_score_Permutation, IH.
Qed.

Lemma insert_by_score_sorted x l :
  StronglySorted by_score_desc l → StronglySorted by_score_desc (insert_by_score x l).
Proof.
  induction 1 as [|y l Hl IH Hy]; simpl.
  - repeat constructor.
  - destruct (Nat.ltb_spec x.1 y.1) as [Hlt|Hge].
    + constructor; [done|].
      rewrite insert_by_score_Permutation. constructor; [|done].
      unfold by_score_desc. lia.
    + constructor; [by constructor|].
      constructor; [done|].
      eapply Forall_impl; [exact Hy|]. unfold by_score_desc. intros z ?. lia.
Qed.

Lemma by_score_desc_lookup l i j x y :
  StronglySorted by_score_desc l → i < j → l !! i = Some x → l !! j = Some y →
  by_score_desc x y.
Proof.
  intros Hl. revert i j. induction Hl as [|z l Hl IH Hz]; intros i j Hij Hi Hj; [done|].
  destruct j as [|j]; [lia|]. simpl in Hj. destruct i as [|i]; simpl in Hi.
  - simplify_eq. rewrite Forall_forall in Hz. by eapply Hz, list_elem_of_lookup_2.
  - apply (IH i j); [lia|done..].
Qed.

Lemma sort_by_score_sorted l : StronglySorted by_score_desc (sort_by_score l).
Proof.
  induction l as [|x l IH]; simpl; [constructor|]. by apply insert_by_score_sorted.
Qed.

End sort_by_score.

(** The scored names [_find_similar_tools] collects before sorting. *)
Lemma elem_of_scored (n : string) (cached : list string) (sc : nat) (c : string) :
  (sc, c) ∈ omap (λ cached_tool_name,
                    let score := similarity_score n cached_tool_name in
                    if 0 <? score then Some (score, cached_tool_name) else None)
                 cached
  ↔ c ∈ cached ∧ sc = similarity_score n c ∧ 0 < sc.
Proof.
  rewrite list_elem_of_omap. split.
  - intros (c' & Hc' & Hsome). simpl in Hsome.
    destruct (Nat.ltb_spec 0 (similarity_score n c')); [|done].
    by simplify_eq.
  - intros (Hc & -> & Hpos). exists c. split; [done|]. simpl.
    by destruct (Nat.ltb_spec 0 (similarity_score n c)); [|lia].
Qed.

(** X8.  The suggestions are the best-scored names.  For every cache,
    requested name [n] and bound [k], [_find_similar_tools] returns at
    most [k] names; each is a key of the tool cache with a positive score;
    they are listed by non-increasing score; and whenever a cached name
    with a positive score is left out, the list is full ([k] names) and
    every listed name scores at least as much as the one left out. *)
Theorem find_similar_tools_best_scored (self : ConflictResolver) (n : string) (k : nat) :
  let cached := dict_keys (_tool_cache (cr_aggregator self)) in
  let suggestions := _find_similar_tools self n k in
  length suggestions ≤ k ∧
  (∀ s, s ∈ suggestions → s ∈ cached ∧ 0 < similarity_score n s) ∧
  (∀ i j s t, i < j → suggestions !! i = Some s → suggestions !! j = Some t →
              similarity_score n t ≤ similarity_score n s) ∧
  (∀ c, c ∈ cached → 0 < similarity_score n c → c ∉ suggestions →
        length suggestions = k ∧
        ∀ s, s ∈ suggestions → similarity_score n c ≤ similarity_score n s).
Proof.
  intros cached suggestions. subst suggestions. unfold _find_similar_tools.
  fold cached.
  set (similar := omap _ cached).
  set (sorted := sort_by_score similar).
  assert (∀ sc c, (sc, c) ∈ sorted ↔ c ∈ cached ∧ sc = similarity_score n c ∧ 0 < sc)
    as Hsorted.
  { intros sc c. subst sorted. rewrite sort_by_score_Permutation. apply elem_of_scored. }
  pose proof (sort_by_score_sorted similar) as Hdesc. fold sorted in Hdesc.
  assert (∀ s, s ∈ (take k sorted).*2 →
               (similarity_score n s, s) ∈ take k sorted) as Htaken.
  { intros s ([sc s'] & -> & Hin)%list_elem_of_fmap. simpl.
    pose proof Hin as Hin'. apply elem_of_take in Hin' as (i & Hi%list_elem_of_lookup_2 & _).
    apply Hsorted in Hi as (_ & <- & _). done. }
  split_and!.
  - rewrite length_fmap, length_take. lia.
  - intros s Hs%Htaken.
    apply elem_of_take in Hs as (i & Hi%list_elem_of_lookup_2 & _).
    apply Hsorted in Hi as (? & ? & ?). split; [done|lia].
  - intros i j s t Hij Hi Hj.
    rewrite list_lookup_fmap in Hi, Hj.
    destruct (take k sorted !! i) as [[sc1 s1]|] eqn:H1; [|done].
    destruct (take k sorted !! j) as [[sc2 s2]|] eqn:H2; [|done].
    simpl in Hi, Hj. simplify_eq.
    rewrite lookup_take_Some in H1, H2. destruct H1 as [H1 _], H2 as [H2 _].
    pose proof (list_elem_of_lookup_2 _ _ _ H1) as (_ & -> & _)%Hsorted.
    pose proof (list_elem_of_lookup_2 _ _ _ H2) as (_ & -> & _)%Hsorted.
    apply (by_score_desc_lookup sorted i j (similarity_score n s, s)
             (similarity_score n t, t) Hdesc Hij H1 H2).
  - intros c Hc Hpos Hnot.
    assert ((similarity_score n c, c) ∈ drop k sorted) as Hdropped.
    { assert ((similarity_score n c, c) ∈ sorted) as Hin by by apply Hsorted.
      rewrite <- (take_drop k sorted) in Hin. apply elem_of_app in Hin as [Hin|Hin]; [|done].
      exfalso. apply Hnot.
      by apply (list_elem_of_fmap_2 snd _ (similarity_score n c, c)). }
    split.
    + rewrite length_fmap, length_take.
      assert (drop k sorted ≠ []) as Hne by (by intros Heq; rewrite Heq in Hdropped;
                                              apply elem_of_nil in Hdropped).
      destruct (decide (k ≤ length sorted)) as [|Hlt]; [lia|].
      exfalso. apply Hne, drop_ge. lia.
    + intros s Hs%Htaken.
      rewrite <- (take_drop k sorted) in Hdesc.
      apply (StronglySorted_app_1_elem_of _ _ _ _ _ Hdesc Hs Hdropped).
Qed.

(** X9.  A requested name with an empty word matches everything.  When
    the requested name, split at ["_"], has an empty word (the empty name,
    or a name with a leading, a trailing or a doubled underscore), every
    cached name gets a positive score, because the empty word is a
    substring of every name: [_find_similar_tools] then returns as many
    names as the bound allows, whatever the cache holds. *)
Theorem empty_word_matches_every_tool (self : ConflictResolver) (n : string) (k : nat) :
  "" ∈ PyStr.split "_" n →
  (∀ c, 0 < similarity_score n c) ∧
  length (_find_similar_tools self n k)
  = k `min` length (dict_keys (_tool_cache (cr_aggregator self))).
Proof.
  intros Hempty.
  assert (∀ c, 0 < similarity_score n c) as Hpos.
  { intros c. unfold similarity_score.
    assert (existsb (λ word, PyStr.contains (PyStr.lower word) (PyStr.lower c))
                    (PyStr.split "_" n) = true) as ->.
    { apply existsb_exists. exists "". split; [by apply list_elem_of_In|].
      apply contains_startswith, startswith_nil. }
    destruct (PyStr.startswith _ _); lia. }
  split; [done|]. unfold _find_similar_tools.
  rewrite length_fmap, length_take.
  rewrite sort_by_score_Permutation.
  assert (∀ (f : string → option (nat * string)) (l : list string),
            (∀ c, is_Some (f c)) → length (omap f l) = length l) as ->; [|done|].
  - intros f l Hf. induction l as [|c l IH]; csimpl; [done|].
    destruct (Hf c) as [y ->]. simpl. by rewrite IH.
  - intros c. simpl. specialize (Hpos c).
    destruct (Nat.ltb_spec 0 (similarity_score n c)); [done|lia].
Qed.

Lemma empty_word_matches_every_tool_witness :
  (∀ c, 0 < similarity_score "_issues" c) ∧
  length (_find_similar_tools search_catalog "_issues" 5)
  = 5 `min` length (dict_keys (_tool_cache (cr_aggregator search_catalog))).
Proof.
  apply (empty_word_matches_every_tool search_catalog "_issues" 5).
  by_evaluation.
Defined.

(* ================================================================= *)
(** ** The namespaced versions of a conflicting name *)

(** The test of the two resolver loops, on the names a run publishes. *)
Lemma is_namespaced_version_natural (n name : string) :
  PyStr.contains ":" name = false → is_namespaced_version n name = false.
Proof. intros Hc. unfold is_namespaced_version. by rewrite Hc. Qed.

Lemma is_namespaced_version_namespaced (n prov local : string) :
  PyStr.contains ":" prov = false →
  is_namespaced_version n (prov +:+ ":" +:+ local) = String.eqb local n.
Proof.
  intros Hp. unfold is_namespaced_version.
  by rewrite contains_middle, split1_colon.
Qed.

(** The entries of [_provider_map] that both loops select, on a fresh
    aggregator under the naming discipline. *)
Lemma fresh_run_namespaced_entries (ps : list MCPProvider) (n : string) :
  NoDup (prov_name <$> ps) → colon_free ps = true →
  let agg := (aggregate_tools (ToolAggregator_init ps)).2 in
  let entries :=
    filter (λ item, is_namespaced_version n item.1 = true) (_provider_map agg) in
  NoDup entries.*1 ∧
  ∀ v q, (v, q) ∈ entries
         ↔ n ∈ _conflicts agg ∧
           ∃ p, p ∈ ps ∧ returns p n ∧ q = prov_name p ∧ v = q +:+ ":" +:+ n.
Proof.
  intros Hnd Hfree agg entries.
  assert (NoDup (dict_keys (_provider_map agg))) as Hkeys.
  { subst agg. rewrite aggregate_tools_eq. simpl. apply store_all_NoDup, NoDup_nil_2. }
  split.
  { eapply sublist_NoDup; [exact Hkeys|]. apply fmap_sublist, sublist_filter. }
  intros v q. subst entries. rewrite list_elem_of_filter. cbn [fst]. split.
  - intros [Htest Hin].
    apply dict_elem_get in Hin; [|done].
    assert (∃ p t, p ∈ ps ∧ t ∈ tools_or_empty p ∧
                   v = tool_name (enrich_tool (_conflicts agg) p t)) as (p & t & Hp & Ht & Hv).
    { subst agg. rewrite aggregate_tools_eq in Hin |- *. simpl in *.
      apply store_all_get_Some in Hin as [Hin|?]; [|done].
      rewrite published_owners_NoDup in Hin by done.
      apply list_elem_of_fmap in Hin as ([p t] & Heq & [Hp Ht]%elem_of_returned_tools).
      simpl in Heq. exists p, t. by simplify_eq. }
    pose proof (fresh_run_owner ps p t Hnd Hfree Hp Ht) as Howner.
    cbv zeta in Howner. fold agg in Howner. rewrite <- Hv, Hin in Howner.
    injection Howner as ->. revert Hv Htest. unfold enrich_tool.
    destruct (decide (tool_name t ∈ _conflicts agg)) as [Hc|Hc]; simpl; intros -> Htest.
    + rewrite is_namespaced_version_namespaced in Htest
        by by apply (colon_free_provider ps).
      apply String.eqb_eq in Htest as <-.
      split; [done|]. exists p. split_and!; try done. by exists t.
    + rewrite is_namespaced_version_natural in Htest; [done|].
      by apply (colon_free_tool ps p).
  - intros (Hc & p & Hp & (t & Ht & <-) & -> & ->).
    pose proof (fresh_run_owner ps p t Hnd Hfree Hp Ht) as Howner.
    cbv zeta in Howner. fold agg in Howner. revert Howner. unfold enrich_tool.
    rewrite decide_True by done. simpl. intros Howner. split.
    + rewrite is_namespaced_version_namespaced by by apply (colon_free_provider ps).
      apply String.eqb_refl.
    + by apply dict_get_Some_elem.
Qed.



(** X11.  The conflict summary agrees with the catalog.  Under the same
    conditions, [get_conflict_summary] counts the conflicting names, has
    one entry for every conflicting name and none for any other, and the
    entry of a name [n] lists, each once, exactly the providers that
    return [n], together with their namespaced forms [<provider>:n]. *)
Theorem conflict_summary_matches_catalog (ps : list MCPProvider) :
  NoDup (prov_name <$> ps) → colon_free ps = true →
  let agg := (aggregate_tools (ToolAggregator_init ps)).2 in
  let summary := get_conflict_summary {| cr_aggregator := agg |} in
  ∃ details,
    dict_get "total_conflicts" summary = Some (JInt (Z.of_nat (size (_conflicts agg)))) ∧
    dict_get "conflicts" summary = Some (JDict details) ∧
    length details = size (_conflicts agg) ∧
    (∀ n, n ∉ _conflicts agg → dict_get n details = None) ∧
    (∀ n, n ∈ _conflicts agg →
       ∃ owners,
         dict_get n details
         = Some (JDict [ ("providers", JList (JStr <$> owners));
                         ("namespaced_forms",
                          JList (JStr <$> ((λ p, p +:+ ":" +:+ n) <$> owners))) ]) ∧
         NoDup owners ∧
         (∀ q, q ∈ owners ↔ ∃ p, p ∈ ps ∧ returns p n ∧ q = prov_name p)).
Proof.
  intros Hnd Hfree agg summary. subst summary. unfold get_conflict_summary.
  cbn [cr_aggregator]. unfold get_conflicting_tools.
  set (details := (λ tool_name, (tool_name, JDict (conflict_detail _ tool_name)))
                    <$> elements (_conflicts agg)).
  assert (dict_keys details = elements (_conflicts agg)) as Hkeys.
  { subst details. unfold dict_keys. rewrite <- list_fmap_compose. apply list_fmap_id. }
  exists details. split_and!; [done|done|..].
  - subst details. by rewrite length_fmap.
  - intros n Hn. apply dict_get_None. rewrite Hkeys. by rewrite elem_of_elements.
  - intros n Hn. exists (conflict_providers {| cr_aggregator := agg |} n).
    split_and!.
    + apply dict_elem_get.
      * rewrite Hkeys. apply NoDup_elements.
      * subst details. apply list_elem_of_fmap. exists n. split; [done|].
        by apply elem_of_elements.
    + unfold conflict_providers. cbn [cr_aggregator].
      destruct (fresh_run_namespaced_entries ps n Hnd Hfree) as [Hnodup Hentries].
      fold agg in Hnodup, Hentries. cbv zeta in Hnodup, Hentries.
      set (entries := filter _ (_provider_map agg)) in *.
      apply NoDup_fmap_2_strong; [|by apply NoDup_fmap_1 in Hnodup].
      intros [v q] [v' q'] (_ & p & _ & _ & -> & ->)%Hentries
        (_ & p' & _ & _ & -> & ->)%Hentries. simpl. by intros ->.
    + intros q. unfold conflict_providers. cbn [cr_aggregator].
      destruct (fresh_run_namespaced_entries ps n Hnd Hfree) as [_ Hentries].
      fold agg in Hentries. cbv zeta in Hentries.
      rewrite list_elem_of_fmap. split.
      * intros ([v q'] & -> & (_ & p & Hp & Hr & -> & _)%Hentries). by exists p.
      * intros (p & Hp & Hr & ->).
        exists (prov_name p +:+ ":" +:+ n, prov_name p). split; [done|].
        apply Hentries. split; [done|]. by exists p.
Qed.

Lemma conflict_summary_matches_catalog_witness :
  let agg := (aggregate_tools (ToolAggregator_init scenario2_providers)).2 in
  let summary := get_conflict_summary {| cr_aggregator := agg |} in
  ∃ details,
    dict_get "total_conflicts" summary = Some (JInt (Z.of_nat (size (_conflicts agg)))) ∧
    dict_get "conflicts" summary = Some (JDict details) ∧
    length details = size (_conflicts agg) ∧
    (∀ n, n ∉ _conflicts agg → dict_get n details = None) ∧
    (∀ n, n ∈ _conflicts agg →
       ∃ owners,
         dict_get n details
         = Some (JDict [ ("providers", JList (JStr <$> owners));
                         ("namespaced_forms",
                          JList (JStr <$> ((λ p, p +:+ ":" +:+ n) <$> owners))) ]) ∧
         NoDup owners ∧
         (∀ q, q ∈ owners
               ↔ ∃ p, p ∈ scenario2_providers ∧ returns p n ∧ q = prov_name p)).
Proof.
  apply (conflict_summary_matches_catalog scenario2_providers).
  - by_evaluation.
  - reflexivity.
Defined.

(* ================================================================= *)
(** ** What the reader loops leave alone *)

Section reader_invariants.
Variable validate_response : pydict json → result JSONRPCResponse.
Implicit Types (pending : gmap string future) (message : pydict json).







End reader_invariants.


(* ================================================================= *)
(** ** The exceptions [send_request] lets out *)

Lemma stdio_reraise_class (e : exn) :
  is_timeout_or_transport_error (stdio_reraise e) = true ∧
  (is_timeout_or_transport_error e = true → stdio_reraise e = e) ∧
  (is_timeout_or_transport_error e = false →
   stdio_reraise e = Exn TransportError ("Failed to send request: " +:+ exn_str e)).
Proof.
  unfold stdio_reraise.
  destruct (is_timeout_or_transport_error e) eqn:He; split_and!; try done.
Qed.

(** X13.  The stdio transport raises only its two documented errors.
    Whatever goes wrong while the request is written or awaited, an
    exception that leaves [StdioTransport.send_request] is a
    [TimeoutError] or a [TransportError] (or its subclass
    [ConnectionError]): such an exception passes unchanged, and any other
    one is wrapped once into [TransportError("Failed to send request:
    ...")].  [SSETransport.send_request] wraps only [httpx.HTTPError], so
    no [HTTPError] ever leaves it, while an exception of another class
    passes as it is. *)
Theorem send_request_exception_classes (str_float : Q → string)
    (request : JSONRPCRequest) (timeout : option Q) (wait : wait_event)
    (during_send during_wait : gmap string future → gmap string future) :
  (∀ (self : StdioTransport) (write : write_event) (e : exn),
     (stdio_send_request str_float self request timeout write wait
        during_send during_wait).1 = Raised e →
     is_timeout_or_transport_error e = true) ∧
  (∀ (self : StdioTransport) (e : exn),
     stdio_connected self && stdio_process_stdin self = true →
     (stdio_send_request str_float self request timeout (WriteRaises e) wait
        during_send during_wait).1
     = Raised (if is_timeout_or_transport_error e then e
               else Exn TransportError ("Failed to send request: " +:+ exn_str e))) ∧
  (∀ (self : SSETransport) (post : post_event) (e : exn),
     (sse_send_request str_float self request timeout post wait
        during_send during_wait).1 = Raised e →
     exn_type e ≠ HTTPError) ∧
  (∀ (self : SSETransport) (e : exn),
     sse_connected self && sse_client self = true →
     (sse_send_request str_float self request timeout (PostRaises e) wait
        during_send during_wait).1
     = Raised (match exn_type e with
               | HTTPError => Exn TransportError ("HTTP error: " +:+ exn_str e)
               | _ => e
               end)).
Proof.
  split_and!.
  - intros self write e. unfold stdio_send_request.
    destruct (negb (stdio_connected self) || negb (stdio_process_stdin self));
      [by intros [= <-]|].
    destruct write as [|e'|]; [destruct wait as [r|e'| |]|..]; simpl;
      intros [= <-]; try apply stdio_reraise_class.
  - intros self e [H1 H2]%andb_true_iff. unfold stdio_send_request.
    by rewrite H1, H2.
  - intros self post e. unfold sse_send_request.
    destruct (negb (sse_connected self) || negb (sse_client self));
      [by intros [= <-]|].
    assert (∀ e', exn_type (sse_reraise e') ≠ HTTPError) as Hre.
    { intros e'. unfold sse_reraise. destruct (exn_type e') eqn:He'; simpl; congruence. }
    destruct post as [status_code text|e'|]; simpl;
      [|intros [= <-]; apply Hre|done].
    destruct (400 <=? status_code)%Z; [intros [= <-]; apply Hre|].
    destruct wait as [r|e'| |]; simpl; intros [= <-]; try apply Hre.
  - intros self e [H1 H2]%andb_true_iff. unfold sse_send_request.
    by rewrite H1, H2.
Qed.

(* ================================================================= *)
(** ** Request ids of one client *)

Lemma pretty_N_char_no_dash (x : N) : pretty_N_char x ≠ "-"%char.
Proof. unfold pretty_N_char. repeat case_match; done. Qed.

Lemma pretty_N_go_no_dash (x : N) (s : string) :
  PyStr.contains "-" s = false → PyStr.contains "-" (pretty_N_go x s) = false.
Proof.
  revert s. induction (N.lt_wf_0 x) as [x _ IH]; intros s Hs.
  destruct (decide (x = 0)%N) as [->|Hx]; [by rewrite pretty_N_go_0|].
  rewrite pretty_N_go_step by lia. apply IH.
  - apply N.div_lt; lia.
  - rewrite contains_unfold, Hs, orb_false_r.
    rewrite startswith_cons, startswith_nil.
    destruct (Ascii.eqb_spec "-" (pretty_N_char (x `mod` 10))) as [Heq|]; [|done].
    by destruct (pretty_N_char_no_dash (x `mod` 10)).
Qed.

Lemma pretty_nat_no_dash (n : nat) : PyStr.contains "-" (pretty n) = false.
Proof.
  unfold pretty, pretty_nat, pretty, pretty_N. case_decide; [done|].
  by apply pretty_N_go_no_dash.
Qed.

Lemma starts_no_earlier_dash (l r : string) :
  PyStr.contains "-" l = false → PyStr.starts_no_earlier "-" l r = true.
Proof.
  induction l as [|a l IH]; [done|].
  rewrite contains_unfold. intros [Hhd Htl]%orb_false_iff.
  cbn [PyStr.starts_no_earlier]. rewrite IH, andb_true_r by done.
  rewrite str_app_cons. rewrite startswith_cons, startswith_nil in *.
  by destruct (Ascii.eqb "-" a).
Qed.

(** X14.  Request ids of one client never repeat.  Whatever
    [uuid.uuid4()] returns, the ids [_generate_request_id] builds for two
    different values of the request counter are different, and every
    [_send_request] advances the counter by one whether the request
    succeeds or fails; so the request built next always carries an id
    that differs from the one just sent. *)
Theorem request_ids_never_repeat
    (transport_send_request : JSONRPCRequest → option Q → result JSONRPCResponse)
    (uuid_hex8 : nat → string) :
  (∀ c1 c2 : MCPClient,
     (_generate_request_id uuid_hex8 c1).1 = (_generate_request_id uuid_hex8 c2).1 →
     _request_counter c1 = _request_counter c2) ∧
  (∀ (self : MCPClient) method params timeout,
     _request_counter
       (_send_request transport_send_request uuid_hex8 self method params timeout).2
     = S (_request_counter self)) ∧
  (∀ (self : MCPClient) method params timeout method' params',
     let self' :=
       (_send_request transport_send_request uuid_hex8 self method params timeout).2 in
     req_id (build_request uuid_hex8 self' method' params')
     ≠ req_id (build_request uuid_hex8 self method params)).
Proof.
  assert (∀ c1 c2 : MCPClient,
     (_generate_request_id uuid_hex8 c1).1 = (_generate_request_id uuid_hex8 c2).1 →
     _request_counter c1 = _request_counter c2) as Hinj.
  { intros [c1] [c2]. unfold _generate_request_id. simpl. intros Heq.
    apply (f_equal (PyStr.drop (String.length "req-"))) in Heq.
    rewrite !drop_app_length in Heq.
    apply (f_equal (PyStr.partition "-")) in Heq.
    rewrite !partition_app in Heq
      by (apply starts_no_earlier_dash, pretty_nat_no_dash).
    injection Heq as Heq _. apply (inj pretty) in Heq. lia. }
  assert (∀ (self : MCPClient) method params timeout,
     _request_counter
       (_send_request transport_send_request uuid_hex8 self method params timeout).2
     = S (_request_counter self)) as Hstep.
  { intros self method params timeout. unfold _send_request.
    destruct (transport_send_request _ _) as [response|e]; simpl; [|lia].
    destruct (resp_error response); simpl; [lia|].
    destruct (resp_result response); simpl; lia. }
  split_and!; [done..|].
  intros self method params timeout method' params' self'.
  unfold build_request. cbn [req_id]. intros Heq.
  assert (∀ a b, IdStr a = IdStr b → a = b) as Hid by (by intros a b [= ->]).
  apply Hid, Hinj in Heq. subst self'. rewrite Hstep in Heq. lia.
Qed.

(* ================================================================= *)
(** ** The shape of every JSON-RPC response *)

(** X15.  Every request gets a well-formed response.  Whatever the
    handlers do, [handle_request] answers with the id of the request and
    with exactly one of [result] and [error]; the error code is [-32601]
    exactly when no handler is registered for the method (and then no
    provider is called and the error carries no data), and [-32000] with
    the class name of the exception as [data.type] when the handler
    raised. *)
Theorem handle_request_response_shape (handlers : pydict handler)
    (request : JSONRPCRequest) :
  let r := handle_request handlers request in
  resp_id r.1 = req_id request ∧
  (is_Some (resp_result r.1) ↔ resp_error r.1 = None) ∧
  match dict_get (req_method request) handlers with
  | None =>
      r = (error_response (req_id request) (-32601)
             ("Method not found: " +:+ req_method request) None, [])
  | Some h =>
      match (h (default [] (req_params request))).1 with
      | Ok result => resp_result r.1 = Some result
      | Raise e => reports_error_kind r.1 (class_name (exn_type e))
                   ∧ ∃ error, resp_error r.1 = Some error ∧ err_message error = exn_str e
      end ∧
      r.2 = (h (default [] (req_params request))).2
  end.
Proof.
  intros r. subst r. unfold handle_request.
  destruct (dict_get (req_method request) handlers) as [h|].
  - destruct (h (default [] (req_params request))) as [[result|e] calls]; simpl;
      split_and!;
      first [ done
            | by split; [intros [? ?]|]
            | by eexists
            | eexists _, _; by split_and! ].
  - simpl. split_and!; first [done | by split; [intros [? ?]|]].
Qed.

(* ================================================================= *)
(** ** What [tools/call] and [resources/read] answer *)

Section gateway_answers.
Variable Tool_dump : Tool → pydict json.
Variable Resource_dump : Resource → pydict json.
Variable Prompt_dump : Prompt → pydict json.
Variable ResourceContent_dump : ResourceContent → pydict json.

Local Abbreviation handlers_of self :=
  (registered_handlers Tool_dump Resource_dump Prompt_dump ResourceContent_dump self).

Lemma reraise_for_client_class (e : exn) :
  exn_type (reraise_for_client e)
  = if is_ValueError e then ProtocolError
    else if is_RuntimeError e then ProviderError else exn_type e.
Proof. unfold reraise_for_client. by destruct (is_ValueError e), (is_RuntimeError e). Qed.

Lemma handle_tools_call_routed (self : MCPGateway) (router : ToolRouter)
    (resolver : ConflictResolver) (params : pydict json) (name : string) :
  gw_tool_router self = Some router →
  gw_conflict_resolver self = Some resolver →
  dict_get "name" params = Some (JStr name) → name ≠ "" →
  handle_tools_call self params
  = (match (route_tool_call router name
              (default (JDict []) (dict_get "arguments" params))).1 with
     | Ok result => Ok (ToolCallResult_dump result)
     | Raise e => Raise (reraise_for_client e)
     end,
     (route_tool_call router name
        (default (JDict []) (dict_get "arguments" params))).2).
Proof.
  intros Hr Hc Hn Hne. unfold handle_tools_call. rewrite Hn, Hr, Hc. simpl.
  apply String.eqb_neq in Hne. rewrite Hne. simpl.
  destruct (route_tool_call _ _ _) as [[result|e] calls]; simpl; [done|].
  unfold reraise_for_client.
  destruct (is_ValueError e); [by destruct (is_ambiguity_error e)|].
  by destruct (is_RuntimeError e).
Qed.

Lemma route_tool_call_calls (router : ToolRouter) (name : string) (arguments : json) :
  match (route_tool_call router name arguments).2 with
  | [] => ∃ e, (route_tool_call router name arguments).1 = Raise e
               ∧ (is_ValueError e = true ∨ is_RuntimeError e = true)
  | [CallTool q local arguments'] =>
      arguments' = arguments ∧
      ∃ P, dict_get q (tr_providers router) = Some P ∧
           (route_tool_call router name arguments).1 = call_tool P local arguments
  | _ => False
  end.
Proof.
  unfold route_tool_call.
  destruct (_parse_tool_name router name) as [[q local]|e] eqn:Hparse; simpl.
  - destruct (dict_get q (tr_providers router)) as [P|] eqn:HP; simpl.
    + split; [done|]. by exists P.
    + eexists. split; [done|]. by right.
  - exists e. split; [done|]. left. revert Hparse. unfold _parse_tool_name.
    unfold get_provider_for_tool.
    destruct (PyStr.contains ":" name).
    + destruct (PyStr.split1 ":" name) as [|a [|b [|c l]]]; try by intros [= <-].
      destruct (dict_get name _); simpl.
      * destruct (negb _); by intros [= <-].
      * destruct (decide _); simpl; by intros [= <-].
    + destruct (dict_get name _); [done|].
      destruct (decide _); simpl; by intros [= <-].
Qed.

(** X16.  What a [tools/call] request is answered.  On a started
    gateway, the handler of [tools/call] makes at most one provider call.
    When it makes none the response is an error [-32000] (a missing or
    malformed name, an unknown or ambiguous tool, or a provider that is
    not in the gateway's table).  When it makes one, the call is to a
    provider of the table and the response is determined by its outcome:
    the dumped result, or the error [-32000] with the provider's message
    and as [data.type] ["ProtocolError"] when the provider raised a
    [ValueError], ["ProviderError"] when it raised a [RuntimeError], and
    the class name of the exception otherwise. *)
Theorem tools_call_answer (self : GatewayState) (w : Wiring) (request : JSONRPCRequest) :
  gs_wiring self = Some w →
  req_method request = "tools/call" →
  let r := handle_request (handlers_of self) request in
  match r.2 with
  | [] => error_answer r.1 (req_id request)
  | [CallTool q local arguments] =>
      ∃ P, dict_get q (gs_providers self) = Some P ∧
           r.1 = answer_of ToolCallResult_dump (req_id request)
                   (call_tool P local arguments)
  | _ => False
  end.
Proof.
  intros Hw Hmethod r. subst r. unfold handle_request. rewrite Hmethod.
  change (dict_get "tools/call" (handlers_of self))
    with (Some (handle_tools_call (gateway_view self))).
  cbv iota beta.
  set (params := default [] (req_params request)).
  assert (∀ e : exn,
            error_answer (error_response (req_id request) (-32000) (exn_str e)
                           (Some [("type", JStr (class_name (exn_type e)))]))
                         (req_id request)) as Herror.
  { intros e. split_and!; try done. eexists _, _, _. by split_and!. }
  unfold gateway_view. rewrite Hw.
  set (view := {| gw_tool_router := _ |}).
  destruct (dict_get "name" params) as [name|] eqn:Hname.
  2: { unfold handle_tools_call. rewrite Hname. simpl. apply Herror. }
  destruct (member_falsy (Some name)) eqn:Hfalsy.
  { unfold handle_tools_call. rewrite Hname, Hfalsy. apply Herror. }
  destruct name as [|b|z|name|l|d];
    try (unfold handle_tools_call; rewrite Hname, Hfalsy; simpl; apply Herror).
  assert (name ≠ "") as Hne by (by intros ->).
  rewrite (handle_tools_call_routed view _ _ params name eq_refl eq_refl Hname Hne).
  set (arguments := default (JDict []) (dict_get "arguments" params)).
  pose proof (route_tool_call_calls
                {| tr_providers := gs_providers self;
                   tr_aggregator := tool_aggregator w |} name arguments) as Hcalls.
  destruct (route_tool_call _ name arguments) as [outcome calls]. simpl in Hcalls.
  destruct calls as [|[q local arguments'|] [|]]; try done.
  - destruct Hcalls as (e & -> & _). simpl. apply Herror.
  - destruct Hcalls as (-> & P & HP & ->).
    destruct (call_tool P local arguments) as [res|e] eqn:Hcall; simpl;
      exists P; by rewrite Hcall.
Qed.


Lemma route_resource_read_calls (router : ResourceRouter) (uri : string) :
  match (route_resource_read router uri).2 with
  | [] => ∃ e, (route_resource_read router uri).1 = Raise e
               ∧ (is_ValueError e = true ∨ is_RuntimeError e = true)
  | [ReadResource q uri'] =>
      ∃ P, dict_get q (rr_providers router) = Some P ∧
           (route_resource_read router uri).1 = read_resource P uri'
  | _ => False
  end.
Proof.
  unfold route_resource_read.
  destruct (get_provider_for_uri (rr_aggregator router) uri) as [q|e] eqn:Hq.
  - destruct (dict_get q (rr_providers router)) as [P|] eqn:HP; simpl.
    + by exists P.
    + eexists. split; [done|]. by right.
  - assert (is_ValueError e = true) as ->.
    { revert Hq. unfold get_provider_for_uri. destruct (negb _); [by intros [= <-]|].
      destruct (PyStr.split1 "://" uri) as [|a [|b [|c l]]]; try by intros [= <-].
      destruct (dict_get a _); [done|]. by intros [= <-]. }
    simpl. eexists. split; [done|]. by left.
Qed.

(** X17.  What a [resources/read] request is answered.  On a started
    gateway, the handler of [resources/read] makes at most one provider
    call.  When it makes none the response is an error [-32000] (a
    missing or malformed URI, a URI without a known provider scheme, or a
    provider that is not in the gateway's table).  When it makes one, the
    call is to a provider of the table and the response is determined by
    its outcome: the dumped content, or the error [-32000] with the
    provider's message and as [data.type] ["ProtocolError"] when the
    provider raised a [ValueError], ["ProviderError"] when it raised a
    [RuntimeError], and the class name of the exception otherwise. *)
Theorem resources_read_answer (self : GatewayState) (w : Wiring)
    (request : JSONRPCRequest) :
  gs_wiring self = Some w →
  req_method request = "resources/read" →
  let r := handle_request (handlers_of self) request in
  match r.2 with
  | [] => error_answer r.1 (req_id request)
  | [ReadResource q uri] =>
      ∃ P, dict_get q (gs_providers self) = Some P ∧
           r.1 = answer_of ResourceContent_dump (req_id request) (read_resource P uri)
  | _ => False
  end.
Proof.
  intros Hw Hmethod r. subst r. unfold handle_request. rewrite Hmethod.
  change (dict_get "resources/read" (handlers_of self))
    with (Some (handle_resources_read ResourceContent_dump (gateway_view self))).
  cbv iota beta.
  set (params := default [] (req_params request)).
  assert (∀ e : exn,
            error_answer (error_response (req_id request) (-32000) (exn_str e)
                           (Some [("type", JStr (class_name (exn_type e)))]))
                         (req_id request)) as Herror.
  { intros e. split_and!; try done. eexists _, _, _. by split_and!. }
  unfold gateway_view. rewrite Hw. unfold handle_resources_read.
  cbn [gw_resource_router].
  destruct (member_falsy (dict_get "uri" params)) eqn:Hfalsy; [apply Herror|].
  destruct (dict_get "uri" params) as [[|b|z|uri|l|d]|]; try apply Herror.
  pose proof (route_resource_read_calls
                {| rr_providers := gs_providers self;
                   rr_aggregator := resource_aggregator w |} uri) as Hcalls.
  destruct (route_resource_read _ uri) as [outcome calls]. simpl in Hcalls.
  destruct calls as [|[|q uri'] [|]]; try done.
  - destruct Hcalls as (e & -> & _). simpl. apply Herror.
  - destruct Hcalls as (P & HP & ->).
    destruct (read_resource P uri') as [content|e] eqn:Hread; simpl;
      exists P; by rewrite Hread.
Qed.

(* ================================================================= *)
(** ** Starting the gateway *)

Lemma connect_enabled_store_all (attempts : list (string * result MCPProvider))
    (providers : pydict MCPProvider) :
  connect_enabled attempts providers
  = store_all (connected_attempts attempts) providers.
Proof.
  unfold connect_enabled, connected_attempts. revert providers.
  induction attempts as [|[n [p|e]] attempts IH]; intros providers; csimpl; [done|..].
  - by rewrite IH.
  - by rewrite IH.
Qed.

Lemma start_wires (attempts : list (string * result MCPProvider)) :
  let providers := connect_enabled attempts [] in
  start attempts GatewayState_init
  = match providers with
    | [] => (Raise (Exn RuntimeError "No providers connected. Check configuration."),
             GatewayState_init)
    | _ => (Ok (), wired_over providers)
    end.
Proof.
  intros providers. unfold start. cbn [gs_providers GatewayState_init]. fold providers.
  destruct providers as [|item providers'] eqn:Hp; [done|].
  unfold _refresh_aggregations, wired_over. cbn [gs_wiring tool_aggregator].
  by destruct (aggregate_tools _).
Qed.

(** The outcome of [start] on a new gateway object. *)
Lemma start_outcome (attempts : list (string * result MCPProvider)) :
  let r := start attempts GatewayState_init in
  (∀ n, dict_get n (gs_providers r.2) = last_assigned n (connected_attempts attempts)) ∧
  (connected_attempts attempts = [] ↔ r.1 ≠ Ok ()) ∧
  (connected_attempts attempts = [] →
   r = (Raise (Exn RuntimeError "No providers connected. Check configuration."),
        GatewayState_init)) ∧
  (connected_attempts attempts ≠ [] →
   r = (Ok (), wired_over (gs_providers r.2))).
Proof.
  intros r. subst r. rewrite start_wires. cbv zeta.
  rewrite connect_enabled_store_all.
  assert (store_all (connected_attempts attempts) [] = []
          ↔ connected_attempts attempts = []) as Hempty.
  { split; [|by intros ->].
    destruct (connected_attempts attempts) as [|[n p] l]; [done|]. intros Hnil.
    assert (dict_get n (store_all ((n, p) :: l) ([] : pydict MCPProvider)) = None)
      as Hget by by rewrite Hnil.
    apply store_all_get_None in Hget as [_ Hnin]. exfalso. apply Hnin.
    csimpl. apply list_elem_of_here. }
  destruct (store_all (connected_attempts attempts) []) as [|item providers] eqn:Hp.
  - assert (connected_attempts attempts = []) as Hnone by by apply Hempty.
    split_and!; try done.
    intros n. by rewrite Hnone.
  - assert (connected_attempts attempts ≠ []) as Hsome
      by (intros Hnone%Hempty; discriminate Hnone).
    split_and!; try done.
    intros n. cbn [snd wired_over gs_providers]. rewrite <- Hp, store_all_get.
    by destruct (last_assigned n _).
Qed.

(** X18.  [start] needs one provider that connects.  Started on a new
    gateway object, [start] raises [RuntimeError] ("No providers
    connected") exactly when every attempt to connect an enabled provider
    failed, and then leaves the gateway as it was, not initialized.
    Otherwise it succeeds, whatever the number of attempts that failed:
    the table of providers maps a name to the provider of the last
    attempt that connected under it, and to nothing when none did; the
    aggregators are built over the providers of the table; and the three
    caches hold the aggregated tools, resources and prompts. *)
Theorem start_needs_one_provider (attempts : list (string * result MCPProvider)) :
  let r := start attempts GatewayState_init in
  (∀ n, dict_get n (gs_providers r.2) = last_assigned n (connected_attempts attempts)) ∧
  (connected_attempts attempts = [] ↔ r.1 ≠ Ok ()) ∧
  (connected_attempts attempts = [] →
   r = (Raise (Exn RuntimeError "No providers connected. Check configuration."),
        GatewayState_init)) ∧
  (connected_attempts attempts ≠ [] →
   r = (Ok (), wired_over (gs_providers r.2))).
Proof. exact (start_outcome attempts). Qed.

(* ================================================================= *)
(** ** From [tools/list] to [tools/call] *)

Lemma store_all_fresh {V} (kvs : list (string * V)) (d : pydict V) :
  NoDup (dict_keys d ++ kvs.*1) → store_all kvs d = d ++ kvs.
Proof.
  revert d. induction kvs as [|[k v] kvs IH]; intros d Hnd; csimpl.
  - by rewrite app_nil_r.
  - csimpl in Hnd. apply NoDup_app in Hnd as (Hd & Hdisj & Hkvs).
    apply NoDup_cons in Hkvs as [Hk Hkvs].
    rewrite dict_set_fresh.
    + rewrite IH, <- app_assoc; [done|].
      unfold dict_keys. rewrite fmap_app. simpl.
      apply NoDup_app. split_and!; [|set_solver|done].
      apply NoDup_app. split_and!; [done|set_solver|apply NoDup_singleton].
    + apply dict_get_None. set_solver.
Qed.

Lemma keyed_by_name_table (providers : pydict MCPProvider) :
  NoDup (dict_keys providers) → keyed_by_name providers →
  prov_name <$> providers.*2 = dict_keys providers ∧
  providers_by_name providers.*2 = providers.
Proof.
  intros Hnd Hkeyed.
  assert ((λ p, (prov_name p, p)) <$> providers.*2 = providers) as Hself.
  { clear Hnd. induction Hkeyed as [|[n p] providers Hn _ IH]; csimpl; [done|].
    simpl in Hn. by rewrite Hn, IH. }
  assert (prov_name <$> providers.*2 = dict_keys providers) as Hnames.
  { clear Hnd Hself. unfold dict_keys.
    induction Hkeyed as [|[n p] providers Hn _ IH]; csimpl; [done|].
    simpl in Hn. by rewrite Hn, IH. }
  split; [done|]. unfold providers_by_name.
  assert (∀ l : list MCPProvider,
            foldl (λ d p, dict_set (prov_name p) p d) [] l
            = store_all ((λ p, (prov_name p, p)) <$> l) []) as ->.
  { intros l. unfold store_all. by rewrite foldl_fmap. }
  rewrite Hself. rewrite store_all_fresh; [done|]. by rewrite app_nil_l.
Qed.

(** X19.  What [tools/list] lists, [tools/call] calls.  Start a new
    gateway; let some provider connect, every connected provider be
    stored under its own name, and no provider name or tool name hold a
    [":"].  Then [tools/list] answers the dumps of the cached catalog and
    leaves the gateway as it is, and for every tool of that catalog whose
    published name is not empty, a [tools/call] request of the published
    name makes exactly one provider call, to the provider that returned
    the tool and under the tool's natural name, and is answered by the
    outcome of that call. *)
Theorem started_gateway_serves_its_catalog
    (attempts : list (string * result MCPProvider)) (id : rpc_id) (arguments : json) :
  let self := (start attempts GatewayState_init).2 in
  let ps := (gs_providers self).*2 in
  (start attempts GatewayState_init).1 = Ok () →
  keyed_by_name (gs_providers self) →
  colon_free ps = true →
  ∃ catalog,
    _tools_cache self = Some catalog ∧
    (∀ params,
       handle_tools_list Tool_dump self params
       = ([("tools", JList (JDict <$> (Tool_dump <$> catalog)))], self)) ∧
    Forall2 (λ pt e,
               tool_name e ≠ "" →
               handle_request (handlers_of self)
                 (tools_call_request id (tool_name e) arguments)
               = (answer_of ToolCallResult_dump id
                    (call_tool pt.1 (tool_name pt.2) arguments),
                  [CallTool (prov_name pt.1) (tool_name pt.2) arguments]))
            (returned_tools ps) catalog.
Proof.
  intros self ps Hok Hkeyed Hfree.
  destruct (start_outcome attempts) as (_ & Hnone & _ & Hsome).
  cbv zeta in Hnone, Hsome.
  assert (connected_attempts attempts ≠ []) as Hconn.
  { intros H. apply Hnone in H. by apply H. }
  specialize (Hsome Hconn). fold self in Hsome.
  assert (self = wired_over (gs_providers self)) as Hwired
    by (by subst self; rewrite Hsome at 1).
  assert (NoDup (dict_keys (gs_providers self))) as Hnd.
  { subst self. rewrite start_wires. cbv zeta. rewrite connect_enabled_store_all.
    destruct (store_all _ _) eqn:Hp; [apply NoDup_nil_2|].
    cbn [snd wired_over gs_providers]. rewrite <- Hp.
    apply store_all_NoDup, NoDup_nil_2. }
  destruct (keyed_by_name_table _ Hnd Hkeyed) as [Hnames Htable]. fold ps in Hnames, Htable.
  assert (NoDup (prov_name <$> ps)) as Hnd' by by rewrite Hnames.
  exists (aggregate_tools (ToolAggregator_init ps)).1.
  split_and!.
  - by rewrite Hwired.
  - intros params. unfold handle_tools_list. by rewrite Hwired.
  - eapply Forall2_impl; [apply (fresh_run_routes ps arguments Hnd' Hfree)|].
    intros [p t] e Hroute Hne. cbn [fst snd] in *.
    unfold handle_request, tools_call_request. cbn [req_method req_params req_id].
    change (dict_get "tools/call" (handlers_of self))
      with (Some (handle_tools_call (gateway_view self))).
    cbv iota beta. cbn [default].
    rewrite Hwired at 1. unfold gateway_view, wired_over. cbn [gs_wiring gs_providers].
    fold ps.
    erewrite handle_tools_call_routed; [|done|done|done|done].
    cbn [dict_get String.eqb Ascii.eqb Bool.eqb default]. simpl default.
    unfold tool_router_over in Hroute. rewrite Htable in Hroute.
    cbn [tool_aggregator]. rewrite Hroute.
    cbn [fst snd]. by destruct (call_tool p (tool_name t) arguments).
Qed.

(* ================================================================= *)
(** ** After [stop] *)


End gateway_answers.


Lemma tools_call_answer_witness :
  let request :=
    {| req_id := IdInt 7; req_method := "tools/call";
       req_params := Some [("name", JStr "p2:search")] |} in
  let r := handle_request started_handlers request in
  match r.2 with
  | [] => error_answer r.1 (req_id request)
  | [CallTool q local arguments] =>
      ∃ P, dict_get q (gs_providers started_gateway) = Some P ∧
           r.1 = answer_of ToolCallResult_dump (req_id request)
                   (call_tool P local arguments)
  | _ => False
  end.
Proof.
  intros request.
  by apply (tools_call_answer dump_tool dump_resource dump_prompt dump_content
              started_gateway
              {| tool_aggregator :=
                   (aggregate_tools (ToolAggregator_init scenario2_providers)).2;
                 resource_aggregator := ResourceAggregator_init scenario2_providers;
                 prompt_aggregator := scenario2_providers |} request).
Defined.

Lemma resources_read_answer_witness :
  let request :=
    {| req_id := IdInt 8; req_method := "resources/read";
       req_params := Some [("uri", JStr "p1://PROJ-123")] |} in
  let r := handle_request started_handlers request in
  match r.2 with
  | [] => error_answer r.1 (req_id request)
  | [ReadResource q uri] =>
      ∃ P, dict_get q (gs_providers started_gateway) = Some P ∧
           r.1 = answer_of dump_content (req_id request) (read_resource P uri)
  | _ => False
  end.
Proof.
  intros request.
  by apply (resources_read_answer dump_tool dump_resource dump_prompt dump_content
              started_gateway
              {| tool_aggregator :=
                   (aggregate_tools (ToolAggregator_init scenario2_providers)).2;
                 resource_aggregator := ResourceAggregator_init scenario2_providers;
                 prompt_aggregator := scenario2_providers |} request).
Defined.

Lemma started_gateway_serves_its_catalog_witness :
  ∃ catalog,
    _tools_cache started_gateway = Some catalog ∧
    (∀ params,
       handle_tools_list dump_tool started_gateway params
       = ([("tools", JList (JDict <$> (dump_tool <$> catalog)))], started_gateway)) ∧
    Forall2 (λ pt e,
               tool_name e ≠ "" →
               handle_request started_handlers
                 (tools_call_request (IdInt 1) (tool_name e) (JDict [("q", JStr "x")]))
               = (answer_of ToolCallResult_dump (IdInt 1)
                    (call_tool pt.1 (tool_name pt.2) (JDict [("q", JStr "x")])),
                  [CallTool (prov_name pt.1) (tool_name pt.2) (JDict [("q", JStr "x")])]))
            (returned_tools (gs_providers started_gateway).*2) catalog.
Proof.
  apply (started_gateway_serves_its_catalog dump_tool dump_resource dump_prompt
           dump_content scenario2_attempts (IdInt 1) (JDict [("q", JStr "x")])).
  - reflexivity.
  - unfold keyed_by_name. by_evaluation.
  - reflexivity.
Defined.

(* ================================================================= *)
(** ** The read loop of the stdio server *)

Section read_loop_facts.
Context {S : Type}.
Variable json_loads : string → decoded.
Variable JSONRPCRequest_validate : json → result JSONRPCRequest.
Variable handle : S → JSONRPCRequest → JSONRPCResponse * S.

Local Abbreviation answer line st :=
  (answer_line json_loads JSONRPCRequest_validate handle line st).
Local Abbreviation loop events st :=
  (_read_loop json_loads JSONRPCRequest_validate handle events st).
Local Abbreviation answers line response :=
  (answers_line json_loads JSONRPCRequest_validate handle line response).
Local Abbreviation validated line :=
  (validated_request json_loads JSONRPCRequest_validate line).
Local Abbreviation last_request events request :=
  (last_validated json_loads JSONRPCRequest_validate events request).

Implicit Types (st : @loop_state S) (events : list read_event).

Lemma send_response_works (response : JSONRPCResponse) st :
  ls_sends st = [] →
  _send_response response st
  = (Ok (), {| ls_server := ls_server st; ls_request := ls_request st;
               ls_sends := []; ls_written := ls_written st ++ [response] |}).
Proof. intros Hs. unfold _send_response. by rewrite Hs. Qed.

(** One line, when no write fails: one response is written, and
    [request] is the request of the line if it validated and is unchanged
    otherwise. *)
Lemma answer_line_works (line : string) st :
  ls_sends st = [] →
  ∃ response server,
    answer line st
    = (Ok (), {| ls_server := server;
                 ls_request := match validated line with
                               | Some r => Some r
                               | None => ls_request st
                               end;
                 ls_sends := [];
                 ls_written := ls_written st ++ [response] |}) ∧
    answers line response ∧
    (validated line = None →
     ∀ e, json_loads line = DecodeRaises e
          ∨ (∃ d, json_loads line = Decoded d ∧ JSONRPCRequest_validate d = Raise e) →
          response = error_response
                       match ls_request st with
                       | Some r => req_id r
                       | None => IdStr "unknown"
                       end
                       (-32603) ("Internal error: " +:+ exn_str e) None).
Proof.
  intros Hs. unfold answer_line, answers_line, validated_request, send_internal_error.
  destruct (json_loads line) as [d|message|e] eqn:Hloads.
  - destruct (JSONRPCRequest_validate d) as [request|e] eqn:Hvalid.
    + destruct (handle (ls_server st) request) as [response server] eqn:Hh.
      rewrite send_response_works by done. simpl.
      exists response, server. split_and!; [done| |done].
      exists (ls_server st). by rewrite Hh.
    + rewrite send_response_works by done.
      exists (error_response
                match ls_request st with
                | Some r => req_id r
                | None => IdStr "unknown"
                end (-32603) ("Internal error: " +:+ exn_str e) None), (ls_server st).
      split; [done|]. split; [by eexists|].
      intros _ e' [Hr|(d' & Hd & He')]; [done|]. congruence.
  - rewrite send_response_works by done.
    exists (error_response (IdStr "unknown") (-32700) ("Parse error: " +:+ message) None),
      (ls_server st).
    split; [done|]. split; [done|].
    intros _ e' [Hr|(d' & Hd & _)]; done.
  - rewrite send_response_works by done.
    exists (error_response
              match ls_request st with
              | Some r => req_id r
              | None => IdStr "unknown"
              end (-32603) ("Internal error: " +:+ exn_str e) None), (ls_server st).
    split; [done|]. split; [by eexists|].
    intros _ e' [Hr|(d' & Hd & _)]; [|done]. congruence.
Qed.

(** The loop, when no write fails. *)
Lemma read_loop_works events st :
  ls_sends st = [] →
  ∃ responses server,
    loop events st
    = (reads_end events,
       {| ls_server := server;
          ls_request := last_request events (ls_request st);
          ls_sends := [];
          ls_written := ls_written st ++ responses |}) ∧
    Forall2 (λ line response, answers line response) (lines_to_answer events) responses.
Proof.
  revert st. induction events as [|[line|e] events IH]; intros st Hs.
  - exists [], (ls_server st). rewrite app_nil_r. destruct st. simpl in *. by subst.
  - cbn [_read_loop lines_to_answer reads_end]. unfold last_validated.
    cbn [lines_to_answer].
    destruct (String.eqb line "").
    { exists [], (ls_server st). rewrite app_nil_r. destruct st. simpl in *. by subst. }
    destruct (String.eqb (PyStr.strip line) ""); [apply IH; done|].
    destruct (answer_line_works (PyStr.strip line) st Hs)
      as (response & server & -> & Hanswers & _).
    destruct (IH {| ls_server := server;
                    ls_request := match validated (PyStr.strip line) with
                                  | Some r => Some r
                                  | None => ls_request st
                                  end;
                    ls_sends := [];
                    ls_written := ls_written st ++ [response] |} eq_refl)
      as (responses & server' & -> & Hall).
    exists (response :: responses), server'. cbn [ls_written ls_request foldl].
    rewrite <- app_assoc. split; [done|]. by constructor.
  - exists [], (ls_server st). rewrite app_nil_r. destruct st. simpl in *. by subst.
Qed.

(** X21.  Every line gets its answer.  As long as writing to stdout does
    not fail, [_read_loop] writes exactly one response for every line
    that is not blank, in the order of the lines, until the end of input
    or a failing read: the parse error [-32700] under the id ["unknown"]
    for a line that is no JSON, the response of [handle_request] for a
    line that holds a request, and an internal error [-32603] for any
    other line.  Blank lines are skipped without a response, what was
    written before stays, and the loop itself fails only when reading
    does. *)
Theorem read_loop_answers_every_line events st :
  ls_sends st = [] →
  let r := loop events st in
  r.1 = reads_end events ∧
  ∃ responses,
    ls_written r.2 = ls_written st ++ responses ∧
    Forall2 (λ line response, answers line response) (lines_to_answer events) responses.
Proof.
  intros Hs r. subst r.
  destruct (read_loop_works events st Hs) as (responses & server & -> & Hall).
  split; [done|]. by exists responses.
Qed.

Lemma lines_to_answer_app events events' :
  reads_end events = LoopStopped →
  lines_to_answer (events ++ events') = lines_to_answer events ++ lines_to_answer events'.
Proof.
  induction events as [|[line|e] events IH]; simpl; [done| |done].
  destruct (String.eqb line ""); [done|]. intros Hend.
  destruct (String.eqb (PyStr.strip line) ""); [by apply IH|].
  by rewrite IH.
Qed.

Lemma read_loop_app events events' st :
  ls_sends st = [] → reads_end events = LoopStopped →
  loop (events ++ events') st = loop events' (loop events st).2.
Proof.
  revert st. induction events as [|[line|e] events IH]; intros st Hs; simpl;
    [done| |done].
  destruct (String.eqb line ""); [done|]. intros Hend.
  destruct (String.eqb (PyStr.strip line) ""); [by apply IH|].
  destruct (answer_line_works (PyStr.strip line) st Hs)
    as (response & server & -> & _). by apply IH.
Qed.

(** X22.  A request that does not validate is answered under the id of
    the request before it.  Let the writes to stdout succeed, let the
    loop have read some lines, and let the next line be JSON that
    [JSONRPCRequest] rejects.  The line is answered by the internal error
    [-32603], and the id of that response is the id of the last line that
    did validate, however many lines ago, since the local variable
    [request] still holds that request; it is ["unknown"] only while no
    line has validated yet. *)
Theorem invalid_request_answered_under_previous_id events (line : string)
    (d : json) (e : exn) st :
  ls_sends st = [] →
  reads_end events = LoopStopped →
  lines_to_answer [ReadLine line] = [PyStr.strip line] →
  json_loads (PyStr.strip line) = Decoded d →
  JSONRPCRequest_validate d = Raise e →
  ls_written (loop (events ++ [ReadLine line]) st).2
  = ls_written (loop events st).2
    ++ [error_response
          match last_request events (ls_request st) with
          | Some r => req_id r
          | None => IdStr "unknown"
          end
          (-32603) ("Internal error: " +:+ exn_str e) None].
Proof.
  intros Hs Hend Hline Hloads Hvalid.
  rewrite read_loop_app by done.
  destruct (read_loop_works events st Hs) as (responses & server & -> & _).
  cbn [snd]. revert Hline. cbn [_read_loop lines_to_answer].
  destruct (String.eqb line ""); [done|].
  destruct (String.eqb (PyStr.strip line) ""); [done|]. intros _.
  set (st' := {| ls_server := server |}).
  destruct (answer_line_works (PyStr.strip line) st' eq_refl)
    as (response & server' & -> & _ & Hid).
  cbn [snd ls_written]. f_equal. f_equal. apply Hid.
  - unfold validated_request. by rewrite Hloads, Hvalid.
  - right. by exists d.
Qed.

End read_loop_facts.

Lemma read_loop_answers_every_line_witness :
  let events := [ReadLine "A"; ReadLine "  "; ReadLine "not json"; ReadLine ""] in
  let r := _read_loop fixture_loads fixture_validate fixture_handle events fixture_state in
  r.1 = reads_end events ∧
  ∃ responses,
    ls_written r.2 = ls_written fixture_state ++ responses ∧
    Forall2 (λ line response,
               answers_line fixture_loads fixture_validate fixture_handle line response)
            (lines_to_answer events) responses.
Proof.
  apply (read_loop_answers_every_line fixture_loads fixture_validate fixture_handle
           [ReadLine "A"; ReadLine "  "; ReadLine "not json"; ReadLine ""] fixture_state).
  reflexivity.
Defined.

Lemma invalid_request_answered_under_previous_id_witness :
  ls_written
    (_read_loop fixture_loads fixture_validate fixture_handle
       ([ReadLine "A"; ReadLine "not json"] ++ [ReadLine "B"]) fixture_state).2
  = ls_written
      (_read_loop fixture_loads fixture_validate fixture_handle
         [ReadLine "A"; ReadLine "not json"] fixture_state).2
    ++ [error_response
          match last_validated fixture_loads fixture_validate
                  [ReadLine "A"; ReadLine "not json"] (ls_request fixture_state) with
          | Some r => req_id r
          | None => IdStr "unknown"
          end
          (-32603)
          ("Internal error: "
           +:+ exn_str (Exn ValidationError "1 validation error for JSONRPCRequest"))
          None].
Proof.
  apply (invalid_request_answered_under_previous_id fixture_loads fixture_validate
           fixture_handle [ReadLine "A"; ReadLine "not json"] "B"
           (JDict [("id", JInt 2)])
           (Exn ValidationError "1 validation error for JSONRPCRequest") fixture_state);
    reflexivity.
Defined.

(* ================================================================= *)
(** ** The configuration: environment overrides *)

Lemma overlay_environment_store_all (env_prefix : string) (environ : pydict string)
    (config : pydict json) :
  overlay_environment env_prefix environ config
  = store_all (environment_overrides env_prefix environ) config.
Proof.
  unfold overlay_environment, environment_overrides. revert config.
  induction environ as [|[key value] environ IH]; intros config; csimpl; [done|].
  destruct (PyStr.startswith key env_prefix); simpl; by rewrite IH.
Qed.

(** X23.  Environment variables override the stored settings, and are
    written into them.  [get_provider_config] returns the stored settings
    of the provider overlaid with the environment: for a variable whose
    name starts with the provider's name in upper case and ["_"], the rest
    of the name in lower case is set to its value, the last such variable
    winning; every other key keeps its stored value.  When the [Config]
    holds settings for the provider, the returned dictionary is that
    stored dictionary, so afterwards the [Config] holds the overlaid
    settings, environment values included; when it holds none, the
    [Config] is left as it was.  The settings of other providers, the
    enabled providers and the global settings never change. *)
Theorem get_provider_config_overlays_environment (environ : pydict string)
    (self : Config) (name : string) :
  let env_prefix := PyStr.upper name +:+ "_" in
  let r := get_provider_config environ self name in
  (∀ k, dict_get k r.1
        = match last_assigned k (environment_overrides env_prefix environ) with
          | Some v => Some v
          | None => dict_get k (default [] (dict_get name (provider_settings self)))
          end) ∧
  match dict_get name (provider_settings self) with
  | Some _ => dict_get name (provider_settings r.2) = Some r.1
  | None => r.2 = self
  end ∧
  (∀ m, m ≠ name →
        dict_get m (provider_settings r.2) = dict_get m (provider_settings self)) ∧
  enabled_providers r.2 = enabled_providers self ∧
  global_settings r.2 = global_settings self.
Proof.
  intros env_prefix r. subst r. unfold get_provider_config. fold env_prefix.
  destruct (dict_get name (provider_settings self)) as [settings|]; cbn [fst snd default].
  - split_and!; try done.
    + intros k. by rewrite overlay_environment_store_all, store_all_get.
    + apply dict_get_set_eq.
    + intros m Hm. cbn [provider_settings]. by rewrite dict_get_set_ne.
  - split_and!; try done.
    intros k. by rewrite overlay_environment_store_all, store_all_get.
Qed.

(* ================================================================= *)
(** ** The configuration: enabling and disabling *)







(* ================================================================= *)
(** ** The registry: providers by category *)

Lemma category_value_inj (c c' : ProviderCategory) :
  category_value c = category_value c' → c = c'.
Proof. by destruct c, c'. Qed.

(** One step of the loop of [list_by_category]. *)
Lemma list_by_category_step (result : pydict (list provider_class))
    (cls : provider_class) (k : string) :
  let category := category_value (pc_category cls) in
  let result' :=
    dict_set category
      (default [] (dict_get category
                     (if dict_mem category result then result
                      else dict_set category [] result)) ++ [cls])
      (if dict_mem category result then result else dict_set category [] result) in
  dict_get k result'
  = if decide (category = k)
    then Some (default [] (dict_get category result) ++ [cls])
    else dict_get k result.
Proof.
  intros category result'. subst result'. rewrite dict_get_set.
  destruct (decide (category = k)) as [<-|Hne].
  - unfold dict_mem. destruct (dict_get category result) eqn:Hget; [by rewrite Hget|].
    by rewrite dict_get_set_eq.
  - unfold dict_mem. destruct (dict_get category result); [done|].
    by rewrite dict_get_set_ne.
Qed.

Lemma list_by_category_get (classes : list provider_class) (k : string) :
  dict_get k (foldl (λ result cls,
                       let category := category_value (pc_category cls) in
                       let result :=
                         if dict_mem category result then result
                         else dict_set category [] result in
                       dict_set category
                         (default [] (dict_get category result) ++ [cls]) result)
                    [] classes)
  = match filter (λ cls, category_value (pc_category cls) = k) classes with
    | [] => None
    | group => Some group
    end.
Proof.
  revert k. induction classes as [|cls classes IH] using rev_ind; intros k; [done|].
  rewrite foldl_app. cbn [foldl]. rewrite list_by_category_step.
  rewrite filter_app, filter_cons, filter_nil.
  destruct (decide (category_value (pc_category cls) = k)) as [Heq|Hne].
  - rewrite IH, Heq. destruct (filter _ classes); by simpl.
  - rewrite IH, app_nil_r. done.
Qed.

Lemma list_by_category_NoDup (classes : list provider_class) :
  NoDup (dict_keys
           (foldl (λ result cls,
                     let category := category_value (pc_category cls) in
                     let result :=
                       if dict_mem category result then result
                       else dict_set category [] result in
                     dict_set category
                       (default [] (dict_get category result) ++ [cls]) result)
                  [] classes)).
Proof.
  induction classes as [|cls classes IH] using rev_ind; [apply NoDup_nil_2|].
  rewrite foldl_app. cbn [foldl]. apply dict_set_NoDup.
  destruct (dict_mem _ _); [done|]. by apply dict_set_NoDup.
Qed.

(** X25.  The two listings of the registry agree.  [list_by_category]
    groups the registered provider classes by their category: the group
    of a category is exactly what [list_providers] returns for that
    category, in the order of registration; a category is a key of the
    result exactly when some registered class has it, so no group is
    empty; and every registered class is in the group of its own
    category. *)
Theorem list_by_category_groups (self : ProviderRegistry) :
  let groups := list_by_category self in
  NoDup (dict_keys groups) ∧
  (∀ c, default [] (dict_get (category_value c) groups) = list_providers self (Some c)) ∧
  (∀ k group, dict_get k groups = Some group →
     group ≠ [] ∧ ∃ c, k = category_value c ∧ group = list_providers self (Some c)) ∧
  (∀ cls, cls ∈ list_providers self None →
     ∃ group, dict_get (category_value (pc_category cls)) groups = Some group ∧ cls ∈ group).
Proof.
  intros groups. subst groups. unfold list_by_category, list_providers.
  set (classes := (_providers self).*2).
  assert (∀ c, filter (λ cls, category_value (pc_category cls) = category_value c) classes
               = filter (λ cls, pc_category cls = c) classes) as Hfilter.
  { intros c. apply list_filter_iff. intros cls. split; [apply category_value_inj|by intros ->]. }
  split_and!.
  - apply list_by_category_NoDup.
  - intros c. rewrite list_by_category_get, Hfilter. by destruct (filter _ classes).
  - intros k group. rewrite list_by_category_get.
    destruct (filter _ classes) as [|cls l] eqn:Hf; [done|]. intros [= <-].
    split; [done|].
    assert (cls ∈ filter (λ cls, category_value (pc_category cls) = k) classes) as Hin
      by (rewrite Hf; apply list_elem_of_here).
    apply list_elem_of_filter in Hin as [Hk _].
    exists (pc_category cls). split; [done|]. by rewrite <- Hfilter, Hk.
  - intros cls Hcls. rewrite list_by_category_get.
    assert (cls ∈ filter (λ cls', category_value (pc_category cls')
                                  = category_value (pc_category cls)) classes) as Hin
      by (by apply list_elem_of_filter).
    destruct (filter _ classes) as [|cls' l] eqn:Hf; [by apply elem_of_nil in Hin|].
    by eexists.
Qed.

(* ================================================================= *)
(** ** The registry: classes by name *)

Lemma register_all_eq (classes : list provider_class) (self : ProviderRegistry) :
  foldl (λ self cls, (register self cls).2) self classes
  = {| _providers := store_all (by_class_name classes) (_providers self);
       _instances := _instances self |}.
Proof.
  revert self. induction classes as [|cls classes IH]; intros self.
  - by destruct self.
  - cbn [foldl]. rewrite IH. unfold by_class_name, register. rewrite filter_cons.
    destruct (String.eqb_spec (pc_name cls) "") as [Heq|Hne].
    + by rewrite decide_False by (by intros ?).
    + by rewrite decide_True by done.
Qed.

Lemma registered_entries (classes : list provider_class) (k : string)
    (cls : provider_class) :
  (k, cls) ∈ _providers (registered classes) →
  k = pc_name cls ∧ dict_get k (_providers (registered classes)) = Some cls.
Proof.
  unfold registered. rewrite register_all_eq. cbn [_providers ProviderRegistry_init].
  intros Hin.
  assert (dict_get k (store_all (by_class_name classes) []) = Some cls) as Hget.
  { apply dict_elem_get; [|done]. apply store_all_NoDup, NoDup_nil_2. }
  split; [|done].
  apply store_all_get_Some in Hget as [Hkv|Hnil]; [|done].
  unfold by_class_name in Hkv. apply list_elem_of_fmap in Hkv as (c & [= -> ->] & _).
  done.
Qed.

(** X26.  The registry holds every class under its own name.  After any
    sequence of [register] calls on a new registry, a name is looked up
    to the class registered last under it, among the classes that have a
    name (a class without one is refused); the classes [list_providers]
    lists have pairwise distinct names, and a class is listed exactly
    when looking up its own name returns it.  [create_provider] then
    raises [ValueError] and leaves the registry alone for a name that was
    never registered; for a registered name it calls the constructor of
    the class registered last under that name and returns its outcome,
    and [get_instance] afterwards returns the instance if there is one. *)
Theorem registry_keyed_by_name
    (instantiate : provider_class → option (pydict json) → result MCPProvider)
    (classes : list provider_class) :
  let self := registered classes in
  (∀ name, get_provider_class self name = last_assigned name (by_class_name classes)) ∧
  NoDup (pc_name <$> list_providers self None) ∧
  (∀ cls, cls ∈ list_providers self None
          ↔ get_provider_class self (pc_name cls) = Some cls) ∧
  (∀ name config,
     let r := create_provider instantiate self name config in
     match last_assigned name (by_class_name classes) with
     | None =>
         r = (Raise (Exn ValueError ("Provider '" +:+ name +:+ "' not found in registry")),
              self)
     | Some cls =>
         pc_name cls = name ∧ r.1 = instantiate cls config ∧
         get_instance r.2 name = match instantiate cls config with
                                 | Ok instance => Some instance
                                 | Raise _ => None
                                 end
     end).
Proof.
  intros self.
  assert (∀ name, get_provider_class self name
                  = last_assigned name (by_class_name classes)) as Hget.
  { intros name. subst self. unfold get_provider_class, registered.
    rewrite register_all_eq. cbn [_providers ProviderRegistry_init].
    rewrite store_all_get. by destruct (last_assigned _ _). }
  assert (_instances self = []) as Hinst.
  { subst self. unfold registered. by rewrite register_all_eq. }
  split_and!; [done| | |].
  - unfold list_providers.
    assert (pc_name <$> (_providers self).*2 = dict_keys (_providers self)) as ->.
    { unfold dict_keys. rewrite <- list_fmap_compose. apply Forall_fmap_ext, Forall_forall.
      intros [k cls] Hin. simpl. by destruct (registered_entries classes k cls Hin) as [-> _]. }
    subst self. unfold registered. rewrite register_all_eq.
    apply store_all_NoDup, NoDup_nil_2.
  - intros cls. unfold list_providers, get_provider_class. split.
    + intros ([k c] & -> & Hin)%list_elem_of_fmap. simpl.
      by destruct (registered_entries classes k c Hin) as [<- ?].
    + intros Hin%dict_get_Some_elem. apply list_elem_of_fmap. by exists (pc_name cls, cls).
  - intros name config r. subst r. unfold create_provider. rewrite Hget.
    destruct (last_assigned name (by_class_name classes)) as [cls|] eqn:Hlast; [|done].
    split.
    { apply last_assigned_Some in Hlast. unfold by_class_name in Hlast.
      by apply list_elem_of_fmap in Hlast as (c & [= -> ->] & _). }
    destruct (instantiate cls config) as [instance|e]; cbn [fst snd].
    + split; [done|]. unfold get_instance. cbn [_instances]. apply dict_get_set_eq.
    + split; [done|]. unfold get_instance. by rewrite Hinst.
Qed.
